(** * Ledger aggregation of the finance dashboard (app.py)

    A shallow embedding of the data path of [app.py]: [convert_to_csv_url],
    [load_data] (the normalisation of the sheet read by [pd.read_csv]) and
    the pandas expressions of the dashboard script that derive the period
    view (the year and month selectors, [filtered_df], the to-date sums, the
    category breakdowns and the cumulative cash-flow series).

    pandas semantics the script relies on, and how they are written here:
    - a data frame is its column labels and its rows; [frame[label]] raises
      [KeyError] for a label the frame does not have;
    - a blank text cell is NaN: text columns hold an [option];
    - a blank date cell is NaT once the column is parsed: [option Timestamp];
    - [to_numeric(errors="coerce")] gives the column the dtype [int64] when
      every cell is an integer that fits, and [float64] otherwise, a
      non-numeric cell becoming NaN ([None]);
    - the arithmetic of an [int64] column wraps around at 2^63; that of a
      [float64] column is exact on whole numbers up to 2^53 and rounds
      beyond, in a way that depends on the order of the additions, which
      differs between [sum], [cumsum] and [groupby(...).sum()] and between
      releases of numpy and pandas: a value that is not a whole number up to
      2^53 is [Imprecise] here and is followed no further;
    - [Series.sum], [Series.max] and [groupby(...).sum()] skip NaN/NaT, the
      sum of nothing being 0 and the max of nothing NaT; [cumsum] leaves NaN
      where the input has NaN and carries the running total past it;
    - every comparison with NaN or NaT is False;
    - [groupby] drops the rows whose key is NaN and orders the groups by
      key: numbers by value, texts by code point;
    - [sort_values] with the default [kind="quicksort"] orders the rows by
      the key, NaT last, and promises nothing about ties; numpy's quicksort
      of a datetime column is written out below. *)

From Stdlib Require Import ZArith List String Ascii Bool Lia Permutation Sorted.
From ExtLib Require Import Structures.Monad Structures.MonadExc Data.Monads.EitherMonad.
Import ListNotations.
Import MonadNotation.

Local Open Scope string_scope.
Local Open Scope Z_scope.
Local Open Scope list_scope.
Local Open Scope monad_scope.

(** ** Calendar values *)

Inductive MonthOfYear :=
| January | February | March | April | May | June
| July | August | September | October | November | December.

(** [Timestamp.month] *)
Definition month_number (m : MonthOfYear) : Z :=
  match m with
  | January => 1 | February => 2 | March => 3 | April => 4
  | May => 5 | June => 6 | July => 7 | August => 8
  | September => 9 | October => 10 | November => 11 | December => 12
  end.

(** [Timestamp.month_name()] *)
Definition month_name (m : MonthOfYear) : string :=
  match m with
  | January => "January" | February => "February" | March => "March"
  | April => "April" | May => "May" | June => "June" | July => "July"
  | August => "August" | September => "September" | October => "October"
  | November => "November" | December => "December"
  end.

(** A parsed [Date] cell: a calendar day and the time within it. *)
Record Timestamp := mkTimestamp {
  ts_year : Z;
  ts_month : MonthOfYear;
  ts_day : Z;
  ts_time : Z
}.

(** The order of timestamps: year, then month, then day, then time. *)
Definition ts_compare (a b : Timestamp) : comparison :=
  match ts_year a ?= ts_year b with
  | Eq =>
      match month_number (ts_month a) ?= month_number (ts_month b) with
      | Eq =>
          match ts_day a ?= ts_day b with
          | Eq => ts_time a ?= ts_time b
          | c => c
          end
      | c => c
      end
  | c => c
  end.

Definition ts_leb (a b : Timestamp) : bool :=
  match ts_compare a b with Gt => false | _ => true end.

Definition ts_ltb (a b : Timestamp) : bool :=
  match ts_compare a b with Lt => true | _ => false end.

Definition ts_eqb (a b : Timestamp) : bool :=
  match ts_compare a b with Eq => true | _ => false end.

(** ** Numbers of the [Amount] column *)

(** The dtype [pd.to_numeric] gives the column. *)
Inductive Dtype := int64 | float64.

(** A value of the column, or the result of arithmetic on such values: a
    whole number, or a [float64] that is not a whole number of magnitude up
    to 2^53 (a fraction, a rounded sum, an infinity). *)
Inductive Number :=
| Whole (z : Z)
| Imprecise.

(** Two's complement: the [int64] that numpy keeps of an integer. *)
Definition wrap (z : Z) : Z := (z + 2 ^ 63) mod 2 ^ 64 - 2 ^ 63.

(** The [float64] of an integer that it holds exactly. *)
Definition float64_of_Z (z : Z) : Number :=
  if Z.abs z <=? 2 ^ 53 then Whole z else Imprecise.

(** The value of the dtype for the integer an exact operation gives. *)
Definition number_of_Z (dtype : Dtype) (z : Z) : Number :=
  match dtype with
  | int64 => Whole (wrap z)
  | float64 => float64_of_Z z
  end.

(** [a + b], [a - b] and [abs(a)] on two values of one dtype.  The
    [float64] operations are correctly rounded, so they are exact whenever
    the exact result is a whole number up to 2^53. *)
Definition add (dtype : Dtype) (a b : Number) : Number :=
  match a, b with
  | Whole x, Whole y => number_of_Z dtype (x + y)
  | _, _ => Imprecise
  end.

Definition sub (dtype : Dtype) (a b : Number) : Number :=
  match a, b with
  | Whole x, Whole y => number_of_Z dtype (x - y)
  | _, _ => Imprecise
  end.

Definition absolute (dtype : Dtype) (a : Number) : Number :=
  match a with
  | Whole x => number_of_Z dtype (Z.abs x)
  | Imprecise => Imprecise
  end.

(** ** The table read from the sheet *)

(** What [read_csv(..., parse_dates=["Date"])] finds in a [Date] cell. *)
Inductive DateCell :=
| DateValue (t : Timestamp)     (* text that parses as a date *)
| DateBlank                     (* empty cell: NaT once the column is parsed *)
| DateText (s : string).        (* text that is no date *)

(** What an [Amount (PKR)] cell holds for [pd.to_numeric]. *)
Inductive AmountCell :=
| Numeric (z : Z)               (* an integer *)
| Decimal (s : string)          (* a number written with a fraction or an exponent *)
| NonNumeric (s : string).      (* anything else, the empty cell too *)

(** A value of the [Category] column: [read_csv] reads a column of numbers
    as numbers and any other column as text. *)
Inductive Label :=
| Text (s : string)
| Code (z : Z).

(** One line of the sheet, before the date column is converted. *)
Record CsvRow := mkCsvRow {
  csv_Date : DateCell;
  csv_Type : option string;
  csv_Category : option Label;
  csv_Description : option string;
  csv_Amount_PKR : AmountCell
}.

(** The sheet: its header and its lines.  The cells of a column that the
    header does not name are not read by the script. *)
Record Sheet := mkSheet {
  columns : list string;
  lines : list CsvRow
}.

(** One row of the data frame [load_data] returns: the five columns of the
    sheet and the three columns lines 51-53 add. *)
Record Row := mkRow {
  Date : option Timestamp;
  Type_ : option string;
  Category : option Label;
  Description : option string;
  Amount_PKR : AmountCell;
  Amount : option Number;
  Year : option Z;
  Month : option string
}.

(** A data frame: the labels of its columns and its rows. *)
Record DataFrame := mkDataFrame {
  labels : list string;
  rows :> list Row
}.

(** [pd.DataFrame()] *)
Definition empty_frame : DataFrame := mkDataFrame [] [].

(** ** Exceptions and the page *)

Inductive Exception :=
| ValueError (msg : string)
| KeyError (key : string)
| AttributeError (msg : string)
| URLError (msg : string).

Definition str (e : Exception) : string :=
  match e with
  | ValueError msg => msg
  | KeyError key => "'" ++ key ++ "'"
  | AttributeError msg => msg
  | URLError msg => msg
  end%string.

(** A call of the script: what it returns or raises, and what it wrote on
    the page with [st.error]. *)
Record Outcome (A : Type) := mkOutcome {
  result : Exception + A;
  page : list string
}.
Arguments mkOutcome {A} _ _.
Arguments result {A} _.
Arguments page {A} _.

Definition raises {A} (o : Outcome A) : Prop :=
  exists e, result o = inl e.

(** Line 56: the message [st.error] shows. *)
Definition st_error (e : Exception) : string :=
  ("⚠️ Failed to load data: " ++ str e)%string.

(** ** [load_data] *)

(** A cell that an [int64] column can hold. *)
Definition int64_cell (c : AmountCell) : bool :=
  match c with
  | Numeric z => (- 2 ^ 63 <=? z) && (z <? 2 ^ 63)
  | _ => false
  end.

(** The dtype of the column [pd.to_numeric(cells, errors="coerce")]
    returns. *)
Definition numeric_dtype (cells : list AmountCell) : Dtype :=
  if forallb int64_cell cells then int64 else float64.

(** One cell of a column converted to [dtype]. *)
Definition coerce (dtype : Dtype) (c : AmountCell) : option Number :=
  match c with
  | Numeric z =>
      Some (match dtype with int64 => Whole z | float64 => float64_of_Z z end)
  | Decimal _ => Some Imprecise
  | NonNumeric _ => None
  end.

(** [pd.to_numeric(cells, errors="coerce")] *)
Definition to_numeric (cells : list AmountCell) : list (option Number) :=
  map (coerce (numeric_dtype cells)) cells.

(** [pd.to_datetime] on the cells of a column: the timestamps (NaT for a
    blank), or [None] when a cell does not convert. *)
Fixpoint to_datetime (cells : list DateCell) : option (list (option Timestamp)) :=
  match cells with
  | [] => Some []
  | DateValue t :: rest => option_map (cons (Some t)) (to_datetime rest)
  | DateBlank :: rest => option_map (cons None) (to_datetime rest)
  | DateText _ :: _ => None
  end.

(** The [Date] column as [read_csv(..., parse_dates=["Date"])] leaves it:
    converted to datetime when every cell converts, and otherwise returned
    unaltered with the object dtype, which is [None] here.  For a sheet
    without lines [read_csv] builds the empty frame without converting any
    column, so the column keeps the object dtype as well. *)
Definition parse_dates (cells : list DateCell) : option (list (option Timestamp)) :=
  match cells with
  | [] => None
  | _ :: _ => to_datetime cells
  end.

(** The sorting routine behind [sort_values] with the default
    [kind="quicksort"] ([numpy.argsort]).  Its documented contract is that
    the result is the input reordered by ascending key; the relative order
    of equal keys is left to the implementation (only [mergesort] and
    [stable] are stable). *)
Record Argsort := mkArgsort {
  quicksort : forall A : Type, list (Timestamp * A) -> list (Timestamp * A);
  quicksort_perm : forall A (l : list (Timestamp * A)),
    Permutation (quicksort A l) l;
  quicksort_sorted : forall A (l : list (Timestamp * A)),
    StronglySorted (fun a b => ts_leb (fst a) (fst b) = true) (quicksort A l)
}.

(** The rows that have a date, with it as key, in frame order. *)
Fixpoint dated {A} (rows : list (option Timestamp * A)) : list (Timestamp * A) :=
  match rows with
  | [] => []
  | (Some t, a) :: rest => (t, a) :: dated rest
  | (None, _) :: rest => dated rest
  end.

(** The rows whose date is NaT, in frame order. *)
Definition undated {A} (rows : list (option Timestamp * A)) : list (option Timestamp * A) :=
  filter (fun r => match fst r with None => true | Some _ => false end) rows.

Definition with_date {A} (r : Timestamp * A) : option Timestamp * A :=
  (Some (fst r), snd r).

(** Line 53: [df["Date"].dt.month_name()], and line 52 likewise. *)
Definition dt_year (d : option Timestamp) : option Z := option_map ts_year d.
Definition dt_month_name (d : option Timestamp) : option string :=
  option_map (fun t => month_name (ts_month t)) d.

(** Lines 51-53 on one row of the sorted frame, [dtype] being the dtype
    line 51 gives the new column. *)
Definition add_columns (dtype : Dtype) (r : option Timestamp * CsvRow) : Row :=
  {| Date := fst r;
     Type_ := csv_Type (snd r);
     Category := csv_Category (snd r);
     Description := csv_Description (snd r);
     Amount_PKR := csv_Amount_PKR (snd r);
     Amount := coerce dtype (csv_Amount_PKR (snd r));
     Year := dt_year (fst r);
     Month := dt_month_name (fst r) |}.

Definition has_column (sheet : Sheet) (name : string) : bool :=
  existsb (String.eqb name) (columns sheet).

(** [df[name] = ...]: a new column goes to the right of the others. *)
Definition assign (labels : list string) (name : string) : list string :=
  if existsb (String.eqb name) labels then labels else labels ++ [name].

Section LoadData.

(** The two collaborators of [load_data]: the sort of numpy, and the
    remote sheet behind a URL, which [read_csv] fetches or fails to. *)
Variable argsort : Argsort.
Variable fetch : string -> Exception + Sheet.

(** [df.sort_values("Date")] on a frame whose [Date] column is datetime:
    the dated rows in the order numpy gives them, then the NaT rows in the
    order they had ([na_position="last"]). *)
Definition sort_values {A} (rows : list (option Timestamp * A)) :
  list (option Timestamp * A) :=
  map with_date (quicksort argsort A (dated rows)) ++ undated rows.

(** Lines 49-54, the body of the [try].  [read_csv] raises when the sheet
    cannot be fetched or has no [Date] column to parse; line 51 raises
    [KeyError] without an [Amount (PKR)] column; line 52 raises
    [AttributeError] when [read_csv] left the [Date] column unconverted.
    Sorting an unconverted column raises nothing and its result is lost to
    the [AttributeError], so the sort is written after that test. *)
Definition load_data_body (sheet_url : string) : Exception + DataFrame :=
  sheet <- fetch sheet_url ;;
  (if has_column sheet "Date" then ret tt
   else raise (ValueError "Missing column provided to 'parse_dates': 'Date'")) ;;
  (if has_column sheet "Amount (PKR)" then ret tt
   else raise (KeyError "Amount (PKR)")) ;;
  match parse_dates (map csv_Date (lines sheet)) with
  | None => raise (AttributeError "Can only use .dt accessor with datetimelike values")
  | Some dates =>
      let df := combine dates (lines sheet) in
      let df := sort_values df in
      let dtype := numeric_dtype (map csv_Amount_PKR (lines sheet)) in
      ret (mkDataFrame (assign (assign (assign (columns sheet) "Amount") "Year") "Month")
                       (map (add_columns dtype) df))
  end.

(** Lines 45-57.  The [ttl=60] cache stands outside: it replays this
    function. *)
Definition load_data (sheet_url : option string) : Outcome DataFrame :=
  match sheet_url with
  | None => mkOutcome (inr empty_frame) []
  | Some url =>
      match load_data_body url with
      | inr df => mkOutcome (inr df) []
      | inl e => mkOutcome (inr empty_frame) [st_error e]
      end
  end.

End LoadData.

(** ** pandas expressions used by the script *)

(** [frame[label]] on the labels of a frame: [KeyError] for a column the
    frame does not have.  The cells themselves are read from the rows. *)
Definition getitem (df : DataFrame) (label : string) : Exception + unit :=
  if existsb (String.eqb label) (labels df) then ret tt else raise (KeyError label).

(** [column == value] on a text column; NaN equals nothing. *)
Definition text_is (value : string) (cell : option string) : bool :=
  match cell with
  | Some s => String.eqb s value
  | None => false
  end.

(** [df["Year"] == selected_year] *)
Definition year_is (value : Z) (cell : option Z) : bool :=
  match cell with
  | Some y => y =? value
  | None => false
  end.

(** [df["Date"] <= cutoff]; False when either side is NaT. *)
Definition date_le (d cutoff : option Timestamp) : bool :=
  match d, cutoff with
  | Some a, Some b => ts_leb a b
  | _, _ => false
  end.

(** The values of a series that are not NaN. *)
Fixpoint present {A} (s : list (option A)) : list A :=
  match s with
  | [] => []
  | Some a :: rest => a :: present rest
  | None :: rest => present rest
  end.

(** The integers of a list of numbers, when every one of them is whole. *)
Fixpoint wholes (s : list Number) : option (list Z) :=
  match s with
  | [] => Some []
  | Whole z :: rest => option_map (cons z) (wholes rest)
  | Imprecise :: _ => None
  end.

(** The sum of a list of integers. *)
Definition total (amounts : list Z) : Z := fold_right Z.add 0 amounts.

(** [Series.sum()] on a column of [dtype].  NaN is skipped.  On [int64] the
    additions wrap around, in whatever order they are made.  On [float64]
    numpy adds in blocks and [groupby] with a running compensation: in
    every such order the additions are exact, and the result the exact
    total, when the absolute values add up to 2^53 at most; otherwise the
    result depends on the order and is [Imprecise]. *)
Definition series_sum (dtype : Dtype) (s : list (option Number)) : Number :=
  match dtype with
  | int64 => fold_left (add int64) (present s) (Whole 0)
  | float64 =>
      match wholes (present s) with
      | Some zs =>
          if total (map Z.abs zs) <=? 2 ^ 53 then Whole (total zs) else Imprecise
      | None => Imprecise
      end
  end.

(** [Series.max()] on a datetime column *)
Fixpoint series_max (s : list (option Timestamp)) : option Timestamp :=
  match s with
  | [] => None
  | None :: rest => series_max rest
  | Some a :: rest =>
      match series_max rest with
      | None => Some a
      | Some b => Some (if ts_leb a b then b else a)
      end
  end.

(** [Series.cumsum()]: one addition after the other, from the top; a NaN
    stays and the running total goes on past it. *)
Fixpoint cumsum_from (dtype : Dtype) (total : Number) (s : list (option Number)) :
  list (option Number) :=
  match s with
  | [] => []
  | Some a :: rest =>
      Some (add dtype total a) :: cumsum_from dtype (add dtype total a) rest
  | None :: rest => None :: cumsum_from dtype total rest
  end.

Definition cumsum (dtype : Dtype) (s : list (option Number)) : list (option Number) :=
  cumsum_from dtype (Whole 0) s.

(** [Series.unique()]: the distinct values in order of first appearance. *)
Fixpoint unique {A} (eqb : A -> A -> bool) (s : list A) : list A :=
  match s with
  | [] => []
  | x :: rest => x :: filter (fun y => negb (eqb x y)) (unique eqb rest)
  end.

Definition option_eqb {A} (eqb : A -> A -> bool) (a b : option A) : bool :=
  match a, b with
  | Some x, Some y => eqb x y
  | None, None => true
  | _, _ => false
  end.

(** Python's [sorted(values, reverse=True)] on the year column.  [<] on a
    NaN is False; on keys without NaN this is the descending order every
    sort agrees on. *)
Definition year_lt (a b : option Z) : bool :=
  match a, b with
  | Some x, Some y => x <? y
  | _, _ => false
  end.

Fixpoint insert_reverse (x : option Z) (l : list (option Z)) : list (option Z) :=
  match l with
  | [] => [x]
  | y :: rest => if year_lt x y then y :: insert_reverse x rest else x :: y :: rest
  end.

Definition sorted_reverse (values : list (option Z)) : list (option Z) :=
  fold_right insert_reverse [] values.

(** Equality and order of the values of the [Category] column.  A column
    holds numbers or texts, not both; between the two the order below is
    never asked. *)
Definition label_eqb (a b : Label) : bool :=
  match a, b with
  | Text s, Text t => String.eqb s t
  | Code x, Code y => x =? y
  | _, _ => false
  end.

Definition label_leb (a b : Label) : bool :=
  match a, b with
  | Text s, Text t => String.leb s t
  | Code x, Code y => x <=? y
  | Code _, Text _ => true
  | Text _, Code _ => false
  end.

(** [column == value] on the [Category] column. *)
Definition label_is (value : Label) (cell : option Label) : bool :=
  match cell with
  | Some k => label_eqb k value
  | None => false
  end.

(** The group keys of [groupby]: the distinct non-NaN values, ascending. *)
Fixpoint insert_key (k : Label) (l : list Label) : list Label :=
  match l with
  | [] => [k]
  | k' :: rest => if label_leb k k' then k :: k' :: rest else k' :: insert_key k rest
  end.

Definition group_keys (s : list (option Label)) : list Label :=
  fold_right insert_key [] (unique label_eqb (present s)).

(** [frame.groupby("Category")["Amount"].sum()], the [Amount] column being
    of [dtype]. *)
Definition groupby_Category_sum (dtype : Dtype) (frame : list Row) : list (Label * Number) :=
  map (fun k => (k, series_sum dtype
                      (map Amount (filter (fun r => label_is k (Category r)) frame))))
      (group_keys (map Category frame)).

(** [Series.abs()] on a grouped sum *)
Definition abs (dtype : Dtype) (s : list (Label * Number)) : list (Label * Number) :=
  map (fun kv => (fst kv, absolute dtype (snd kv))) s.

(** ** The script, lines 63-135 *)

(** The dtype of the [Amount] column of a frame: the one line 51 found for
    its [Amount (PKR)] column.  A selection of rows keeps the dtype of the
    frame it is taken from. *)
Definition Amount_dtype (df : list Row) : Dtype :=
  numeric_dtype (map Amount_PKR df).

(** Line 63: the options of the year selector. *)
Definition AvailableYears (df : list Row) : list (option Z) :=
  sorted_reverse (unique (option_eqb Z.eqb) (map Year df)).

(** Line 64: the options of the month selector. *)
Definition AvailableMonths (df : list Row) (selected_year : Z) : list (option string) :=
  unique (option_eqb String.eqb)
         (map Month (filter (fun r => year_is selected_year (Year r)) df)).

Section Selection.

(** The rows of the frame; that the columns are there is tested by
    [columns_read] below. *)
Variable df : list Row.
Variable selected_year : Z.
Variable selected_month : string.

(** Line 66 *)
Definition filtered_df : list Row :=
  filter (fun r => year_is selected_year (Year r) && text_is selected_month (Month r)) df.

(** Lines 67-68 *)
Definition income_df : list Row :=
  filter (fun r => text_is "Income" (Type_ r)) filtered_df.
Definition expense_df : list Row :=
  filter (fun r => text_is "Expense" (Type_ r)) filtered_df.

(** [filtered_df["Date"].max()] *)
Definition period_end : option Timestamp := series_max (map Date filtered_df).

(** Lines 70-73 *)
Definition initial_investment : Number :=
  series_sum (Amount_dtype df)
    (map Amount (filter (fun r => text_is "Initial" (Type_ r)) df)).
Definition income_till_now : Number :=
  series_sum (Amount_dtype df) (map Amount
    (filter (fun r => date_le (Date r) period_end && text_is "Income" (Type_ r)) df)).
Definition expense_till_now : Number :=
  series_sum (Amount_dtype df) (map Amount
    (filter (fun r => date_le (Date r) period_end && text_is "Expense" (Type_ r)) df)).
Definition current_balance : Number :=
  sub (Amount_dtype df)
      (add (Amount_dtype df) initial_investment income_till_now) expense_till_now.

(** Lines 96-97: the frame of the cash-flow chart, each row with its
    [Cumulative Balance]. *)
Definition flow_data : list (Row * option Number) :=
  combine filtered_df (cumsum (Amount_dtype df) (map Amount filtered_df)).

(** Lines 116 and 124 *)
Definition expense_by_cat : list (Label * Number) :=
  abs (Amount_dtype df) (groupby_Category_sum (Amount_dtype df) expense_df).
Definition income_by_cat : list (Label * Number) :=
  groupby_Category_sum (Amount_dtype df) income_df.

End Selection.

(** The columns lines 66-135 read, in the order they read them.  The last
    is read with four others at line 135, whose [KeyError] names the
    missing ones. *)
Definition columns_read (df : DataFrame) : Exception + unit :=
  getitem df "Year" ;;
  getitem df "Month" ;;
  getitem df "Type" ;;
  getitem df "Amount" ;;
  getitem df "Date" ;;
  getitem df "Category" ;;
  (if existsb (String.eqb "Description") (labels df) then ret tt
   else raise (KeyError "['Description'] not in index")).

(** What the script derives for one selection and hands to the page. *)
Record DerivedPeriodView := mkView {
  transactions : list Row;
  initialInvestment : Number;
  incomeToDate : Number;
  expenseToDate : Number;
  currentBalance : Number;
  incomeByCategory : list (Label * Number);
  expenseByCategory : list (Label * Number);
  cumulativeBalance : list (Row * option Number)
}.

(** Lines 66-135 for one selection: the [KeyError] of the first column
    that is not there, or the view. *)
Definition Aggregate (df : DataFrame) (selected_year : Z) (selected_month : string) :
  Exception + DerivedPeriodView :=
  columns_read df ;;
  ret {| transactions := filtered_df df selected_year selected_month;
         initialInvestment := initial_investment df;
         incomeToDate := income_till_now df selected_year selected_month;
         expenseToDate := expense_till_now df selected_year selected_month;
         currentBalance := current_balance df selected_year selected_month;
         incomeByCategory := income_by_cat df selected_year selected_month;
         expenseByCategory := expense_by_cat df selected_year selected_month;
         cumulativeBalance := flow_data df selected_year selected_month |}.

(** ** The charts and the first options of the selectors *)

(** [st.selectbox(label, options)] before the user touches it: the first
    option is selected, and nothing without options. *)
Definition selectbox {A} (options : list A) : option A := hd_error options.

(** Lines 102-104: the two bars of the monthly summary. *)
Definition summary_bar (df : list Row) (selected_year : Z) (selected_month : string) :
  list (string * Number) :=
  [ ("Income", series_sum (Amount_dtype df)
                 (map Amount (income_df df selected_year selected_month)));
    ("Expense", series_sum (Amount_dtype df)
                  (map Amount (expense_df df selected_year selected_month))) ].

(** Lines 117-121 and 125-129: the pie of a category table, or the notice
    shown in its place when the table is empty. *)
Inductive Chart :=
| Pie (values : list (Label * Number))
| Info (notice : string).

Definition category_chart (notice : string) (table : list (Label * Number)) : Chart :=
  match table with
  | [] => Info notice
  | _ :: _ => Pie table
  end.

Definition expense_chart (df : list Row) (selected_year : Z) (selected_month : string) :
  Chart :=
  category_chart "No expenses recorded for this month."
                 (expense_by_cat df selected_year selected_month).

Definition income_chart (df : list Row) (selected_year : Z) (selected_month : string) :
  Chart :=
  category_chart "No income recorded for this month."
                 (income_by_cat df selected_year selected_month).

(** ** numpy's quicksort *)

(** [argsort(kind="quicksort")] of a datetime column, from numpy's
    [npysort/quicksort.cpp] ([aquicksort_]) and [heapsort.cpp]
    ([aheapsort_]): an introsort on the array [tosort] of row numbers,
    [v] being the keys.  A pointer into [tosort] is a position here.  Every
    loop of the C text ends on every input; the fuel the loops are given is
    never used up. *)
Module npysort.
Local Open Scope nat_scope.

Definition SMALL_QUICKSORT : nat := 16.

Section Keys.
Variable v : list Timestamp.

(** [v[i]] *)
Definition key (i : nat) : Timestamp :=
  nth i v {| ts_year := 0; ts_month := January; ts_day := 0; ts_time := 0 |}.

(** [Tag::less] on datetimes that are not NaT *)
Definition less (a b : Timestamp) : bool := ts_ltb a b.

(** Reading the position [p], writing it, and [INTP_SWAP] of two positions *)
Definition item (tosort : list nat) (p : nat) : nat := nth p tosort 0.

Fixpoint store (tosort : list nat) (p x : nat) : list nat :=
  match tosort, p with
  | [], _ => []
  | _ :: rest, O => x :: rest
  | y :: rest, S q => y :: store rest q x
  end.

Definition swap (tosort : list nat) (p q : nat) : list nat :=
  store (store tosort p (item tosort q)) q (item tosort p).

(** [do ++pi; while less(v[tosort[pi]], vp)] *)
Fixpoint scan_up (fuel : nat) (tosort : list nat) (vp : Timestamp) (pi : nat) : nat :=
  match fuel with
  | O => pi
  | S fuel' =>
      let pi := S pi in
      if less (key (item tosort pi)) vp then scan_up fuel' tosort vp pi else pi
  end.

(** [do --pj; while less(vp, v[tosort[pj]])] *)
Fixpoint scan_down (fuel : nat) (tosort : list nat) (vp : Timestamp) (pj : nat) : nat :=
  match fuel with
  | O => pj
  | S fuel' =>
      let pj := pj - 1 in
      if less vp (key (item tosort pj)) then scan_down fuel' tosort vp pj else pj
  end.

(** The [for (;;)] of the partition: the two scans, then the swap unless
    the scans have met. *)
Fixpoint exchange (fuel : nat) (tosort : list nat) (vp : Timestamp) (pi pj : nat) :
  list nat * nat :=
  match fuel with
  | O => (tosort, pi)
  | S fuel' =>
      let pi := scan_up (List.length tosort) tosort vp pi in
      let pj := scan_down (List.length tosort) tosort vp pj in
      if pj <=? pi then (tosort, pi)
      else exchange fuel' (swap tosort pi pj) vp pi pj
  end.

(** One partition of [pl..pr]: the median of three goes to [pr - 1] as
    pivot, the exchanges run, and the pivot is put at [pi], which is
    returned. *)
Definition partition_step (tosort : list nat) (pl pr : nat) : list nat * nat :=
  let pm := pl + (pr - pl) / 2 in
  let tosort :=
    if less (key (item tosort pm)) (key (item tosort pl)) then swap tosort pm pl
    else tosort in
  let tosort :=
    if less (key (item tosort pr)) (key (item tosort pm)) then swap tosort pr pm
    else tosort in
  let tosort :=
    if less (key (item tosort pm)) (key (item tosort pl)) then swap tosort pm pl
    else tosort in
  let vp := key (item tosort pm) in
  let pj := pr - 1 in
  let tosort := swap tosort pm pj in
  let (tosort, pi) := exchange (List.length tosort) tosort vp pl pj in
  (swap tosort pi (pr - 1), pi).

(** The insertion sort of a short stretch [pl..pr]. *)
Fixpoint shift (fuel : nat) (tosort : list nat) (vp : Timestamp) (pl pj : nat) :
  list nat * nat :=
  match fuel with
  | O => (tosort, pj)
  | S fuel' =>
      if (pl <? pj) && less vp (key (item tosort (pj - 1)))
      then shift fuel' (store tosort pj (item tosort (pj - 1))) vp pl (pj - 1)
      else (tosort, pj)
  end.

Definition insert_at (tosort : list nat) (pl pi : nat) : list nat :=
  let vi := item tosort pi in
  let (tosort, pj) := shift (List.length tosort) tosort (key vi) pl pi in
  store tosort pj vi.

Fixpoint insertions (count : nat) (tosort : list nat) (pl pi : nat) : list nat :=
  match count with
  | O => tosort
  | S count' => insertions count' (insert_at tosort pl pi) pl (S pi)
  end.

Definition insertion_sort (tosort : list nat) (pl pr : nat) : list nat :=
  insertions (pr - pl) tosort pl (S pl).

(** [aheapsort_] on the [n] positions from [pl]; [a[i]] of the C text,
    which counts from one, is position [pl + i - 1]. *)
Fixpoint sift (fuel : nat) (tosort : list nat) (pl tmp i j n : nat) : list nat * nat :=
  match fuel with
  | O => (tosort, i)
  | S fuel' =>
      if j <=? n then
        let j :=
          if (j <? n)
             && less (key (item tosort (pl + j - 1))) (key (item tosort (pl + (j + 1) - 1)))
          then j + 1 else j in
        if less (key tmp) (key (item tosort (pl + j - 1)))
        then sift fuel' (store tosort (pl + i - 1) (item tosort (pl + j - 1)))
                  pl tmp j (j + j) n
        else (tosort, i)
      else (tosort, i)
  end.

Fixpoint heapify (l : nat) (tosort : list nat) (pl n : nat) : list nat :=
  match l with
  | O => tosort
  | S l' =>
      let tmp := item tosort (pl + l - 1) in
      let (tosort, i) := sift n tosort pl tmp l (l + l) n in
      heapify l' (store tosort (pl + i - 1) tmp) pl n
  end.

Fixpoint unheap (n : nat) (tosort : list nat) (pl : nat) : list nat :=
  match n with
  | O => tosort
  | S O => tosort
  | S n' =>
      let tmp := item tosort (pl + n - 1) in
      let tosort := store tosort (pl + n - 1) (item tosort pl) in
      let (tosort, i) := sift n tosort pl tmp 1 2 n' in
      unheap n' (store tosort (pl + i - 1) tmp) pl
  end.

Definition heapsort (tosort : list nat) (pl n : nat) : list nat :=
  unheap n (heapify (n / 2) tosort pl n) pl.

(** The stack of the stretches still to sort, each with its depth. *)
Definition Stack := list (nat * nat * Z).

(** [while ((pr - pl) > SMALL_QUICKSORT)]: partition, push the larger
    side, go on with the smaller. *)
Fixpoint partitions (fuel : nat) (tosort : list nat) (pl pr : nat) (cdepth : Z)
    (stack : Stack) : list nat * nat * nat * Stack :=
  match fuel with
  | O => (tosort, pl, pr, stack)
  | S fuel' =>
      if SMALL_QUICKSORT <? pr - pl then
        let (tosort, pi) := partition_step tosort pl pr in
        let cdepth := (cdepth - 1)%Z in
        if pi - pl <? pr - pi
        then partitions fuel' tosort pl (pi - 1) cdepth ((pi + 1, pr, cdepth) :: stack)
        else partitions fuel' tosort (pi + 1) pr cdepth ((pl, pi - 1, cdepth) :: stack)
      else (tosort, pl, pr, stack)
  end.

(** [while (1)]: heapsort when the depth is used up, else the partitions
    and the insertion sort of what they leave; then the next stretch of
    the stack. *)
Fixpoint stretches (fuel : nat) (tosort : list nat) (pl pr : nat) (cdepth : Z)
    (stack : Stack) : list nat :=
  match fuel with
  | O => tosort
  | S fuel' =>
      let (tosort, stack) :=
        if (cdepth <? 0)%Z then (heapsort tosort pl (pr - pl + 1), stack)
        else
          match partitions (List.length tosort) tosort pl pr cdepth stack with
          | (tosort, pl, pr, stack) => (insertion_sort tosort pl pr, stack)
          end in
      match stack with
      | [] => tosort
      | (pl, pr, cdepth) :: stack => stretches fuel' tosort pl pr cdepth stack
      end
  end.

End Keys.

(** [npy_get_msb(num) * 2] *)
Definition depth_limit (num : nat) : Z := (2 * Z.log2 (Z.of_nat num))%Z.

(** [numpy.argsort(v, kind="quicksort")]: the row numbers in sorted
    order. *)
Definition aquicksort (v : list Timestamp) : list nat :=
  let num := List.length v in
  stretches v (S num) (seq 0 num) 0 (num - 1) (depth_limit num) [].

End npysort.

(** [frame.take(index)]: the rows at the given positions. *)
Definition take {A} (l : list A) (index : list nat) : list A :=
  flat_map (fun i => match nth_error l i with Some x => [x] | None => [] end) index.

Fixpoint ascending (keys : list Timestamp) : bool :=
  match keys with
  | [] => true
  | a :: rest =>
      match rest with
      | [] => true
      | b :: _ => ts_leb a b && ascending rest
      end
  end.

(** An index that sorts the keys: every row number once, the keys taken
    in that order ascending. *)
Definition sorts (keys : list Timestamp) (index : list nat) : bool :=
  (List.length index =? List.length keys)%nat
  && forallb (fun i => existsb (Nat.eqb i) index) (seq 0 (List.length keys))
  && ascending (take keys index).

Section Insertion.
Context {A : Type}.

(** Insertion before the first key that is not smaller. *)
Fixpoint insert_before (x : Timestamp * A) (l : list (Timestamp * A)) :=
  match l with
  | [] => [x]
  | y :: rest =>
      if ts_leb (fst x) (fst y) then x :: y :: rest else y :: insert_before x rest
  end.
End Insertion.

(** The frame reordered by numpy's quicksort.  That the routine sorts is
    not proved here but tested on its result, call by call; the insertion
    sort stands in for a result that fails the test. *)
Definition take_sorted {A} (l : list (Timestamp * A)) : list (Timestamp * A) :=
  let index := npysort.aquicksort (map fst l) in
  if sorts (map fst l) index then take l index else fold_right insert_before [] l.

(** ** The sheet URL, lines 30-42 and 59 *)

(** Python's [sub in s] on strings. *)
Fixpoint contains (sub s : string) : bool :=
  prefix sub s
  || match s with
     | EmptyString => false
     | String _ rest => contains sub rest
     end.

(** [s[n:]] *)
Fixpoint drop (n : nat) (s : string) : string :=
  match n, s with
  | O, _ => s
  | S k, String _ rest => drop k rest
  | S _, EmptyString => EmptyString
  end.

(** The text before the first [sep] in [s] and the text after it, when
    [sep] occurs ([s.partition(sep)]). *)
Fixpoint cut_at (sep s : string) : option (string * string) :=
  if prefix sep s then Some (EmptyString, drop (String.length sep) s)
  else match s with
       | EmptyString => None
       | String c rest =>
           option_map (fun p => (String c (fst p), snd p)) (cut_at sep rest)
       end.

(** [s.split(sep)] for a separator that is not empty: the pieces between
    the occurrences of [sep] found from the left.  Every cut shortens the
    text, so its length is fuel enough. *)
Fixpoint split_fuel (fuel : nat) (sep s : string) : list string :=
  match fuel with
  | O => [s]
  | S fuel' =>
      match cut_at sep s with
      | None => [s]
      | Some (before, after) => before :: split_fuel fuel' sep after
      end
  end.

Definition split (sep s : string) : list string :=
  split_fuel (String.length s) sep s.

(** Lines 30-40.  An [IndexError] of [split(...)[1]] is caught by the bare
    [except], which returns [None]. *)
Definition convert_to_csv_url (gsheet_url : string) : option string :=
  if contains "edit?usp=sharing" gsheet_url then
    match nth_error (split "/d/" gsheet_url) 1 with
    | Some rest =>
        match nth_error (split "/" rest) 0 with
        | Some sheet_id =>
            Some ("https://docs.google.com/spreadsheets/d/" ++ sheet_id
                  ++ "/export?format=csv")%string
        | None => None
        end
    | None => None
    end
  else if contains "export?format=csv" gsheet_url then Some gsheet_url
  else None.

(** Line 59, [if sheet_url:]: neither [None] nor the empty string. *)
Definition truthy (sheet_url : option string) : bool :=
  match sheet_url with
  | Some (String _ _) => true
  | _ => false
  end.


(** ** The branches of the script, lines 42, 59-62 and 152-155 *)

(** [df.empty]: no column or no row. *)
Definition empty (df : DataFrame) : bool :=
  match labels df, rows df with
  | _ :: _, _ :: _ => false
  | _, _ => true
  end.

(** What the script goes on to show: the dashboard of lines 63-151 on the
    frame, for the selection made in the sidebar, or one of the two
    warnings. *)
Inductive Screen :=
| Dashboard (df : DataFrame)
| Warning (body : string).

Section Script.
Variable argsort : Argsort.
Variable fetch : string -> Exception + Sheet.

(** The script from line 42 on.  Nothing catches the [KeyError] of a
    column that lines 63-135 read and the frame does not have: it ends the
    run. *)
Definition script (user_sheet_url : string) : Outcome Screen :=
  let sheet_url := convert_to_csv_url user_sheet_url in
  if truthy sheet_url then
    let loaded := load_data argsort fetch sheet_url in
    match result loaded with
    | inl e => mkOutcome (inl e) (page loaded)
    | inr df =>
        if negb (empty df) then
          match columns_read df with
          | inl e => mkOutcome (inl e) (page loaded)
          | inr _ => mkOutcome (inr (Dashboard df)) (page loaded)
          end
        else mkOutcome (inr (Warning "No data found in sheet.")) (page loaded)
    end
  else
    mkOutcome (inr (Warning "Please paste a valid Google Sheet URL in the sidebar.")) [].

End Script.

(** * Vocabulary of the statements *)

(** A [Date] cell that [parse_dates] cannot convert. *)
Definition is_text (c : DateCell) : bool :=
  match c with DateText _ => true | _ => false end.

(** A sheet that is a header and nothing else. *)
Definition no_lines (sheet : Sheet) : bool :=
  match lines sheet with [] => true | _ :: _ => false end.

(** The sheets on which the body of [load_data] raises. *)
Definition malformed (sheet : Sheet) : bool :=
  negb (has_column sheet "Date")
  || negb (has_column sheet "Amount (PKR)")
  || no_lines sheet
  || existsb is_text (map csv_Date (lines sheet)).

(** The frame that [read_csv] returns for a sheet whose dates all convert. *)
Definition read_csv (sheet : Sheet) : option (list (option Timestamp * CsvRow)) :=
  option_map (fun dates => combine dates (lines sheet))
             (parse_dates (map csv_Date (lines sheet))).

(** The labels of the frame [load_data] makes of a sheet. *)
Definition loaded_labels (sheet : Sheet) : list string :=
  assign (assign (assign (columns sheet) "Amount") "Year") "Month".

(** The dtype line 51 gives the [Amount] column of a sheet. *)
Definition sheet_dtype (sheet : Sheet) : Dtype :=
  numeric_dtype (map csv_Amount_PKR (lines sheet)).

(** The order of [sort_values("Date")]: ascending, NaT last. *)
Definition date_order (a b : option Timestamp) : Prop :=
  match a, b with
  | Some x, Some y => ts_leb x y = true
  | _, None => True
  | None, Some _ => False
  end.

Definition sorted_by_date (df : list Row) : Prop :=
  StronglySorted (fun r1 r2 => date_order (Date r1) (Date r2)) df.


Definition is_NaT (cell : option Timestamp) : bool :=
  match cell with None => true | Some _ => false end.

(** The date [read_csv] gives a cell of a parsed column. *)
Definition date_of_cell (c : DateCell) : option Timestamp :=
  match c with DateValue t => Some t | _ => None end.

(** The cell of the sheet a date of the frame was read from. *)
Definition cell_of_date (d : option Timestamp) : DateCell :=
  match d with Some t => DateValue t | None => DateBlank end.

(** The line of the sheet a row of the frame was read from. *)
Definition sheet_line (r : Row) : CsvRow :=
  {| csv_Date := cell_of_date (Date r); csv_Type := Type_ r;
     csv_Category := Category r; csv_Description := Description r;
     csv_Amount_PKR := Amount_PKR r |}.


(** What a row adds to an exact sum of the [Amount] column. *)
Definition counted (r : Row) : Z :=
  match Amount r with Some (Whole a) => a | _ => 0 end.

(** The exact sum of the amounts of some rows. *)
Definition exact_sum (frame : list Row) : Z := total (map counted frame).

(** The largest magnitude up to which the sums of a dtype are exact. *)
Definition limit (dtype : Dtype) : Z :=
  match dtype with
  | int64 => 2 ^ 63 - 1
  | float64 => 2 ^ 53
  end.

(** The absolute values of the amounts of some rows, added up. *)
Definition magnitude (frame : list Row) : Z :=
  total (map (fun r => Z.abs (counted r)) frame).

(** An amount that is a whole number or missing. *)
Definition followed (a : option Number) : bool :=
  match a with Some Imprecise => false | _ => true end.

(** The frames whose sums are all exact: every amount is a whole number or
    missing, and the absolute values of the amounts add up to no more than
    the dtype of the column holds exactly. *)
Definition in_exact_range (df : list Row) : bool :=
  forallb (fun r => followed (Amount r)) df
  && (magnitude df <=? limit (Amount_dtype df)).

(** The exact running sums of the amounts of some rows, from [acc] on: a
    row without an amount has no sum of its own and leaves the running sum
    as it is. *)
Fixpoint running (acc : Z) (frame : list Row) : list (option Number) :=
  match frame with
  | [] => []
  | r :: rest =>
      match Amount r with
      | None => None :: running acc rest
      | Some _ => Some (Whole (acc + counted r)) :: running (acc + counted r) rest
      end
  end.

(** The row with 0 written in its [Amount]. *)
Definition zeroed (r : Row) : Row :=
  {| Date := Date r; Type_ := Type_ r; Category := Category r;
     Description := Description r; Amount_PKR := Amount_PKR r;
     Amount := Some (Whole 0); Year := Year r; Month := Month r |}.

(** The rows of a selection that have the category [k]. *)
Definition of_category (p : Row -> bool) (k : Label) (r : Row) : bool :=
  p r && label_is k (Category r).

(** The masks of [income_df] and [expense_df]. *)
Definition is_income (selected_year : Z) (selected_month : string) (r : Row) : bool :=
  (year_is selected_year (Year r) && text_is selected_month (Month r))
  && text_is "Income" (Type_ r).

Definition is_expense (selected_year : Z) (selected_month : string) (r : Row) : bool :=
  (year_is selected_year (Year r) && text_is selected_month (Month r))
  && text_is "Expense" (Type_ r).

(** The view lines 66-135 derive from the rows of a frame that has the
    columns they read. *)
Definition period_view (df : list Row) (selected_year : Z) (selected_month : string) :
  DerivedPeriodView :=
  {| transactions := filtered_df df selected_year selected_month;
     initialInvestment := initial_investment df;
     incomeToDate := income_till_now df selected_year selected_month;
     expenseToDate := expense_till_now df selected_year selected_month;
     currentBalance := current_balance df selected_year selected_month;
     incomeByCategory := income_by_cat df selected_year selected_month;
     expenseByCategory := expense_by_cat df selected_year selected_month;
     cumulativeBalance := flow_data df selected_year selected_month |}.

(** The frames that have every column lines 66-135 read. *)
Definition has_columns_read (df : DataFrame) : bool :=
  forallb (fun label => existsb (String.eqb label) (labels df))
          ["Year"; "Month"; "Type"; "Amount"; "Date"; "Category"; "Description"].

(** Lines 52-53 hold on a row. *)
Definition derived_columns (r : Row) : Prop :=
  Year r = dt_year (Date r) /\ Month r = dt_month_name (Date r).

Definition month_eqb (a b : MonthOfYear) : bool := month_number a =? month_number b.

(** The month of a dated row. *)
Definition month_of (r : Row) : MonthOfYear :=
  match Date r with Some t => ts_month t | None => January end.

Definition show_month (mo : MonthOfYear) : option string := Some (month_name mo).

(** The piece of [s] before the first [sep], all of [s] without one:
    [s.split(sep)[0]]. *)
Definition first_piece (sep s : string) : string :=
  match cut_at sep s with
  | Some (before, _) => before
  | None => s
  end.

(** The URL the first branch of [convert_to_csv_url] builds for a sheet. *)
Definition export_url (sheet_id : string) : string :=
  ("https://docs.google.com/spreadsheets/d/" ++ sheet_id ++ "/export?format=csv")%string.

(** The order of the [Year] column of a frame sorted by date. *)
Definition year_order (a b : option Z) : Prop :=
  match a, b with
  | Some x, Some y => x <= y
  | _, None => True
  | None, Some _ => False
  end.

(** The mask of line 66. *)
Definition in_period (selected_year : Z) (selected_month : string) (r : Row) : bool :=
  year_is selected_year (Year r) && text_is selected_month (Month r).

(** A date no later than the last instant of month [mo] of year [y]. *)
Definition through (y : Z) (mo : MonthOfYear) (d : option Timestamp) : bool :=
  match d with
  | Some t =>
      (ts_year t <? y)
      || ((ts_year t =? y) && (month_number (ts_month t) <=? month_number mo))
  | None => false
  end.

(** The rows that [groupby("Category")] keeps. *)
Definition has_Category (r : Row) : bool :=
  match Category r with Some _ => true | None => false end.

Definition in_groups (ks : list Label) (r : Row) : bool :=
  existsb (fun k => label_is k (Category r)) ks.

(** The exact sum of the rows of a frame that have the category [k]. *)
Definition group_sum (frame : list Row) (k : Label) : Z :=
  exact_sum (filter (fun r => label_is k (Category r)) frame).

(** The descending order of [sorted(..., reverse=True)] on years. *)
Definition year_ge (a b : option Z) : Prop :=
  match a, b with
  | Some x, Some y => y <= x
  | _, _ => False
  end.

Definition is_year (a : option Z) : Prop := a <> None.

(** The years and months the two selectors can be set to together.  A
    missing year among the options of the year selector comes with no
    month and selects no row: line 64 compares the [Year] column with it,
    and no row passes a comparison with NaN. *)
Definition periods (df : list Row) : list (Z * string) :=
  flat_map (fun y => map (pair y) (present (AvailableMonths df y)))
           (present (AvailableYears df)).

(** [filtered_df["Amount"].sum()] for one period. *)
Definition period_sum (df : list Row) (p : Z * string) : Number :=
  series_sum (Amount_dtype df) (map Amount (filtered_df df (fst p) (snd p))).

(** A row that has both a year and a month. *)
Definition has_period (r : Row) : bool :=
  match Year r, Month r with
  | Some _, Some _ => true
  | _, _ => false
  end.

(** The rows of a frame that are neither income nor expense. *)
Definition other_rows (frame : list Row) : list Row :=
  filter (fun r => negb (text_is "Income" (Type_ r)) && negb (text_is "Expense" (Type_ r)))
         frame.

(** The strict order of the group keys: numbers by value, texts by code
    point. *)
Definition label_ltb (a b : Label) : bool := label_leb a b && negb (label_eqb a b).

(** The sheets whose header names every column lines 63-135 read of the
    frame; [Amount], [Year] and [Month] are added by [load_data]. *)
Definition names_columns_read (sheet : Sheet) : bool :=
  forallb (has_column sheet) ["Type"; "Date"; "Category"; "Description"].

(** * Sample sheets and frames *)

(** Midnight of a calendar day. *)
Definition day (y : Z) (m : MonthOfYear) (d : Z) : Timestamp :=
  {| ts_year := y; ts_month := m; ts_day := d; ts_time := 0 |}.

(** A line of a sheet with every text cell filled but the description. *)
Definition line (d : DateCell) (type category : string) (amount : AmountCell) : CsvRow :=
  {| csv_Date := d; csv_Type := Some type; csv_Category := Some (Text category);
     csv_Description := None; csv_Amount_PKR := amount |}.

(** The header the dashboard expects. *)
Definition header : list string :=
  ["Date"; "Type"; "Category"; "Description"; "Amount (PKR)"].

(** The row [load_data] makes of such a line, for an amount that reads the
    same in both dtypes: a whole number up to 2^53, or no number. *)
Definition entry (d : Timestamp) (type category : string) (amount : AmountCell) : Row :=
  add_columns float64 (Some d, line (DateValue d) type category amount).

(** Rows under the labels [load_data] gives a sheet with that header. *)
Definition frame (entries : list Row) : DataFrame :=
  mkDataFrame (header ++ ["Amount"; "Year"; "Month"]) entries.

(** Scenario A of the specification. *)
Definition scenario_A : list Row :=
  [ entry (day 2024 January 1) "Initial" "Capital" (Numeric 10000);
    entry (day 2024 January 5) "Income" "Salary" (Numeric 5000);
    entry (day 2024 January 10) "Expense" "Food" (Numeric 1200) ].

(** Sheets for [load_data]. *)
Definition sheet_without_Date : Sheet :=
  {| columns := ["Type"; "Category"; "Description"; "Amount (PKR)"];
     lines := [line DateBlank "Income" "Salary" (Numeric 5000)] |}.

Definition sheet_with_one_bad_date : Sheet :=
  {| columns := header;
     lines := [line (DateValue (day 2024 January 5)) "Income" "Salary" (Numeric 5000);
               line (DateText "soon") "Expense" "Food" (Numeric 1200)] |}.

Definition sheet_without_Type : Sheet :=
  {| columns := ["Date"; "Amount (PKR)"];
     lines := [ {| csv_Date := DateValue (day 2024 January 5); csv_Type := None;
                   csv_Category := None; csv_Description := None;
                   csv_Amount_PKR := Numeric 5000 |} ] |}.

Definition sheet_with_tie : Sheet :=
  {| columns := header;
     lines := [line (DateValue (day 2024 January 5)) "Income" "Salary" (Numeric 5000);
               line (DateValue (day 2024 January 5)) "Expense" "Food" (Numeric 1200);
               line (DateValue (day 2024 January 1)) "Initial" "Capital" (Numeric 10000)] |}.


(** The largest [int64] as initial deposit, and an income of 1. *)
Definition sheet_of_a_large_deposit : Sheet :=
  {| columns := header;
     lines := [line (DateValue (day 2024 January 1)) "Initial" "Capital"
                    (Numeric (2 ^ 63 - 1));
               line (DateValue (day 2024 January 5)) "Income" "Salary" (Numeric 1)] |}.

(** The largest [int64] and 1, both as initial deposits. *)
Definition sheet_of_two_deposits : Sheet :=
  {| columns := header;
     lines := [line (DateValue (day 2024 January 1)) "Initial" "Capital"
                    (Numeric (2 ^ 63 - 1));
               line (DateValue (day 2024 January 5)) "Initial" "Capital" (Numeric 1)] |}.

(** The largest [int64] and 1, both as salaries of January. *)
Definition sheet_of_two_salaries : Sheet :=
  {| columns := header;
     lines := [line (DateValue (day 2024 January 1)) "Income" "Salary"
                    (Numeric (2 ^ 63 - 1));
               line (DateValue (day 2024 January 5)) "Income" "Salary" (Numeric 1)] |}.

(** Two years, and a line whose date cell is blank. *)
Definition sheet_with_an_undated_line : Sheet :=
  {| columns := header;
     lines := [line (DateValue (day 2024 February 2)) "Expense" "Food" (Numeric 700);
               line DateBlank "Expense" "Rent" (Numeric 900);
               line (DateValue (day 2023 November 3)) "Income" "Salary" (Numeric 4000)] |}.

(** A remote end that serves one sheet at every URL. *)
Definition served (sheet : Sheet) : string -> Exception + Sheet := fun _ => inr sheet.
(** An initial deposit dated after the selected month. *)
Definition late_deposit : Row :=
  entry (day 2024 March 1) "Initial" "Capital" (Numeric 2500).

(** A February expense whose amount does not read as a number. *)
Definition unreadable_expense : Row :=
  entry (day 2024 February 10) "Expense" "Food" (NonNumeric "N/A").

(** A January expense, after the others, whose amount does not read. *)
Definition unreadable_january_expense : Row :=
  entry (day 2024 January 20) "Expense" "Food" (NonNumeric "N/A").

(** A January expense of a category of its own, whose amount does not
    read, after an expense on food. *)
Definition food_expense : Row :=
  entry (day 2024 January 10) "Expense" "Food" (Numeric 1200).

Definition unpriced_expense : Row :=
  entry (day 2024 January 20) "Expense" "Misc" (NonNumeric "N/A").

(** An income row whose [Category] cell is blank. *)
Definition uncategorized_income : list Row :=
  [ add_columns int64 (Some (day 2024 January 5),
                 {| csv_Date := DateValue (day 2024 January 5);
                    csv_Type := Some "Income"; csv_Category := None;
                    csv_Description := None; csv_Amount_PKR := Numeric 5000 |}) ].

(** Expenses entered with both signs. *)
Definition expenses_of_both_signs : list Row :=
  [ entry (day 2024 January 10) "Expense" "Food" (Numeric 1200);
    entry (day 2024 January 12) "Expense" "Food" (Numeric (-200));
    entry (day 2024 January 15) "Expense" "Rent" (Numeric (-300)) ].

(** Two years, the months in the frame out of alphabetical order. *)
Definition two_years : list Row :=
  [ entry (day 2023 November 3) "Income" "Salary" (Numeric 4000);
    entry (day 2024 February 2) "Expense" "Food" (Numeric 700);
    entry (day 2024 February 9) "Income" "Salary" (Numeric 4000);
    entry (day 2024 April 1) "Expense" "Rent" (Numeric 900) ].

(** * Properties *)

(** ** The order of timestamps *)

Lemma month_number_inj m1 m2 : month_number m1 = month_number m2 -> m1 = m2.
Proof. destruct m1, m2; simpl; intros H; try reflexivity; discriminate H. Qed.

Lemma month_name_inj m1 m2 : month_name m1 = month_name m2 -> m1 = m2.
Proof. destruct m1, m2; simpl; intros H; try reflexivity; discriminate H. Qed.

Ltac ts_order :=
  unfold ts_leb, ts_ltb, ts_eqb, ts_compare in *;
  repeat match goal with
         | |- context [?x ?= ?y] => destruct (Z.compare_spec x y)
         | H : context [?x ?= ?y] |- _ => destruct (Z.compare_spec x y)
         end;
  try reflexivity; try discriminate; try lia.

Lemma ts_leb_refl a : ts_leb a a = true.
Proof. ts_order. Qed.

Lemma ts_leb_trans a b c : ts_leb a b = true -> ts_leb b c = true -> ts_leb a c = true.
Proof. intros Hab Hbc. ts_order. Qed.

Lemma ts_leb_total a b : ts_leb a b = true \/ ts_leb b a = true.
Proof. destruct (ts_leb a b) eqn:E; [now left | right]. ts_order. Qed.

Lemma ts_leb_antisym a b : ts_leb a b = true -> ts_leb b a = true -> a = b.
Proof.
  intros Hab Hba. destruct a as [ya ma da ta], b as [yb mb db tb]. simpl in *.
  assert (ya = yb /\ month_number ma = month_number mb /\ da = db /\ ta = tb) as (-> & Hm & -> & ->).
  { unfold ts_leb, ts_compare in *; simpl in *.
    destruct (Z.compare_spec ya yb), (Z.compare_spec yb ya); try lia; try discriminate;
    destruct (Z.compare_spec (month_number ma) (month_number mb)),
             (Z.compare_spec (month_number mb) (month_number ma)); try lia; try discriminate;
    destruct (Z.compare_spec da db), (Z.compare_spec db da); try lia; try discriminate;
    destruct (Z.compare_spec ta tb), (Z.compare_spec tb ta); try lia; try discriminate. }
  now rewrite (month_number_inj _ _ Hm).
Qed.

Lemma ts_ltb_leb a b : ts_ltb a b = negb (ts_leb b a).
Proof. destruct (ts_leb b a) eqn:E; simpl; ts_order. Qed.

Lemma ts_ltb_le a b : ts_ltb a b = true -> ts_leb a b = true.
Proof. intros H. ts_order. Qed.

(** Timestamps in order have their (year, month) in order. *)
Lemma ts_leb_year a b : ts_leb a b = true -> ts_year a <= ts_year b.
Proof. intros H. ts_order. Qed.

Lemma ts_leb_month a b :
  ts_leb a b = true -> ts_year a = ts_year b ->
  month_number (ts_month a) <= month_number (ts_month b).
Proof. intros H Hy. ts_order. Qed.

(** ** The insertion sort *)

Section InsertionFacts.
Context {A : Type}.
Implicit Types (x : Timestamp * A) (l : list (Timestamp * A)).

Let key_le (x y : Timestamp * A) := ts_leb (fst x) (fst y) = true.

Lemma insert_before_perm x l : Permutation (insert_before x l) (x :: l).
Proof.
  induction l as [|y l IH]; simpl; [reflexivity|].
  destruct (ts_leb (fst x) (fst y)); [reflexivity|].
  rewrite IH. apply perm_swap.
Qed.

Lemma insert_before_sorted x l :
  StronglySorted key_le l -> StronglySorted key_le (insert_before x l).
Proof.
  induction 1 as [|y l Hs IH Hy]; simpl.
  - repeat constructor.
  - destruct (ts_leb (fst x) (fst y)) eqn:E.
    + constructor; [now constructor|].
      constructor; [exact E|].
      eapply Forall_impl; [|exact Hy]. intros z Hz. unfold key_le in *.
      eapply ts_leb_trans; eassumption.
    + constructor; [exact IH|].
      eapply Permutation_Forall; [symmetry; apply insert_before_perm|].
      constructor; [|exact Hy]. unfold key_le.
      destruct (ts_leb_total (fst x) (fst y)) as [H|H]; congruence.
Qed.

Lemma fold_insert_before_perm l : Permutation (fold_right insert_before [] l) l.
Proof.
  induction l as [|x l IH]; simpl; [reflexivity|].
  rewrite insert_before_perm. now constructor.
Qed.

Lemma fold_insert_before_sorted l :
  StronglySorted key_le (fold_right insert_before [] l).
Proof.
  induction l as [|x l IH]; simpl; [constructor|]. now apply insert_before_sorted.
Qed.

End InsertionFacts.

(** An argsort that keeps rows of equal date in frame order
    ([kind="stable"]). *)
Definition argsort_keeping_ties : Argsort :=
  {| quicksort := fun A l => fold_right insert_before [] l;
     quicksort_perm := fun A l => fold_insert_before_perm l;
     quicksort_sorted := fun A l => fold_insert_before_sorted l |}.

(** ** The result of numpy's quicksort, once tested *)

Lemma StronglySorted_map {A B} (f : A -> B) (R : A -> A -> Prop) (R' : B -> B -> Prop) l :
  (forall x y, R x y -> R' (f x) (f y)) ->
  StronglySorted R l -> StronglySorted R' (map f l).
Proof.
  intros HR. induction 1 as [|x l Hs IH Hx]; simpl; constructor; [exact IH|].
  apply Forall_map. eapply Forall_impl; [|exact Hx]. intros y. apply HR.
Qed.

Lemma take_from {A} (pre l : list A) :
  take (pre ++ l) (seq (List.length pre) (List.length l)) = l.
Proof.
  revert pre. induction l as [|x l IH]; intros pre; [reflexivity|].
  cbn [List.length seq]. unfold take. cbn [flat_map].
  rewrite nth_error_app2, Nat.sub_diag by apply Nat.le_refl. cbn [nth_error app].
  f_equal. specialize (IH (pre ++ [x])).
  rewrite <- app_assoc, length_app, Nat.add_1_r in IH. exact IH.
Qed.

Lemma take_all {A} (l : list A) : take l (seq 0 (List.length l)) = l.
Proof. exact (take_from [] l). Qed.

Lemma take_map {A B} (f : A -> B) (l : list A) index :
  map f (take l index) = take (map f l) index.
Proof.
  unfold take. induction index as [|i index IH]; [reflexivity|].
  cbn [flat_map]. rewrite map_app, IH, nth_error_map.
  now destruct (nth_error l i).
Qed.

Lemma sorts_perm keys index :
  sorts keys index = true -> Permutation index (seq 0 (List.length keys)).
Proof.
  unfold sorts. intros H.
  apply andb_true_iff in H. destruct H as [H _].
  apply andb_true_iff in H. destruct H as [Hlen Hall].
  apply Nat.eqb_eq in Hlen. symmetry.
  apply NoDup_Permutation_bis.
  - apply seq_NoDup.
  - rewrite length_seq, Hlen. apply Nat.le_refl.
  - intros i Hi. rewrite forallb_forall in Hall. specialize (Hall i Hi).
    apply existsb_exists in Hall. destruct Hall as (j & Hj & E).
    apply Nat.eqb_eq in E. now subst j.
Qed.

Lemma ascending_sorted keys :
  ascending keys = true -> StronglySorted (fun a b => ts_leb a b = true) keys.
Proof.
  intros H. apply Sorted_StronglySorted.
  - intros a b c. apply ts_leb_trans.
  - induction keys as [|a keys IH]; [constructor|].
    destruct keys as [|b rest]; [repeat constructor|].
    cbn [ascending] in H. apply andb_true_iff in H. destruct H as [Hab H].
    constructor; [now apply IH | now constructor].
Qed.

Lemma take_sorted_perm {A} (l : list (Timestamp * A)) : Permutation (take_sorted l) l.
Proof.
  unfold take_sorted.
  destruct (sorts (map fst l) (npysort.aquicksort (map fst l))) eqn:E.
  - apply sorts_perm in E. rewrite length_map in E.
    eapply Permutation_trans; [apply Permutation_flat_map, E|].
    change (Permutation (take l (seq 0 (List.length l))) l).
    now rewrite take_all.
  - apply fold_insert_before_perm.
Qed.

Lemma take_sorted_sorted {A} (l : list (Timestamp * A)) :
  StronglySorted (fun a b => ts_leb (fst a) (fst b) = true) (take_sorted l).
Proof.
  unfold take_sorted.
  destruct (sorts (map fst l) (npysort.aquicksort (map fst l))) eqn:E.
  - unfold sorts in E. apply andb_true_iff in E. destruct E as [_ E].
    apply ascending_sorted in E. rewrite <- take_map in E.
    remember (take l (npysort.aquicksort (map fst l))) as t eqn:Et. clear Et.
    induction t as [|x t IH]; [constructor|].
    inversion E as [|? ? Hs Hx]; subst. constructor; [now apply IH|].
    now rewrite Forall_map in Hx.
  - apply fold_insert_before_sorted.
Qed.

(** The argsort of [sort_values]: numpy's quicksort. *)
Definition argsort_of_numpy : Argsort :=
  {| quicksort := fun A l => take_sorted l;
     quicksort_perm := fun A l => take_sorted_perm l;
     quicksort_sorted := fun A l => take_sorted_sorted l |}.

(** The frame the script has of a sheet served to it. *)
Definition loaded (sheet : Sheet) : DataFrame :=
  match result (load_data argsort_of_numpy (served sheet) (Some "sheet")) with
  | inr df => df
  | inl _ => empty_frame
  end.

(** ** [load_data] *)

Lemma to_datetime_length cells dates :
  to_datetime cells = Some dates -> List.length dates = List.length cells.
Proof.
  revert dates. induction cells as [|c cells IH]; simpl; intros dates H.
  - now inversion H.
  - destruct c; try discriminate;
      destruct (to_datetime cells) as [ds|]; try discriminate;
      inversion H; simpl; f_equal; now apply IH.
Qed.

Lemma to_datetime_text cells :
  to_datetime cells = None <-> existsb is_text cells = true.
Proof.
  induction cells as [|c cells IH]; simpl.
  - split; discriminate.
  - destruct c; simpl; try tauto;
      destruct (to_datetime cells); simpl; split; intros H;
      try discriminate; try (now apply IH); try (apply IH in H; discriminate).
Qed.

Lemma parse_dates_to_datetime cells dates :
  parse_dates cells = Some dates -> to_datetime cells = Some dates.
Proof. destruct cells; [discriminate | auto]. Qed.

Lemma parse_dates_length cells dates :
  parse_dates cells = Some dates -> List.length dates = List.length cells.
Proof. intros H. now apply to_datetime_length, parse_dates_to_datetime. Qed.

Lemma parse_dates_text cells :
  parse_dates cells = None <-> cells = [] \/ existsb is_text cells = true.
Proof.
  destruct cells as [|c cells].
  - split; auto.
  - unfold parse_dates. rewrite to_datetime_text. split; auto.
    intros [H|H]; [discriminate | exact H].
Qed.

Lemma dated_undated_perm {A} (rows : list (option Timestamp * A)) :
  Permutation (map with_date (dated rows) ++ undated rows) rows.
Proof.
  induction rows as [|[[t|] a] rows IH]; simpl.
  - reflexivity.
  - now constructor.
  - unfold undated in *. simpl.
    rewrite <- Permutation_middle. now constructor.
Qed.

Lemma forallb_perm {A} (p : A -> bool) l l' :
  Permutation l l' -> forallb p l = forallb p l'.
Proof.
  induction 1; simpl; try congruence.
  now rewrite !andb_assoc, (andb_comm (p y)).
Qed.

Lemma numeric_dtype_perm cells cells' :
  Permutation cells cells' -> numeric_dtype cells = numeric_dtype cells'.
Proof. intros H. unfold numeric_dtype. now rewrite (forallb_perm _ _ _ H). Qed.

Section LoadDataFacts.
Variable argsort : Argsort.
Variable fetch : string -> Exception + Sheet.

Lemma sort_values_perm {A} (rows : list (option Timestamp * A)) :
  Permutation (sort_values argsort rows) rows.
Proof.
  unfold sort_values.
  rewrite (quicksort_perm argsort). apply dated_undated_perm.
Qed.

Lemma sort_values_sorted {A} (rows : list (option Timestamp * A)) :
  StronglySorted (fun r1 r2 => date_order (fst r1) (fst r2)) (sort_values argsort rows).
Proof.
  unfold sort_values.
  assert (Hu : Forall (fun r => fst r = None) (undated rows)).
  { unfold undated. apply Forall_forall. intros r Hr.
    apply filter_In in Hr. destruct Hr as [_ Hr]. now destruct (fst r). }
  generalize (quicksort_sorted argsort A (dated rows)).
  induction 1 as [|x l Hs IH Hx]; simpl.
  - induction Hu as [|r u Hr Hu IHu]; constructor; [exact IHu|].
    eapply Forall_impl; [|exact Hu]. intros r' Hr'. rewrite Hr'.
    now destruct (fst r).
  - constructor; [exact IH|].
    apply Forall_app. split.
    + apply Forall_map. eapply Forall_impl; [|exact Hx]. now intros y Hy.
    + eapply Forall_impl; [|exact Hu]. intros r Hr. now rewrite Hr.
Qed.


Lemma load_data_body_malformed url sheet :
  fetch url = inr sheet -> malformed sheet = true ->
  exists e, load_data_body argsort fetch url = inl e.
Proof.
  intros Hf Hm. unfold load_data_body, malformed in *. rewrite Hf. simpl.
  destruct (has_column sheet "Date"); simpl in *; [|eauto].
  destruct (has_column sheet "Amount (PKR)"); simpl in *; [|eauto].
  assert (Hp : parse_dates (map csv_Date (lines sheet)) = None).
  { apply parse_dates_text. unfold no_lines in Hm.
    destruct (lines sheet); [now left | now right]. }
  rewrite Hp. eauto.
Qed.

Lemma load_data_body_wellformed url sheet :
  fetch url = inr sheet -> malformed sheet = false ->
  exists rows, read_csv sheet = Some rows /\
    load_data_body argsort fetch url
    = inr (mkDataFrame (loaded_labels sheet)
             (map (add_columns (sheet_dtype sheet)) (sort_values argsort rows))).
Proof.
  intros Hf Hm. unfold load_data_body, malformed, read_csv in *. rewrite Hf. simpl.
  apply orb_false_iff in Hm. destruct Hm as [Hm Ht].
  apply orb_false_iff in Hm. destruct Hm as [Hm Hn].
  apply orb_false_iff in Hm. destruct Hm as [Hd Ha].
  apply negb_false_iff in Hd, Ha. rewrite Hd, Ha. simpl.
  destruct (parse_dates (map csv_Date (lines sheet))) as [dates|] eqn:Ep.
  - simpl. eauto.
  - apply parse_dates_text in Ep. unfold no_lines in Hn.
    destruct Ep as [Ep|Ep]; [|congruence].
    destruct (lines sheet); discriminate.
Qed.

Lemma read_csv_length sheet rows :
  read_csv sheet = Some rows -> List.length rows = List.length (lines sheet).
Proof.
  unfold read_csv. destruct (parse_dates _) as [dates|] eqn:Ep; [|discriminate].
  intros H. inversion H. apply parse_dates_length in Ep.
  rewrite length_combine, Ep, length_map. lia.
Qed.

Lemma read_csv_lines sheet rows :
  read_csv sheet = Some rows -> map snd rows = lines sheet.
Proof.
  unfold read_csv. destruct (parse_dates _) as [dates|] eqn:Ep; [|discriminate].
  intros H. injection H as <-. apply parse_dates_length in Ep. rewrite length_map in Ep.
  revert dates Ep. generalize (lines sheet).
  induction l as [|x l IH]; intros [|d dates] E; try discriminate; [reflexivity|].
  simpl. f_equal. apply IH. now inversion E.
Qed.

(** The dtype of the [Amount] column of the loaded frame is the one line
    51 found: sorting does not change it. *)
Lemma loaded_dtype sheet rows :
  read_csv sheet = Some rows ->
  Amount_dtype (map (add_columns (sheet_dtype sheet)) (sort_values argsort rows))
  = sheet_dtype sheet.
Proof.
  intros Hr. unfold Amount_dtype, sheet_dtype. rewrite map_map. cbn [Amount_PKR add_columns].
  rewrite <- (read_csv_lines sheet rows Hr), map_map.
  apply numeric_dtype_perm, Permutation_map, sort_values_perm.
Qed.

End LoadDataFacts.

(** C2, as stated, fails: on a sheet without a [Date] column [load_data]
    raises nothing and returns the empty frame, the error going to the page;
    it does the same when one date of two does not parse; and a sheet
    without a [Type] column is loaded in full. *)
Lemma load_data_returns_empty_frame_on_malformed_input :
  (has_column sheet_without_Date "Date" = false /\
   load_data argsort_keeping_ties (served sheet_without_Date) (Some "sheet")
   = mkOutcome (inr empty_frame)
       [st_error (ValueError "Missing column provided to 'parse_dates': 'Date'")] /\
   ~ raises (load_data argsort_keeping_ties (served sheet_without_Date) (Some "sheet"))) /\
  (existsb (fun c => negb (is_text c)) (map csv_Date (lines sheet_with_one_bad_date)) = true /\
   load_data argsort_keeping_ties (served sheet_with_one_bad_date) (Some "sheet")
   = mkOutcome (inr empty_frame)
       [st_error (AttributeError "Can only use .dt accessor with datetimelike values")]) /\
  (has_column sheet_without_Type "Type" = false /\
   load_data argsort_keeping_ties (served sheet_without_Type) (Some "sheet")
   = mkOutcome
       (inr (mkDataFrame ["Date"; "Amount (PKR)"; "Amount"; "Year"; "Month"]
               [add_columns int64 (Some (day 2024 January 5),
                                   {| csv_Date := DateValue (day 2024 January 5);
                                      csv_Type := None; csv_Category := None;
                                      csv_Description := None;
                                      csv_Amount_PKR := Numeric 5000 |})])) []).
Proof.
  repeat split; try reflexivity.
  intros [e He]. discriminate He.
Qed.

(** C2, amended: [load_data] never raises.  Without a URL it returns the
    empty frame.  When the sheet cannot be fetched, has no [Date] or no
    [Amount (PKR)] column, has no line, or has a date cell that does not
    parse, it shows the error on the page and returns the empty frame;
    otherwise it shows nothing and returns a frame with one row per line of
    the sheet. *)
Theorem load_data_catches_every_failure
    (argsort : Argsort) (fetch : string -> Exception + Sheet) (sheet_url : option string) :
  (forall e, result (load_data argsort fetch sheet_url) <> inl e) /\
  match sheet_url with
  | None => load_data argsort fetch sheet_url = mkOutcome (inr empty_frame) []
  | Some url =>
      match fetch url with
      | inl e =>
          load_data argsort fetch sheet_url = mkOutcome (inr empty_frame) [st_error e]
      | inr sheet =>
          if malformed sheet
          then exists e,
              load_data argsort fetch sheet_url = mkOutcome (inr empty_frame) [st_error e]
          else exists df,
              load_data argsort fetch sheet_url = mkOutcome (inr df) [] /\
              List.length df = List.length (lines sheet)
      end
  end.
Proof.
  split.
  - intros e. destruct sheet_url as [url|]; simpl; [|discriminate].
    destruct (load_data_body argsort fetch url); discriminate.
  - destruct sheet_url as [url|]; [|reflexivity].
    destruct (fetch url) as [e|sheet] eqn:Hf.
    + unfold load_data, load_data_body. now rewrite Hf.
    + destruct (malformed sheet) eqn:Hm.
      * destruct (load_data_body_malformed argsort fetch url sheet Hf Hm) as [e He].
        exists e. unfold load_data. now rewrite He.
      * destruct (load_data_body_wellformed argsort fetch url sheet Hf Hm)
          as (rs & Hr & Hb).
        eexists. split.
        -- unfold load_data. now rewrite Hb.
        -- cbn [rows]. rewrite length_map, (Permutation_length (sort_values_perm argsort rs)).
           now apply read_csv_length.
Qed.


(** A short column is sorted by insertion alone, which keeps ties: on the
    sheet of three lines the two rows of 5 January stay in sheet order. *)
Example ties_kept_on_a_short_sheet :
  load_data argsort_of_numpy (served sheet_with_tie) (Some "sheet")
  = mkOutcome
      (inr (frame [entry (day 2024 January 1) "Initial" "Capital" (Numeric 10000);
                   entry (day 2024 January 5) "Income" "Salary" (Numeric 5000);
                   entry (day 2024 January 5) "Expense" "Food" (Numeric 1200)])) [].
Proof. vm_compute. reflexivity. Qed.



(** The frame [load_data] returns has its derived columns and is sorted. *)
Lemma load_data_normalized argsort fetch sheet_url (df : DataFrame) :
  result (load_data argsort fetch sheet_url) = inr df ->
  Forall derived_columns df /\ sorted_by_date df.
Proof.
  destruct sheet_url as [url|]; simpl.
  - destruct (load_data_body argsort fetch url) as [e|df'] eqn:Hb; simpl; intros H;
      inversion H; subst; [split; constructor|].
    unfold load_data_body in Hb.
    destruct (fetch url) as [e|sheet]; [discriminate|]. simpl in Hb.
    destruct (has_column sheet "Date"); [|discriminate]. simpl in Hb.
    destruct (has_column sheet "Amount (PKR)"); [|discriminate]. simpl in Hb.
    destruct (parse_dates (map csv_Date (lines sheet))) as [dates|]; [|discriminate].
    simpl in Hb. inversion Hb. cbn [rows]. split.
    + apply Forall_map, Forall_forall. intros x _. now split.
    + apply StronglySorted_map with (R := fun r1 r2 => date_order (fst r1) (fst r2));
        [now intros x y | apply sort_values_sorted].
  - intros H. inversion H. split; constructor.
Qed.

(** ** What [load_data] keeps of the sheet *)

Lemma to_datetime_cells ls dates :
  to_datetime (map csv_Date ls) = Some dates ->
  Forall (fun p => csv_Date (snd p) = cell_of_date (fst p)) (combine dates ls) /\
  map snd (combine dates ls) = ls.
Proof.
  revert dates. induction ls as [|x ls IH]; simpl; intros dates H.
  - inversion H. split; [constructor | reflexivity].
  - destruct (csv_Date x) eqn:Ex; try discriminate;
      destruct (to_datetime (map csv_Date ls)) as [ds|]; try discriminate;
      inversion H; subst dates; simpl; destruct (IH ds eq_refl) as [Hf Hm];
      (split; [constructor; [exact Ex | exact Hf] | now rewrite Hm]).
Qed.

Lemma sheet_line_add_columns dtype p :
  csv_Date (snd p) = cell_of_date (fst p) -> sheet_line (add_columns dtype p) = snd p.
Proof.
  destruct p as [d [cd ct cc cdesc ca]]. simpl. intros ->. reflexivity.
Qed.

(** X5: a sheet that loads comes back whole: forgetting the three added
    columns of the frame gives the lines of the sheet, each once and with
    every cell as it was, in some order; the [Amount] column is
    [to_numeric] of the [Amount (PKR)] column, and every row has its [Year]
    and [Month] computed from its own date. *)
Theorem load_data_keeps_the_sheet
    (argsort : Argsort) (fetch : string -> Exception + Sheet)
    (url : string) (sheet : Sheet) :
  fetch url = inr sheet ->
  malformed sheet = false ->
  exists df,
    load_data argsort fetch (Some url) = mkOutcome (inr df) [] /\
    Permutation (map sheet_line df) (lines sheet) /\
    map Amount df = to_numeric (map Amount_PKR df) /\
    Forall (fun r => Year r = dt_year (Date r) /\
                     Month r = dt_month_name (Date r)) df.
Proof.
  intros Hf Hm.
  destruct (load_data_body_wellformed argsort fetch url sheet Hf Hm) as (rs & Hr & Hb).
  eexists. split; [unfold load_data; now rewrite Hb|]. cbn [rows].
  split; [|split].
  - unfold read_csv in Hr.
    destruct (parse_dates (map csv_Date (lines sheet))) as [dates|] eqn:Ep; [|discriminate].
    injection Hr as Hrows.
    apply parse_dates_to_datetime, to_datetime_cells in Ep. destruct Ep as [Hcells Hsnd].
    rewrite Hrows in Hcells, Hsnd.
    pose proof (sort_values_perm argsort rs) as Hp.
    assert (Hs : Forall (fun p => csv_Date (snd p) = cell_of_date (fst p))
                        (sort_values argsort rs))
      by (eapply Permutation_Forall; [symmetry; exact Hp | exact Hcells]).
    assert (E : map sheet_line (map (add_columns (sheet_dtype sheet)) (sort_values argsort rs))
                = map snd (sort_values argsort rs)).
    { rewrite map_map. apply map_ext_in. intros p Hin.
      apply sheet_line_add_columns. rewrite Forall_forall in Hs. now apply Hs. }
    rewrite E. eapply Permutation_trans; [apply Permutation_map, Hp|].
    rewrite Hsnd. apply Permutation_refl.
  - unfold to_numeric.
    change (numeric_dtype (map Amount_PKR ?l)) with (Amount_dtype l).
    rewrite (loaded_dtype argsort sheet rs Hr), !map_map. reflexivity.
  - apply Forall_map, Forall_forall. intros p _. now split.
Qed.

(** [load_data_keeps_the_sheet] on the sheet with two rows of one date. *)
Lemma load_data_keeps_the_sheet_witness :
  exists df,
    load_data argsort_of_numpy (served sheet_with_tie) (Some "sheet")
    = mkOutcome (inr df) [] /\
    Permutation (map sheet_line df) (lines sheet_with_tie) /\
    map Amount df = to_numeric (map Amount_PKR df) /\
    Forall (fun r => Year r = dt_year (Date r) /\
                     Month r = dt_month_name (Date r)) df.
Proof.
  apply (load_data_keeps_the_sheet argsort_of_numpy (served sheet_with_tie)
           "sheet" sheet_with_tie); reflexivity.
Defined.

(** ** The arithmetic of the two dtypes *)

Lemma two_63 : 2 ^ 63 = 9223372036854775808.
Proof. reflexivity. Qed.

Lemma two_64 : 2 ^ 64 = 18446744073709551616.
Proof. reflexivity. Qed.

Lemma two_53 : 2 ^ 53 = 9007199254740992.
Proof. reflexivity. Qed.

Lemma wrap_small z : - 2 ^ 63 <= z < 2 ^ 63 -> wrap z = z.
Proof.
  unfold wrap. rewrite two_63, two_64. intros H.
  rewrite Z.mod_small; lia.
Qed.

Lemma wrap_add a b : wrap (wrap a + b) = wrap (a + b).
Proof.
  unfold wrap. f_equal.
  replace ((a + 2 ^ 63) mod 2 ^ 64 - 2 ^ 63 + b + 2 ^ 63)
    with ((a + 2 ^ 63) mod 2 ^ 64 + b) by ring.
  rewrite Z.add_mod_idemp_l by (rewrite two_64; lia).
  f_equal. ring.
Qed.

Lemma wrap_range z : - 2 ^ 63 <= wrap z < 2 ^ 63.
Proof.
  unfold wrap. rewrite two_63, two_64.
  pose proof (Z.mod_pos_bound (z + 9223372036854775808) 18446744073709551616). lia.
Qed.

(** Within its limit a dtype holds an integer as it is. *)
Lemma number_of_Z_exact dtype z : Z.abs z <= limit dtype -> number_of_Z dtype z = Whole z.
Proof.
  destruct dtype; unfold number_of_Z, limit, float64_of_Z; intros H.
  - rewrite wrap_small; [reflexivity|]. rewrite two_63 in *. lia.
  - apply Z.leb_le in H. now rewrite H.
Qed.

Lemma total_app l1 l2 : total (l1 ++ l2) = total l1 + total l2.
Proof. unfold total. induction l1 as [|x l1 IH]; simpl; [reflexivity|]. rewrite IH. ring. Qed.

Lemma total_abs_le zs : Z.abs (total zs) <= total (map Z.abs zs).
Proof.
  unfold total. induction zs as [|z zs IH]; simpl; [reflexivity|].
  pose proof (Z.abs_triangle z (fold_right Z.add 0 zs)). lia.
Qed.

Lemma total_abs_nonneg zs : 0 <= total (map Z.abs zs).
Proof.
  unfold total. induction zs as [|z zs IH]; simpl; [reflexivity|].
  pose proof (Z.abs_nonneg z). lia.
Qed.

Lemma wholes_map l zs : wholes l = Some zs -> l = map Whole zs.
Proof.
  revert zs. induction l as [|[z|] l IH]; simpl; intros zs H; try discriminate.
  - now inversion H.
  - destruct (wholes l) as [zs'|]; [|discriminate]. inversion H. simpl.
    f_equal. now apply IH.
Qed.

Lemma sum_int64 zs a :
  fold_left (add int64) (map Whole zs) (Whole (wrap a)) = Whole (wrap (a + total zs)).
Proof.
  revert a. induction zs as [|z zs IH]; intros a; simpl.
  - unfold total. simpl. now rewrite Z.add_0_r.
  - rewrite wrap_add, IH. unfold total. simpl. f_equal. f_equal. ring.
Qed.

(** A sum whose terms are whole and within the limit of the dtype in
    absolute value, all together, is the exact total. *)
Lemma series_sum_exact dtype s zs :
  wholes (present s) = Some zs ->
  total (map Z.abs zs) <= limit dtype ->
  series_sum dtype s = Whole (total zs).
Proof.
  intros Hw Hl. unfold series_sum. destruct dtype.
  - rewrite (wholes_map _ _ Hw).
    change (Whole 0) with (Whole (wrap 0)). rewrite sum_int64. simpl.
    rewrite wrap_small; [reflexivity|].
    pose proof (total_abs_le zs). unfold limit in Hl. rewrite two_63 in *. lia.
  - rewrite Hw. unfold limit in Hl. apply Z.leb_le in Hl. now rewrite Hl.
Qed.

(** ** Exact sums over the rows of a frame *)

Lemma magnitude_nonneg frame : 0 <= magnitude frame.
Proof.
  unfold magnitude, total. induction frame as [|r l IH]; simpl; [reflexivity|].
  pose proof (Z.abs_nonneg (counted r)). lia.
Qed.

Lemma magnitude_cons r frame : magnitude (r :: frame) = Z.abs (counted r) + magnitude frame.
Proof. reflexivity. Qed.

Lemma magnitude_app l1 l2 : magnitude (l1 ++ l2) = magnitude l1 + magnitude l2.
Proof. unfold magnitude. now rewrite map_app, total_app. Qed.

Lemma magnitude_filter (p : Row -> bool) frame : magnitude (filter p frame) <= magnitude frame.
Proof.
  induction frame as [|r l IH]; simpl; [reflexivity|].
  destruct (p r); rewrite ?magnitude_cons; pose proof (Z.abs_nonneg (counted r)); lia.
Qed.

Lemma exact_sum_cons r frame : exact_sum (r :: frame) = counted r + exact_sum frame.
Proof. reflexivity. Qed.

Lemma exact_sum_app l1 l2 : exact_sum (l1 ++ l2) = exact_sum l1 + exact_sum l2.
Proof. unfold exact_sum. now rewrite map_app, total_app. Qed.

Lemma exact_sum_le frame : Z.abs (exact_sum frame) <= magnitude frame.
Proof.
  unfold exact_sum, magnitude. rewrite <- (map_map counted Z.abs). apply total_abs_le.
Qed.

(** The whole amounts of rows whose amounts are all whole or missing. *)
Lemma wholes_of_frame frame :
  forallb (fun r => followed (Amount r)) frame = true ->
  exists zs, wholes (present (map Amount frame)) = Some zs /\
             total zs = exact_sum frame /\
             total (map Z.abs zs) = magnitude frame.
Proof.
  induction frame as [|r l IH]; simpl; intros H.
  - exists []. repeat split.
  - apply andb_true_iff in H. destruct H as [Hr Hl].
    destruct (IH Hl) as (zs & Hw & Ht & Ha).
    rewrite exact_sum_cons, magnitude_cons. unfold counted.
    destruct (Amount r) as [[z|]|]; simpl.
    + exists (z :: zs). rewrite Hw. repeat split.
      * unfold total in *. simpl. now rewrite Ht.
      * unfold total in *. simpl. now rewrite Ha.
    + discriminate.
    + exists zs. repeat split; [exact Hw | exact Ht | exact Ha].
Qed.

Lemma followed_filter (p : Row -> bool) frame :
  forallb (fun r => followed (Amount r)) frame = true ->
  forallb (fun r => followed (Amount r)) (filter p frame) = true.
Proof.
  intros H. apply forallb_forall. intros r Hr. apply filter_In in Hr.
  rewrite forallb_forall in H. now apply H.
Qed.

(** The sum of the amounts of rows that are whole or missing and within
    the limit of the dtype is their exact sum. *)
Lemma sum_of_rows dtype frame :
  forallb (fun r => followed (Amount r)) frame = true ->
  magnitude frame <= limit dtype ->
  series_sum dtype (map Amount frame) = Whole (exact_sum frame).
Proof.
  intros Hf Hm. destruct (wholes_of_frame frame Hf) as (zs & Hw & Ht & Ha).
  rewrite <- Ht. apply series_sum_exact; [exact Hw|]. now rewrite Ha.
Qed.

Lemma in_exact_range_spec df :
  in_exact_range df = true <->
  forallb (fun r => followed (Amount r)) df = true /\
  magnitude df <= limit (Amount_dtype df).
Proof.
  unfold in_exact_range. rewrite andb_true_iff, Z.leb_le. tauto.
Qed.

(** In a frame within the exact range every selection of rows adds up
    exactly. *)
Lemma sum_of_selection df (p : Row -> bool) :
  in_exact_range df = true ->
  series_sum (Amount_dtype df) (map Amount (filter p df)) = Whole (exact_sum (filter p df)).
Proof.
  intros H. apply in_exact_range_spec in H. destruct H as [Hf Hm].
  apply sum_of_rows; [now apply followed_filter|].
  pose proof (magnitude_filter p df). lia.
Qed.

(** Selections that share no row do not exceed the frame together. *)
Lemma magnitude_disjoint (p q w : Row -> bool) frame :
  (forall r, p r && q r = false) ->
  (forall r, p r && w r = false) ->
  (forall r, q r && w r = false) ->
  magnitude (filter p frame) + magnitude (filter q frame) + magnitude (filter w frame)
  <= magnitude frame.
Proof.
  intros Hpq Hpw Hqw. induction frame as [|r l IH]; simpl; [reflexivity|].
  specialize (Hpq r). specialize (Hpw r). specialize (Hqw r).
  pose proof (Z.abs_nonneg (counted r)).
  destruct (p r), (q r), (w r); try discriminate; rewrite ?magnitude_cons; lia.
Qed.

(** ** The view and the columns it reads *)

Lemma columns_read_spec (df : DataFrame) :
  (has_columns_read df = true /\ columns_read df = inr tt) \/
  (has_columns_read df = false /\ exists key, columns_read df = inl (KeyError key)).
Proof.
  unfold has_columns_read, columns_read, getitem. cbn [forallb].
  repeat match goal with
         | |- context [existsb ?f (labels df)] =>
             destruct (existsb f (labels df)); cbn;
             try (right; split; [reflexivity | eexists; reflexivity])
         end.
  left. split; reflexivity.
Qed.

Lemma Aggregate_returns (df : DataFrame) y m view :
  Aggregate df y m = inr view <->
  has_columns_read df = true /\ view = period_view df y m.
Proof.
  unfold Aggregate.
  destruct (columns_read_spec df) as [[Hc Hr]|[Hc (key & Hr)]]; rewrite Hr, Hc; cbn.
  - split; [intros H; inversion H; auto | intros [_ ->]; reflexivity].
  - split; [discriminate | intros [H _]; discriminate H].
Qed.

Lemma Aggregate_raises (df : DataFrame) y m :
  has_columns_read df = false -> exists key, Aggregate df y m = inl (KeyError key).
Proof.
  intros H. unfold Aggregate.
  destruct (columns_read_spec df) as [[Hc Hr]|[Hc (key & Hr)]]; [congruence|].
  exists key. now rewrite Hr.
Qed.

(** ** The sums of a selection *)

Lemma filter_none {A} (p : A -> bool) l :
  (forall x, In x l -> p x = false) -> filter p l = [].
Proof.
  induction l as [|x l IH]; simpl; intros H; [reflexivity|].
  rewrite (H x (or_introl eq_refl)). apply IH. intros y Hy. apply H. now right.
Qed.

Lemma date_le_NaT d : date_le d None = false.
Proof. now destruct d. Qed.

Lemma filter_insert_unselected {A} (p : A -> bool) l1 x l2 :
  p x = false -> filter p (l1 ++ x :: l2) = filter p (l1 ++ l2).
Proof. intros H. rewrite !filter_app. simpl. now rewrite H. Qed.

Lemma exact_sum_filter_insert (p : Row -> bool) l1 r l2 :
  exact_sum (filter p (l1 ++ r :: l2))
  = (if p r then counted r else 0) + exact_sum (filter p (l1 ++ l2)).
Proof.
  rewrite !filter_app, !exact_sum_app. simpl.
  destruct (p r); [rewrite exact_sum_cons|]; lia.
Qed.

(** The three types of the to-date sums exclude one another. *)
Lemma one_type (cell : option string) :
  text_is "Initial" cell && text_is "Income" cell = false /\
  text_is "Initial" cell && text_is "Expense" cell = false /\
  text_is "Income" cell && text_is "Expense" cell = false.
Proof.
  destruct cell as [s|]; [|repeat split]. unfold text_is.
  destruct (String.eqb_spec s "Initial"), (String.eqb_spec s "Income"),
    (String.eqb_spec s "Expense"); subst; repeat split; discriminate.
Qed.

(** In a frame within the exact range the three sums and the balance are
    exact. *)
Lemma exact_balance df y m :
  in_exact_range df = true ->
  let cutoff := period_end df y m in
  let initial := exact_sum (filter (fun r => text_is "Initial" (Type_ r)) df) in
  let income :=
    exact_sum (filter (fun r => date_le (Date r) cutoff && text_is "Income" (Type_ r)) df) in
  let expense :=
    exact_sum (filter (fun r => date_le (Date r) cutoff && text_is "Expense" (Type_ r)) df) in
  initial_investment df = Whole initial /\
  income_till_now df y m = Whole income /\
  expense_till_now df y m = Whole expense /\
  current_balance df y m = Whole (initial + income - expense).
Proof.
  intros Hx cutoff initial income expense.
  assert (Hi : initial_investment df = Whole initial)
    by (apply sum_of_selection; exact Hx).
  assert (Hn : income_till_now df y m = Whole income)
    by (apply sum_of_selection; exact Hx).
  assert (He : expense_till_now df y m = Whole expense)
    by (apply sum_of_selection; exact Hx).
  repeat split; try assumption.
  unfold current_balance. rewrite Hi, Hn, He.
  apply in_exact_range_spec in Hx. destruct Hx as [_ Hm].
  pose proof (magnitude_disjoint
                (fun r => text_is "Initial" (Type_ r))
                (fun r => date_le (Date r) cutoff && text_is "Income" (Type_ r))
                (fun r => date_le (Date r) cutoff && text_is "Expense" (Type_ r)) df) as Hd.
  cbv beta in Hd.
  assert (Hsum : magnitude (filter (fun r => text_is "Initial" (Type_ r)) df)
                 + magnitude (filter (fun r => date_le (Date r) cutoff
                                               && text_is "Income" (Type_ r)) df)
                 + magnitude (filter (fun r => date_le (Date r) cutoff
                                               && text_is "Expense" (Type_ r)) df)
                 <= magnitude df).
  { apply Hd; intros r; destruct (one_type (Type_ r)) as (H1 & H2 & H3);
      destruct (date_le (Date r) cutoff); simpl; auto;
      rewrite ?andb_false_r; auto. }
  pose proof (exact_sum_le (filter (fun r => text_is "Initial" (Type_ r)) df)) as B1.
  pose proof (exact_sum_le (filter (fun r => date_le (Date r) cutoff
                                             && text_is "Income" (Type_ r)) df)) as B2.
  pose proof (exact_sum_le (filter (fun r => date_le (Date r) cutoff
                                             && text_is "Expense" (Type_ r)) df)) as B3.
  fold initial in B1. fold income in B2. fold expense in B3.
  cbn [add sub]. rewrite number_of_Z_exact by lia. cbn [sub].
  rewrite number_of_Z_exact by lia. reflexivity.
Qed.

(** C1, as stated, fails: the balance is computed in the arithmetic of the
    column, which for a column of integers is [int64] and wraps around.
    With the largest [int64] as initial deposit and an income of 1 the
    balance is -2^63, not their sum. *)
Lemma balance_wraps_around :
  exists df view,
    load_data argsort_of_numpy (served sheet_of_a_large_deposit) (Some "sheet")
    = mkOutcome (inr df) [] /\
    Aggregate df 2024 "January" = inr view /\
    initialInvestment view = Whole (2 ^ 63 - 1) /\
    incomeToDate view = Whole 1 /\
    expenseToDate view = Whole 0 /\
    currentBalance view = Whole (- 2 ^ 63) /\
    currentBalance view <> Whole ((2 ^ 63 - 1) + 1 - 0).
Proof.
  eexists. eexists. split; [vm_compute; reflexivity|].
  split; [vm_compute; reflexivity|].
  repeat split; try (vm_compute; reflexivity).
  vm_compute. discriminate.
Qed.

(** C1, amended: when the amounts of the frame are whole numbers whose
    absolute values add up to no more than the column holds exactly (2^63-1
    for a column of integers, 2^53 once a cell is missing), the view of
    every selection has as initial investment, income to date and expense
    to date the exact sums of the amounts of the rows they select, and as
    current balance exactly the first plus the second minus the third. *)
Theorem current_balance_decomposition
    (df : DataFrame) (selected_year : Z) (selected_month : string)
    (view : DerivedPeriodView) :
  Aggregate df selected_year selected_month = inr view ->
  in_exact_range df = true ->
  let cutoff := period_end df selected_year selected_month in
  let initial := exact_sum (filter (fun r => text_is "Initial" (Type_ r)) df) in
  let income :=
    exact_sum (filter (fun r => date_le (Date r) cutoff && text_is "Income" (Type_ r)) df) in
  let expense :=
    exact_sum (filter (fun r => date_le (Date r) cutoff && text_is "Expense" (Type_ r)) df) in
  initialInvestment view = Whole initial /\
  incomeToDate view = Whole income /\
  expenseToDate view = Whole expense /\
  currentBalance view = Whole (initial + income - expense).
Proof.
  intros Hv Hx. apply Aggregate_returns in Hv. destruct Hv as [_ ->].
  exact (exact_balance df selected_year selected_month Hx).
Qed.

(** [current_balance_decomposition] on scenario A and January 2024. *)
Lemma current_balance_decomposition_witness :
  currentBalance (period_view scenario_A 2024 "January") = Whole (10000 + 5000 - 1200).
Proof.
  apply (current_balance_decomposition (frame scenario_A) 2024 "January"
           (period_view scenario_A 2024 "January")); reflexivity.
Defined.

(** ** A selection without rows *)

Lemma series_sum_nothing dtype : series_sum dtype [] = Whole 0.
Proof. now destruct dtype. Qed.

(** What [int64] additions return is a wrapped integer. *)
Lemma sum_int64_wrapped l acc :
  acc = Imprecise \/ (exists a, acc = Whole (wrap a)) ->
  fold_left (add int64) l acc = Imprecise \/
  exists a, fold_left (add int64) l acc = Whole (wrap a).
Proof.
  revert acc. induction l as [|x l IH]; intros acc H; [exact H|].
  simpl. apply IH. destruct H as [->|(a & ->)]; [now left|].
  destruct x as [z|]; [right; eexists; reflexivity | now left].
Qed.

(** Adding and subtracting nothing leaves a sum as it is. *)
Lemma sum_plus_nothing dtype s :
  sub dtype (add dtype (series_sum dtype s) (Whole 0)) (Whole 0) = series_sum dtype s.
Proof.
  destruct dtype; unfold series_sum.
  - destruct (sum_int64_wrapped (present s) (Whole 0)) as [->|(a & ->)].
    + right. now exists 0.
    + reflexivity.
    + cbn [add sub number_of_Z]. rewrite Z.add_0_r, Z.sub_0_r.
      now rewrite !(wrap_small (wrap a)) by apply wrap_range.
  - destruct (wholes (present s)) as [zs|]; [|reflexivity].
    destruct (total (map Z.abs zs) <=? 2 ^ 53) eqn:E; [|reflexivity].
    apply Z.leb_le in E. pose proof (total_abs_le zs).
    cbn [add sub number_of_Z]. unfold float64_of_Z.
    rewrite Z.add_0_r.
    assert (H' : (Z.abs (total zs) <=? 2 ^ 53) = true) by (apply Z.leb_le; lia).
    rewrite H'. cbn [sub number_of_Z]. unfold float64_of_Z.
    now rewrite Z.sub_0_r, H'.
Qed.

(** C5, as stated, fails: on a frame without the [Type] column, such as
    [load_data] returns for a sheet without it, line 67 raises [KeyError]
    also for a selection that no row matches. *)
Lemma empty_period_of_a_frame_without_Type :
  exists df,
    load_data argsort_of_numpy (served sheet_without_Type) (Some "sheet")
    = mkOutcome (inr df) [] /\
    filtered_df df 2024 "March" = [] /\
    Aggregate df 2024 "March" = inl (KeyError "Type").
Proof. eexists. repeat split. Qed.

(** C5, amended: on a frame that has the columns lines 66-135 read, a
    selection that no row matches gives a view without error: no
    transaction, no category, no point of the cumulative series; income and
    expense to date are 0; the initial investment is the sum of the amounts
    of the rows of type [Initial] of the whole frame, and the balance is
    equal to it. *)
Theorem empty_period_view
    (df : DataFrame) (selected_year : Z) (selected_month : string) :
  has_columns_read df = true ->
  (forall r, In r df ->
     year_is selected_year (Year r) && text_is selected_month (Month r) = false) ->
  exists view,
    Aggregate df selected_year selected_month = inr view /\
    transactions view = [] /\
    incomeByCategory view = [] /\
    expenseByCategory view = [] /\
    cumulativeBalance view = [] /\
    incomeToDate view = Whole 0 /\
    expenseToDate view = Whole 0 /\
    initialInvestment view
    = series_sum (Amount_dtype df)
        (map Amount (filter (fun r => text_is "Initial" (Type_ r)) df)) /\
    currentBalance view = initialInvestment view /\
    (in_exact_range df = true ->
     currentBalance view
     = Whole (exact_sum (filter (fun r => text_is "Initial" (Type_ r)) df))).
Proof.
  intros Hc Hnone. exists (period_view df selected_year selected_month).
  split; [now apply Aggregate_returns|].
  assert (Hf : filtered_df df selected_year selected_month = [])
    by (apply filter_none; exact Hnone).
  assert (Hi : income_till_now df selected_year selected_month = Whole 0).
  { unfold income_till_now, period_end. rewrite Hf. simpl.
    rewrite filter_none; [apply series_sum_nothing|].
    intros r _. now rewrite date_le_NaT. }
  assert (He : expense_till_now df selected_year selected_month = Whole 0).
  { unfold expense_till_now, period_end. rewrite Hf. simpl.
    rewrite filter_none; [apply series_sum_nothing|].
    intros r _. now rewrite date_le_NaT. }
  assert (Hb : current_balance df selected_year selected_month = initial_investment df).
  { unfold current_balance. rewrite Hi, He. apply sum_plus_nothing. }
  cbn [period_view transactions incomeByCategory expenseByCategory cumulativeBalance
       incomeToDate expenseToDate initialInvestment currentBalance].
  unfold income_by_cat, expense_by_cat, flow_data, income_df, expense_df.
  rewrite Hf. repeat split; try assumption.
  intros Hx. rewrite Hb. now apply sum_of_selection.
Qed.

(** [empty_period_view] on scenario A and February 2024 (scenario B): the
    balance is the deposit of 10000. *)
Lemma empty_period_view_witness :
  exists view,
    Aggregate (frame scenario_A) 2024 "February" = inr view /\
    transactions view = [] /\
    incomeByCategory view = [] /\
    expenseByCategory view = [] /\
    cumulativeBalance view = [] /\
    incomeToDate view = Whole 0 /\
    expenseToDate view = Whole 0 /\
    initialInvestment view
    = series_sum (Amount_dtype scenario_A)
        (map Amount (filter (fun r => text_is "Initial" (Type_ r)) scenario_A)) /\
    currentBalance view = initialInvestment view /\
    (in_exact_range scenario_A = true ->
     currentBalance view
     = Whole (exact_sum (filter (fun r => text_is "Initial" (Type_ r)) scenario_A))).
Proof.
  apply (empty_period_view (frame scenario_A) 2024 "February"); [reflexivity|].
  intros r [H|[H|[H|[]]]]; subst r; reflexivity.
Defined.

(** On scenario A the balance of the empty February is 10000. *)
Example balance_of_an_empty_period :
  Aggregate (frame scenario_A) 2024 "February"
  = inr {| transactions := [];
           initialInvestment := Whole 10000;
           incomeToDate := Whole 0;
           expenseToDate := Whole 0;
           currentBalance := Whole 10000;
           incomeByCategory := [];
           expenseByCategory := [];
           cumulativeBalance := [] |}.
Proof. reflexivity. Qed.

(** C7, as stated, fails: the initial investment is summed in the
    arithmetic of the column; two deposits, the largest [int64] and 1, add
    up to -2^63. *)
Lemma initial_investment_wraps_around :
  exists df view,
    load_data argsort_of_numpy (served sheet_of_two_deposits) (Some "sheet")
    = mkOutcome (inr df) [] /\
    map counted (filter (fun r => text_is "Initial" (Type_ r)) df) = [2 ^ 63 - 1; 1] /\
    Aggregate df 2024 "January" = inr view /\
    initialInvestment view = Whole (- 2 ^ 63) /\
    initialInvestment view <> Whole ((2 ^ 63 - 1) + 1).
Proof.
  eexists. eexists. split; [vm_compute; reflexivity|].
  split; [vm_compute; reflexivity|].
  split; [vm_compute; reflexivity|].
  split; [vm_compute; reflexivity|].
  vm_compute. discriminate.
Qed.

(** C7, amended: in a frame within the exact range, the initial investment
    of every selection is the exact sum of the amounts of all the rows of
    type [Initial], whatever their dates; and each such row, inside the
    selected period or outside, before it or after, adds its amount to the
    balance of every selection and nothing to the income and the expense to
    date. *)
Theorem initial_rows_count_in_every_period
    (labels : list string) (l1 l2 : list Row) (r : Row)
    (selected_year : Z) (selected_month : string) (view : DerivedPeriodView) :
  Type_ r = Some "Initial" ->
  in_exact_range (l1 ++ r :: l2) = true ->
  Aggregate (mkDataFrame labels (l1 ++ r :: l2)) selected_year selected_month = inr view ->
  let cutoff := period_end (l1 ++ r :: l2) selected_year selected_month in
  let others := exact_sum (filter (fun r => text_is "Initial" (Type_ r)) (l1 ++ l2)) in
  let income :=
    exact_sum (filter (fun r => date_le (Date r) cutoff && text_is "Income" (Type_ r))
                      (l1 ++ l2)) in
  let expense :=
    exact_sum (filter (fun r => date_le (Date r) cutoff && text_is "Expense" (Type_ r))
                      (l1 ++ l2)) in
  initialInvestment view
  = Whole (exact_sum (filter (fun r => text_is "Initial" (Type_ r)) (l1 ++ r :: l2))) /\
  initialInvestment view = Whole (counted r + others) /\
  incomeToDate view = Whole income /\
  expenseToDate view = Whole expense /\
  currentBalance view = Whole (counted r + others + income - expense).
Proof.
  intros Ht Hx Hv cutoff others income expense.
  apply Aggregate_returns in Hv. destruct Hv as [_ ->]. cbn [rows].
  destruct (exact_balance (l1 ++ r :: l2) selected_year selected_month Hx)
    as (Hi & Hn & He & Hb).
  cbn [period_view initialInvestment incomeToDate expenseToDate currentBalance].
  rewrite Hi, Hn, He, Hb. fold cutoff.
  rewrite !exact_sum_filter_insert. cbv beta. rewrite Ht.
  change (text_is "Initial" (Some "Initial")) with true.
  change (text_is "Income" (Some "Initial")) with false.
  change (text_is "Expense" (Some "Initial")) with false.
  rewrite !andb_false_r. fold others income expense.
  repeat split; f_equal; ring.
Qed.

(** [initial_rows_count_in_every_period] for a deposit of March seen from
    January. *)
Lemma initial_rows_count_in_every_period_witness :
  currentBalance (period_view (scenario_A ++ [late_deposit]) 2024 "January")
  = Whole (2500 + 10000 + 5000 - 1200).
Proof.
  apply (initial_rows_count_in_every_period
           (header ++ ["Amount"; "Year"; "Month"]) scenario_A [] late_deposit
           2024 "January" (period_view (scenario_A ++ [late_deposit]) 2024 "January"));
    reflexivity.
Defined.

(** ** The end of the period *)

Lemma series_max_upper s t :
  In (Some t) s -> exists e, series_max s = Some e /\ ts_leb t e = true.
Proof.
  induction s as [|[a|] s IH]; simpl; intros H.
  - contradiction.
  - destruct H as [H|H].
    + inversion H; subst a. destruct (series_max s) as [b|].
      * destruct (ts_leb t b) eqn:E; eexists; split; eauto using ts_leb_refl.
      * eexists; split; eauto using ts_leb_refl.
    + destruct (IH H) as (e & -> & Hle).
      destruct (ts_leb a e) eqn:E; eexists; split; eauto.
      destruct (ts_leb_total a e) as [H'|H']; [congruence|].
      eapply ts_leb_trans; eassumption.
  - destruct H as [H|H]; [discriminate|]. now apply IH.
Qed.

Lemma series_max_in s e : series_max s = Some e -> In (Some e) s.
Proof.
  revert e. induction s as [|[a|] s IH]; simpl; intros e H.
  - discriminate.
  - destruct (series_max s) as [b|].
    + destruct (ts_leb a b); inversion H; subst; auto.
    + inversion H; auto.
  - right. now apply IH.
Qed.

(** C10: the cutoff of the to-date sums is the latest date among all the
    rows of the selected period, whatever their type and whether or not
    they have an amount; so a row that adds nothing to any sum can still set
    the cutoff, and with it bring income and expense rows into the to-date
    sums: here the only February row has no amount, and with it the
    January income and expense count for February. *)
Theorem period_end_over_all_period_rows :
  (forall df y m r t,
     In r (filtered_df df y m) -> Date r = Some t ->
     exists e, period_end df y m = Some e /\ ts_leb t e = true) /\
  (forall df y m e,
     period_end df y m = Some e ->
     exists r, In r (filtered_df df y m) /\ Date r = Some e) /\
  (Amount unreadable_expense = None /\
   period_end scenario_A 2024 "February" = None /\
   (exists view,
      Aggregate (frame scenario_A) 2024 "February" = inr view /\
      incomeToDate view = Whole 0 /\
      expenseToDate view = Whole 0) /\
   period_end (scenario_A ++ [unreadable_expense]) 2024 "February"
   = Some (day 2024 February 10) /\
   (exists view,
      Aggregate (frame (scenario_A ++ [unreadable_expense])) 2024 "February" = inr view /\
      incomeToDate view = Whole 5000 /\
      expenseToDate view = Whole 1200)).
Proof.
  split; [|split].
  - intros df y m r t Hin Hd. apply series_max_upper.
    rewrite <- Hd. now apply in_map.
  - intros df y m e He. apply series_max_in in He.
    apply in_map_iff in He. destruct He as (r & Hd & Hin). eauto.
  - repeat split; eexists; repeat split.
Qed.

(** [period_end_over_all_period_rows] at the February row without an amount. *)
Lemma period_end_over_all_period_rows_witness :
  exists e, period_end (scenario_A ++ [unreadable_expense]) 2024 "February" = Some e /\
            ts_leb (day 2024 February 10) e = true.
Proof.
  apply (proj1 period_end_over_all_period_rows
           (scenario_A ++ [unreadable_expense]) 2024 "February" unreadable_expense).
  - simpl. auto.
  - reflexivity.
Defined.

(** ** Exact tables and running sums *)

Lemma filter_filter_and {A} (p q : A -> bool) l :
  filter q (filter p l) = filter (fun x => p x && q x) l.
Proof.
  induction l as [|x l IH]; simpl; [reflexivity|].
  destruct (p x); simpl; [destruct (q x)|]; now rewrite IH.
Qed.

Lemma income_df_filter df y m : income_df df y m = filter (is_income y m) df.
Proof. unfold income_df, filtered_df. apply filter_filter_and. Qed.

Lemma expense_df_filter df y m : expense_df df y m = filter (is_expense y m) df.
Proof. unfold expense_df, filtered_df. apply filter_filter_and. Qed.

(** The table [groupby] makes of a selection of a frame within the exact
    range: under each key the exact sum of the rows that have it. *)
Lemma table_exact df (p : Row -> bool) :
  in_exact_range df = true ->
  groupby_Category_sum (Amount_dtype df) (filter p df)
  = map (fun k => (k, Whole (exact_sum (filter (of_category p k) df))))
        (group_keys (map Category (filter p df))).
Proof.
  intros Hx. unfold groupby_Category_sum. apply map_ext. intros k.
  rewrite filter_filter_and. f_equal. now apply sum_of_selection.
Qed.

Lemma abs_table_exact df (p : Row -> bool) :
  in_exact_range df = true ->
  abs (Amount_dtype df) (groupby_Category_sum (Amount_dtype df) (filter p df))
  = map (fun k => (k, Whole (Z.abs (exact_sum (filter (of_category p k) df)))))
        (group_keys (map Category (filter p df))).
Proof.
  intros Hx. rewrite (table_exact df p Hx). unfold abs. rewrite map_map.
  apply map_ext. intros k. cbn [fst snd absolute]. f_equal.
  apply number_of_Z_exact. rewrite Z.abs_idemp.
  apply in_exact_range_spec in Hx. destruct Hx as [_ Hm].
  pose proof (exact_sum_le (filter (of_category p k) df)).
  pose proof (magnitude_filter (of_category p k) df). lia.
Qed.

Lemma running_length acc frame : List.length (running acc frame) = List.length frame.
Proof.
  revert acc. induction frame as [|r l IH]; intros acc; simpl; [reflexivity|].
  destruct (Amount r); simpl; now rewrite IH.
Qed.

Lemma running_app acc f1 f2 :
  running acc (f1 ++ f2) = running acc f1 ++ running (acc + exact_sum f1) f2.
Proof.
  revert acc. induction f1 as [|r l IH]; intros acc; simpl.
  - unfold exact_sum, total. simpl. now rewrite Z.add_0_r.
  - rewrite exact_sum_cons.
    destruct (Amount r) as [a|] eqn:E; simpl; rewrite IH.
    + now rewrite Z.add_assoc.
    + unfold counted. now rewrite E.
Qed.

(** [cumsum] on rows within the limit of the dtype gives the exact
    running sums. *)
Lemma cumsum_exact dtype acc frame :
  forallb (fun r => followed (Amount r)) frame = true ->
  Z.abs acc + magnitude frame <= limit dtype ->
  cumsum_from dtype (Whole acc) (map Amount frame) = running acc frame.
Proof.
  revert acc. induction frame as [|r l IH]; intros acc Hf Hm; simpl; [reflexivity|].
  simpl in Hf. apply andb_true_iff in Hf. destruct Hf as [Hr Hl].
  rewrite magnitude_cons in Hm. unfold counted in *.
  destruct (Amount r) as [[z|]|]; simpl in *; try discriminate.
  - pose proof (Z.abs_triangle acc z). pose proof (magnitude_nonneg l).
    rewrite number_of_Z_exact by lia. f_equal. apply IH; [exact Hl | lia].
  - f_equal. apply IH; [exact Hl | lia].
Qed.

Lemma flow_data_exact df y m :
  in_exact_range df = true ->
  flow_data df y m = combine (filtered_df df y m) (running 0 (filtered_df df y m)).
Proof.
  intros Hx. unfold flow_data, cumsum. f_equal.
  apply in_exact_range_spec in Hx. destruct Hx as [Hf Hm].
  apply cumsum_exact; [now apply followed_filter|].
  pose proof (magnitude_filter
                (fun r => year_is y (Year r) && text_is m (Month r)) df).
  unfold filtered_df. simpl. lia.
Qed.

Lemma combine_app_same {A B} (l1 l2 : list A) (l1' l2' : list B) :
  List.length l1 = List.length l1' ->
  combine (l1 ++ l2) (l1' ++ l2') = combine l1 l1' ++ combine l2 l2'.
Proof.
  revert l1'. induction l1 as [|x l1 IH]; intros [|y l1'] H; try discriminate; simpl.
  - reflexivity.
  - f_equal. apply IH. now inversion H.
Qed.

(** ** Rows without an amount *)

Lemma counted_missing r : Amount r = None -> counted r = 0.
Proof. unfold counted. now intros ->. Qed.

Lemma limit_without cells1 c cells2 :
  limit (numeric_dtype (cells1 ++ c :: cells2)) <= limit (numeric_dtype (cells1 ++ cells2)).
Proof.
  unfold numeric_dtype. rewrite !forallb_app. simpl.
  destruct (forallb int64_cell cells1), (int64_cell c), (forallb int64_cell cells2);
    simpl; rewrite ?two_63, ?two_53; lia.
Qed.

(** Taking a row without an amount out of a frame within the exact range
    leaves a frame within the exact range. *)
Lemma in_exact_range_without l1 r l2 :
  Amount r = None ->
  in_exact_range (l1 ++ r :: l2) = true -> in_exact_range (l1 ++ l2) = true.
Proof.
  intros Hr Hx. apply in_exact_range_spec in Hx. destruct Hx as [Hf Hm].
  apply in_exact_range_spec. split.
  - rewrite forallb_app in *. simpl in Hf.
    apply andb_true_iff in Hf. destruct Hf as [H1 H2].
    apply andb_true_iff in H2. destruct H2 as [_ H2]. now rewrite H1, H2.
  - rewrite magnitude_app in *. rewrite magnitude_cons, (counted_missing r Hr) in Hm.
    simpl in Hm. unfold Amount_dtype in *. rewrite map_app in *. simpl in Hm.
    pose proof (limit_without (map Amount_PKR l1) (Amount_PKR r) (map Amount_PKR l2)). lia.
Qed.

Lemma exact_sum_without (p : Row -> bool) l1 r l2 :
  Amount r = None ->
  exact_sum (filter p (l1 ++ r :: l2)) = exact_sum (filter p (l1 ++ l2)).
Proof.
  intros Hr. rewrite exact_sum_filter_insert, (counted_missing r Hr).
  now destruct (p r).
Qed.

Lemma to_datetime_In ls dates c :
  to_datetime (map csv_Date ls) = Some dates -> In c ls ->
  In (date_of_cell (csv_Date c), c) (combine dates ls).
Proof.
  revert dates. induction ls as [|x ls IH]; simpl; intros dates Hp Hin; [contradiction|].
  destruct (csv_Date x) eqn:Ex; try discriminate;
    destruct (to_datetime (map csv_Date ls)) as [ds|]; try discriminate;
    inversion Hp; subst dates; simpl;
    (destruct Hin as [->|Hin]; [left; now rewrite Ex | right; now apply IH]).
Qed.

Lemma parse_dates_In ls dates c :
  parse_dates (map csv_Date ls) = Some dates -> In c ls ->
  In (date_of_cell (csv_Date c), c) (combine dates ls).
Proof. intros H. now apply to_datetime_In, parse_dates_to_datetime. Qed.

Lemma filtered_df_insert l1 r l2 y m :
  filtered_df (l1 ++ r :: l2) y m
  = filtered_df l1 y m ++ (if in_period y m r then [r] else []) ++ filtered_df l2 y m.
Proof.
  unfold filtered_df, in_period. rewrite filter_app. simpl.
  now destruct (year_is y (Year r) && text_is m (Month r)).
Qed.

Lemma filtered_df_app l1 l2 y m :
  filtered_df (l1 ++ l2) y m = filtered_df l1 y m ++ filtered_df l2 y m.
Proof. apply filter_app. Qed.

(** The series of a frame within the exact range, around a row without an
    amount: the exact running sums of the rows before it, nothing at the
    row, and the running sums going on after it as if it were not there. *)
Lemma flow_data_around l1 r l2 y m :
  Amount r = None ->
  in_exact_range (l1 ++ r :: l2) = true ->
  flow_data (l1 ++ r :: l2) y m
  = combine (filtered_df l1 y m) (running 0 (filtered_df l1 y m))
    ++ (if in_period y m r then [(r, None)] else [])
    ++ combine (filtered_df l2 y m)
               (running (exact_sum (filtered_df l1 y m)) (filtered_df l2 y m)).
Proof.
  intros Hr Hx. rewrite (flow_data_exact _ y m Hx), filtered_df_insert.
  rewrite running_app, combine_app_same by (now rewrite running_length).
  f_equal. rewrite Z.add_0_l.
  destruct (in_period y m r); cbn [app].
  - cbn [running]. rewrite Hr. reflexivity.
  - reflexivity.
Qed.

Lemma flow_data_apart l1 l2 y m :
  in_exact_range (l1 ++ l2) = true ->
  flow_data (l1 ++ l2) y m
  = combine (filtered_df l1 y m) (running 0 (filtered_df l1 y m))
    ++ combine (filtered_df l2 y m)
               (running (exact_sum (filtered_df l1 y m)) (filtered_df l2 y m)).
Proof.
  intros Hx. rewrite (flow_data_exact _ y m Hx), filtered_df_app.
  rewrite running_app, combine_app_same by (now rewrite running_length).
  now rewrite Z.add_0_l.
Qed.

(** C4, as stated, fails: a row without a readable amount is not left out
    of the category breakdown.  Its category is listed, with 0 when no
    other row of the period has it: the table is the one of the frame with
    0 written for the amount, not the one of the frame without the row. *)
Lemma missing_amount_is_listed_as_zero :
  Amount unpriced_expense = None /\
  (exists view,
     Aggregate (frame [food_expense; unpriced_expense]) 2024 "January" = inr view /\
     expenseByCategory view = [(Text "Food", Whole 1200); (Text "Misc", Whole 0)]) /\
  (exists view,
     Aggregate (frame [food_expense; zeroed unpriced_expense]) 2024 "January" = inr view /\
     expenseByCategory view = [(Text "Food", Whole 1200); (Text "Misc", Whole 0)]) /\
  (exists view,
     Aggregate (frame [food_expense]) 2024 "January" = inr view /\
     expenseByCategory view = [(Text "Food", Whole 1200)]).
Proof. repeat split; eexists; split; reflexivity. Qed.

(** C4, amended: a line whose amount is not numeric is kept by
    [load_data], with its other cells and a missing [Amount]; a row is
    among the transactions of its own year and month; and in a frame
    within the exact range a row with a missing [Amount] adds nothing to
    any sum of the view: the initial investment and the income and expense
    to date are the exact sums over the other rows, every category of the
    two breakdowns has the exact sum of the other rows under it (the
    category of the row itself being listed all the same), and the
    cumulative series has nothing at the row and, at the other rows, the
    points of the series of the frame without it. *)
Theorem missing_amount_counts_for_nothing :
  (forall argsort fetch url sheet c s,
     fetch url = inr sheet -> malformed sheet = false ->
     In c (lines sheet) -> csv_Amount_PKR c = NonNumeric s ->
     exists (df : DataFrame) r,
       load_data argsort fetch (Some url) = mkOutcome (inr df) [] /\
       In r df /\ Amount r = None /\ Amount_PKR r = NonNumeric s /\
       Date r = date_of_cell (csv_Date c) /\ Type_ r = csv_Type c /\
       Category r = csv_Category c /\ Description r = csv_Description c) /\
  (forall (df : DataFrame) r y m view,
     Aggregate df y m = inr view ->
     In r df -> Year r = Some y -> Month r = Some m ->
     In r (transactions view)) /\
  (forall labels l1 r l2 y m view,
     Amount r = None ->
     in_exact_range (l1 ++ r :: l2) = true ->
     Aggregate (mkDataFrame labels (l1 ++ r :: l2)) y m = inr view ->
     let cutoff := period_end (l1 ++ r :: l2) y m in
     let others := l1 ++ l2 in
     let before := filtered_df l1 y m in
     let after := filtered_df l2 y m in
     initialInvestment view
     = Whole (exact_sum (filter (fun r => text_is "Initial" (Type_ r)) others)) /\
     incomeToDate view
     = Whole (exact_sum
                (filter (fun r => date_le (Date r) cutoff && text_is "Income" (Type_ r))
                        others)) /\
     expenseToDate view
     = Whole (exact_sum
                (filter (fun r => date_le (Date r) cutoff && text_is "Expense" (Type_ r))
                        others)) /\
     incomeByCategory view
     = map (fun k => (k, Whole (exact_sum (filter (of_category (is_income y m) k) others))))
           (group_keys (map Category (income_df (l1 ++ r :: l2) y m))) /\
     expenseByCategory view
     = map (fun k =>
              (k, Whole (Z.abs (exact_sum (filter (of_category (is_expense y m) k) others)))))
           (group_keys (map Category (expense_df (l1 ++ r :: l2) y m))) /\
     cumulativeBalance view
     = combine before (running 0 before)
       ++ (if in_period y m r then [(r, None)] else [])
       ++ combine after (running (exact_sum before) after) /\
     cumulativeBalance (period_view others y m)
     = combine before (running 0 before)
       ++ combine after (running (exact_sum before) after)).
Proof.
  split; [|split].
  - intros argsort fetch url sheet c s Hf Hm Hin Hs.
    destruct (load_data_body_wellformed argsort fetch url sheet Hf Hm) as (rs & Hr & Hb).
    eexists. exists (add_columns (sheet_dtype sheet) (date_of_cell (csv_Date c), c)).
    split; [unfold load_data; now rewrite Hb|]. cbn [rows].
    split.
    + apply in_map.
      apply (Permutation_in _ (Permutation_sym (sort_values_perm argsort rs))).
      unfold read_csv in Hr.
      destruct (parse_dates (map csv_Date (lines sheet))) as [dates|] eqn:Ep; [|discriminate].
      inversion Hr. now apply parse_dates_In.
    + simpl. rewrite Hs. repeat split.
  - intros df r y m view Hv Hin Hy Hmo.
    apply Aggregate_returns in Hv. destruct Hv as [_ ->].
    cbn [period_view transactions]. apply filter_In. split; [exact Hin|].
    rewrite Hy, Hmo. simpl. now rewrite Z.eqb_refl, String.eqb_refl.
  - intros labels l1 r l2 y m view Hr Hx Hv cutoff others before after.
    apply Aggregate_returns in Hv. destruct Hv as [_ ->]. cbn [rows].
    destruct (exact_balance (l1 ++ r :: l2) y m Hx) as (Hi & Hn & He & _).
    cbn [period_view initialInvestment incomeToDate expenseToDate
         incomeByCategory expenseByCategory cumulativeBalance].
    rewrite Hi, Hn, He. fold cutoff.
    rewrite !(exact_sum_without _ l1 r l2 Hr). fold others.
    split; [reflexivity|]. split; [reflexivity|]. split; [reflexivity|].
    split; [|split; [|split]].
    + unfold income_by_cat. rewrite income_df_filter, (table_exact _ _ Hx).
      apply map_ext. intros k. now rewrite (exact_sum_without _ l1 r l2 Hr).
    + unfold expense_by_cat. rewrite expense_df_filter, (abs_table_exact _ _ Hx).
      apply map_ext. intros k. now rewrite (exact_sum_without _ l1 r l2 Hr).
    + now apply flow_data_around.
    + cbn [period_view cumulativeBalance].
      apply flow_data_apart. now apply (in_exact_range_without l1 r l2).
Qed.

(** [missing_amount_counts_for_nothing] at the January expense without an
    amount: nothing at its point of the series, and 1200 under food. *)
Lemma missing_amount_counts_for_nothing_witness :
  cumulativeBalance (period_view [food_expense; unpriced_expense] 2024 "January")
  = [(food_expense, Some (Whole 1200)); (unpriced_expense, None)].
Proof.
  apply (proj2 (proj2 missing_amount_counts_for_nothing)
           (header ++ ["Amount"; "Year"; "Month"]) [food_expense] unpriced_expense []
           2024 "January" (period_view [food_expense; unpriced_expense] 2024 "January"));
    reflexivity.
Defined.

(** ** Category tables *)

Section UniqueFacts.
Context {A : Type} (eqb : A -> A -> bool).
Hypothesis eqb_eq : forall x y, eqb x y = true <-> x = y.

Lemma unique_In x l : In x (unique eqb l) <-> In x l.
Proof.
  induction l as [|a l IH]; simpl; [tauto|].
  rewrite filter_In, IH, negb_true_iff. split.
  - intros [H|[H _]]; auto.
  - intros [H|H]; [now left|].
    destruct (eqb a x) eqn:E; [left; now apply eqb_eq | right; auto].
Qed.

Lemma unique_NoDup l : NoDup (unique eqb l).
Proof.
  induction l as [|a l IH]; simpl; constructor.
  - rewrite filter_In, negb_true_iff. intros [_ H].
    assert (eqb a a = true) by now apply eqb_eq. congruence.
  - now apply NoDup_filter.
Qed.
End UniqueFacts.

Lemma label_eqb_eq a b : label_eqb a b = true <-> a = b.
Proof.
  destruct a as [s|x], b as [t|y]; simpl.
  - rewrite String.eqb_eq. split; congruence.
  - split; discriminate.
  - split; discriminate.
  - rewrite Z.eqb_eq. split; congruence.
Qed.

Lemma insert_key_perm k l : Permutation (insert_key k l) (k :: l).
Proof.
  induction l as [|k' l IH]; simpl; [reflexivity|].
  destruct (label_leb k k'); [reflexivity|].
  rewrite IH. apply perm_swap.
Qed.

Lemma group_keys_perm s : Permutation (group_keys s) (unique label_eqb (present s)).
Proof.
  unfold group_keys. induction (unique label_eqb (present s)) as [|k l IH]; simpl.
  - reflexivity.
  - rewrite insert_key_perm. now constructor.
Qed.

Lemma present_In {A} (a : A) s : In a (present s) <-> In (Some a) s.
Proof.
  induction s as [|[b|] s IH]; simpl; [tauto| |].
  - rewrite IH. split; intros [H|H]; auto; left; congruence.
  - rewrite IH. split; [auto|]. intros [H|H]; [discriminate|auto].
Qed.

Lemma label_is_eq k c : label_is k (Some c) = true <-> c = k.
Proof. simpl. apply label_eqb_eq. Qed.

Lemma in_groups_false ks r k :
  ~ In k ks -> label_is k (Category r) = true -> in_groups ks r = false.
Proof.
  intros Hk Ht. unfold in_groups. destruct (Category r) as [c|]; [|discriminate].
  apply label_is_eq in Ht. subst c.
  apply not_true_is_false. intros H. apply existsb_exists in H.
  destruct H as (k' & Hin & Hk'). apply label_is_eq in Hk'. now subst k'.
Qed.

Lemma group_sums_total frame ks :
  NoDup ks ->
  total (map (group_sum frame) ks) = exact_sum (filter (in_groups ks) frame).
Proof.
  induction 1 as [|k ks Hk Hnd IH]; cbn [map].
  - rewrite filter_none; [reflexivity|]. now intros.
  - change (total (group_sum frame k :: map (group_sum frame) ks))
      with (group_sum frame k + total (map (group_sum frame) ks)).
    rewrite IH. unfold group_sum. clear IH.
    induction frame as [|r frame IHf]; [reflexivity|].
    cbn [filter in_groups existsb].
    fold (in_groups ks r).
    destruct (label_is k (Category r)) eqn:E; cbn [orb].
    + rewrite (in_groups_false ks r k Hk E).
      rewrite !exact_sum_cons.
      cbn [in_groups existsb] in IHf. lia.
    + cbn [in_groups existsb] in IHf.
      destruct (in_groups ks r); [rewrite !exact_sum_cons|]; lia.
Qed.

Lemma in_groups_all frame :
  forall r, In r frame ->
  in_groups (unique label_eqb (present (map Category frame))) r = has_Category r.
Proof.
  intros r Hin. unfold in_groups, has_Category.
  destruct (Category r) as [c|] eqn:Ec.
  - apply existsb_exists. exists c. split; [|now apply label_is_eq].
    apply (unique_In label_eqb label_eqb_eq), present_In.
    rewrite <- Ec. now apply in_map.
  - induction (unique label_eqb (present (map Category frame))); simpl; auto.
Qed.

Lemma in_groups_perm ks ks' r : Permutation ks ks' -> in_groups ks r = in_groups ks' r.
Proof.
  intros H. unfold in_groups.
  destruct (existsb _ ks) eqn:E1, (existsb _ ks') eqn:E2; try reflexivity.
  - apply existsb_exists in E1. destruct E1 as (k & Hin & Hk).
    assert (existsb (fun k => label_is k (Category r)) ks' = true); [|congruence].
    apply existsb_exists. exists k. split; [eapply Permutation_in; eauto | exact Hk].
  - apply existsb_exists in E2. destruct E2 as (k & Hin & Hk).
    assert (existsb (fun k => label_is k (Category r)) ks = true); [|congruence].
    apply existsb_exists. exists k. split; [|exact Hk].
    eapply Permutation_in; [apply Permutation_sym|]; eauto.
Qed.

(** The exact sums of the groups of a frame add up to the exact sum over
    its rows that have a category. *)
Lemma group_sums_conserved frame :
  total (map (group_sum frame) (group_keys (map Category frame)))
  = exact_sum (filter has_Category frame).
Proof.
  pose proof (group_keys_perm (map Category frame)) as Hp.
  rewrite group_sums_total.
  - f_equal. apply filter_ext_in. intros r Hin.
    rewrite (in_groups_perm _ _ r Hp). now apply in_groups_all.
  - eapply Permutation_NoDup; [apply Permutation_sym, Hp|].
    apply unique_NoDup, label_eqb_eq.
Qed.

Lemma wholes_Whole zs : wholes (map Whole zs) = Some zs.
Proof. induction zs as [|z zs IH]; simpl; [reflexivity|]. now rewrite IH. Qed.

(** The two tables of a frame within the exact range, by group sums. *)
Lemma income_by_cat_exact df y m :
  in_exact_range df = true ->
  income_by_cat df y m
  = map (fun k => (k, Whole (group_sum (income_df df y m) k)))
        (group_keys (map Category (income_df df y m))).
Proof.
  intros Hx. unfold income_by_cat. rewrite income_df_filter, (table_exact _ _ Hx).
  apply map_ext. intros k. unfold group_sum. now rewrite filter_filter_and.
Qed.

Lemma expense_by_cat_exact df y m :
  in_exact_range df = true ->
  expense_by_cat df y m
  = map (fun k => (k, Whole (Z.abs (group_sum (expense_df df y m) k))))
        (group_keys (map Category (expense_df df y m))).
Proof.
  intros Hx. unfold expense_by_cat. rewrite expense_df_filter, (abs_table_exact _ _ Hx).
  apply map_ext. intros k. unfold group_sum. now rewrite filter_filter_and.
Qed.

Lemma exact_sum_nonneg frame :
  (forall r, In r frame -> 0 <= counted r) ->
  0 <= exact_sum frame /\ magnitude frame = exact_sum frame.
Proof.
  induction frame as [|r frame IH]; intros H; [split; reflexivity|].
  rewrite exact_sum_cons, magnitude_cons.
  specialize (H r (or_introl eq_refl)) as H0.
  destruct IH as [IH1 IH2]; [intros; apply H; now right|]. lia.
Qed.

Lemma exact_sum_nonpos frame :
  (forall r, In r frame -> counted r <= 0) ->
  exact_sum frame <= 0 /\ magnitude frame = - exact_sum frame.
Proof.
  induction frame as [|r frame IH]; intros H; [split; reflexivity|].
  rewrite exact_sum_cons, magnitude_cons.
  specialize (H r (or_introl eq_refl)) as H0.
  destruct IH as [IH1 IH2]; [intros; apply H; now right|]. lia.
Qed.

Lemma total_abs_of_nonneg {K} (f : K -> Z) ks :
  (forall k, 0 <= f k) -> total (map (fun k => Z.abs (f k)) ks) = total (map f ks).
Proof.
  intros H. unfold total. induction ks as [|k ks IH]; simpl; [reflexivity|].
  rewrite IH. specialize (H k). lia.
Qed.

Lemma total_abs_of_nonpos {K} (f : K -> Z) ks :
  (forall k, f k <= 0) -> total (map (fun k => Z.abs (f k)) ks) = - total (map f ks).
Proof.
  intros H. unfold total. induction ks as [|k ks IH]; simpl; [reflexivity|].
  rewrite IH. specialize (H k). lia.
Qed.

(** C6, as stated, fails: an income row with a blank category is in no
    group, so the income table adds up to less than the income rows; with
    expenses of both signs the expense table adds up to neither the
    absolute value of the expense sum nor the sum of the absolute values;
    and a group of a column of integers is summed in [int64], where the
    largest [int64] and 1 make -2^63. *)
Lemma category_tables_lose_rows_and_signs :
  (exists view,
     Aggregate (frame uncategorized_income) 2024 "January" = inr view /\
     incomeByCategory view = [] /\
     exact_sum (income_df uncategorized_income 2024 "January") = 5000) /\
  (exists view,
     Aggregate (frame expenses_of_both_signs) 2024 "January" = inr view /\
     expenseByCategory view = [(Text "Food", Whole 1000); (Text "Rent", Whole 300)] /\
     Z.abs (exact_sum (expense_df expenses_of_both_signs 2024 "January")) = 700 /\
     magnitude (expense_df expenses_of_both_signs 2024 "January") = 1700) /\
  (exists df view,
     load_data argsort_of_numpy (served sheet_of_two_salaries) (Some "sheet")
     = mkOutcome (inr df) [] /\
     Aggregate df 2024 "January" = inr view /\
     incomeByCategory view = [(Text "Salary", Whole (- 2 ^ 63))] /\
     exact_sum (income_df df 2024 "January") = 2 ^ 63).
Proof.
  split; [|split].
  - eexists. repeat split.
  - eexists. repeat split.
  - eexists. eexists. split; [vm_compute; reflexivity|].
    split; [vm_compute; reflexivity|]. split; vm_compute; reflexivity.
Qed.

(** C6, amended: in a frame within the exact range, the values of the
    income table are whole numbers that add up to the exact sum of the
    amounts of the period's income rows that have a category; each value of
    the expense table is the absolute value of the exact sum of its
    category; and when the period's expense amounts are all of one sign,
    the values of the expense table add up to the absolute value of the sum
    of the amounts of the period's expense rows that have a category, which
    is then also the sum of their absolute values. *)
Theorem category_sums_conserved
    (df : DataFrame) (selected_year : Z) (selected_month : string)
    (view : DerivedPeriodView) :
  Aggregate df selected_year selected_month = inr view ->
  in_exact_range df = true ->
  let income := income_df df selected_year selected_month in
  let expense := expense_df df selected_year selected_month in
  (exists values,
     wholes (map snd (incomeByCategory view)) = Some values /\
     total values = exact_sum (filter has_Category income)) /\
  (exists values,
     wholes (map snd (expenseByCategory view)) = Some values /\
     values = map (fun k => Z.abs (group_sum expense k)) (group_keys (map Category expense)) /\
     ((forall r, In r expense -> 0 <= counted r) \/
      (forall r, In r expense -> counted r <= 0) ->
      total values = Z.abs (exact_sum (filter has_Category expense)) /\
      total values = magnitude (filter has_Category expense))).
Proof.
  intros Hv Hx income expense.
  apply Aggregate_returns in Hv. destruct Hv as [_ ->].
  cbn [period_view incomeByCategory expenseByCategory]. split.
  - exists (map (group_sum income) (group_keys (map Category income))). split.
    + rewrite (income_by_cat_exact _ _ _ Hx), map_map. cbn [snd].
      fold income. rewrite <- (map_map (group_sum income) Whole). apply wholes_Whole.
    + apply group_sums_conserved.
  - exists (map (fun k => Z.abs (group_sum expense k)) (group_keys (map Category expense))).
    split; [|split; [reflexivity|]].
    + rewrite (expense_by_cat_exact _ _ _ Hx), map_map. cbn [snd].
      fold expense.
      rewrite <- (map_map (fun k => Z.abs (group_sum expense k)) Whole).
      apply wholes_Whole.
    + intros Hsign.
      assert (Hsub : forall (p : Row -> bool) r, In r (filter p expense) -> In r expense)
        by (intros p r Hr; apply filter_In in Hr; tauto).
      destruct Hsign as [Hpos|Hneg].
      * rewrite total_abs_of_nonneg.
        -- rewrite group_sums_conserved.
           destruct (exact_sum_nonneg (filter has_Category expense)) as [H0 H1]; [eauto|].
           rewrite H1. split; [symmetry; now apply Z.abs_eq | reflexivity].
        -- intros k. apply exact_sum_nonneg. eauto.
      * rewrite total_abs_of_nonpos.
        -- rewrite group_sums_conserved.
           destruct (exact_sum_nonpos (filter has_Category expense)) as [H0 H1]; [eauto|].
           rewrite H1. split; [symmetry; now apply Z.abs_neq | reflexivity].
        -- intros k. apply exact_sum_nonpos. eauto.
Qed.

(** [category_sums_conserved] on scenario A, whose expenses are all positive. *)
Lemma category_sums_conserved_witness :
  exists values,
    wholes (map snd (incomeByCategory (period_view scenario_A 2024 "January")))
    = Some values /\
    total values = exact_sum (filter has_Category (income_df scenario_A 2024 "January")).
Proof.
  apply (category_sums_conserved (frame scenario_A) 2024 "January"
           (period_view scenario_A 2024 "January")); reflexivity.
Defined.

(** ** The cumulative series *)

Lemma combine_fst {A B} (l : list A) (l' : list B) :
  List.length l = List.length l' -> map fst (combine l l') = l.
Proof.
  revert l'. induction l as [|a l IH]; intros [|b l'] H; simpl in *; try discriminate; auto.
  f_equal. apply IH. lia.
Qed.

Lemma combine_snd {A B} (l : list A) (l' : list B) :
  List.length l = List.length l' -> map snd (combine l l') = l'.
Proof.
  revert l'. induction l as [|a l IH]; intros [|b l'] H; simpl in *; try discriminate; auto.
  f_equal. apply IH. lia.
Qed.

Lemma StronglySorted_filter_keeps {A} (R : A -> A -> Prop) (p : A -> bool) l :
  StronglySorted R l -> StronglySorted R (filter p l).
Proof.
  induction 1 as [|x l Hs IH Hx]; simpl; [constructor|].
  destruct (p x); [|exact IH]. constructor; [exact IH|].
  apply Forall_forall. intros y Hy. apply filter_In in Hy.
  rewrite Forall_forall in Hx. now apply Hx.
Qed.


Lemma running_nth acc frame i :
  nth_error (running acc frame) i
  = match nth_error frame i with
    | Some r =>
        match Amount r with
        | Some _ => Some (Some (Whole (acc + exact_sum (firstn (S i) frame))))
        | None => Some None
        end
    | None => None
    end.
Proof.
  revert acc i. induction frame as [|r l IH]; intros acc i.
  - destruct i; reflexivity.
  - destruct i as [|i].
    + cbn [running nth_error firstn]. unfold exact_sum, total. cbn [map fold_right].
      destruct (Amount r); [now rewrite Z.add_0_r | reflexivity].
    + cbn [nth_error]. change (firstn (S (S i)) (r :: l)) with (r :: firstn (S i) l).
      rewrite exact_sum_cons. cbn [running].
      destruct (Amount r) as [a|] eqn:E; cbn [nth_error]; rewrite IH;
        destruct (nth_error l i) as [r'|]; try reflexivity;
        destruct (Amount r'); try reflexivity.
      * now rewrite Z.add_assoc.
      * unfold counted. now rewrite E.
Qed.

Lemma last_cons {A} (x : A) l d : l <> [] -> last (x :: l) d = last l d.
Proof. destruct l; [congruence | reflexivity]. Qed.

Lemma running_nonempty acc r l : running acc (r :: l) <> [].
Proof. cbn [running]. destruct (Amount r); discriminate. Qed.

Lemma running_last acc frame a :
  last (map Amount frame) None = Some a ->
  last (running acc frame) None = Some (Whole (acc + exact_sum frame)).
Proof.
  revert acc. induction frame as [|r l IH]; intros acc H; [discriminate|].
  rewrite exact_sum_cons. destruct l as [|r' l'].
  - cbn in H. cbn [running]. rewrite H. cbn [last].
    unfold exact_sum, total. cbn [map fold_right]. now rewrite Z.add_0_r.
  - change (last (map Amount (r :: r' :: l')) None)
      with (last (map Amount (r' :: l')) None) in H.
    specialize (IH (acc + counted r) H). rewrite <- Z.add_assoc in IH.
    change (running acc (r :: r' :: l'))
      with (match Amount r with
            | None => None :: running acc (r' :: l')
            | Some _ => Some (Whole (acc + counted r)) :: running (acc + counted r) (r' :: l')
            end).
    destruct (Amount r) as [x|] eqn:E.
    + rewrite last_cons by apply running_nonempty. exact IH.
    + rewrite last_cons by apply running_nonempty.
      rewrite (counted_missing r E), Z.add_0_r in IH.
      now rewrite (counted_missing r E).
Qed.

(** C8, as stated, fails: when the last row of the period has no amount the
    series ends on a missing value, not on the sum of the period; and the
    series of a column of integers is accumulated in [int64], where the
    largest [int64] and 1 make -2^63. *)
Lemma cumulative_series_can_end_missing :
  (exists view,
     Aggregate (frame (scenario_A ++ [unreadable_january_expense])) 2024 "January"
     = inr view /\
     map snd (cumulativeBalance view)
     = [Some (Whole 10000); Some (Whole 15000); Some (Whole 16200); None] /\
     exact_sum (transactions view) = 16200 /\
     last (map snd (cumulativeBalance view)) None <> Some (Whole 16200)) /\
  (exists df view,
     load_data argsort_of_numpy (served sheet_of_two_salaries) (Some "sheet")
     = mkOutcome (inr df) [] /\
     Aggregate df 2024 "January" = inr view /\
     map snd (cumulativeBalance view) = [Some (Whole (2 ^ 63 - 1)); Some (Whole (- 2 ^ 63))] /\
     exact_sum (transactions view) = 2 ^ 63).
Proof.
  split.
  - eexists. split; [reflexivity|]. repeat split. discriminate.
  - eexists. eexists. split; [vm_compute; reflexivity|].
    split; [vm_compute; reflexivity|]. split; vm_compute; reflexivity.
Qed.

(** C8, amended: in a frame within the exact range, the cumulative series
    runs over exactly the transactions of the period, in frame order, which
    is date order in a frame sorted by date; its point at a row with an
    amount is the exact sum of the amounts present among the period's rows
    up to and including that row, counted from zero; its point at a row
    without an amount is missing; and when the last row of the period has
    an amount, the last point is the exact sum of the amounts present in
    the period. *)
Theorem cumulative_balance_is_period_running_sum
    (df : DataFrame) (selected_year : Z) (selected_month : string)
    (view : DerivedPeriodView) :
  Aggregate df selected_year selected_month = inr view ->
  in_exact_range df = true ->
  let period := transactions view in
  let series := map snd (cumulativeBalance view) in
  period = filtered_df df selected_year selected_month /\
  map fst (cumulativeBalance view) = period /\
  (sorted_by_date df -> sorted_by_date period) /\
  (forall i,
     nth_error series i
     = match nth_error period i with
       | Some r =>
           match Amount r with
           | Some _ => Some (Some (Whole (exact_sum (firstn (S i) period))))
           | None => Some None
           end
       | None => None
       end) /\
  (forall a, last (map Amount period) None = Some a ->
             last series None = Some (Whole (exact_sum period))).
Proof.
  intros Hv Hx period series.
  apply Aggregate_returns in Hv. destruct Hv as [_ ->].
  subst period series. cbn [period_view transactions cumulativeBalance].
  rewrite (flow_data_exact _ _ _ Hx).
  assert (Hl : List.length (filtered_df df selected_year selected_month)
               = List.length (running 0 (filtered_df df selected_year selected_month)))
    by (now rewrite running_length).
  rewrite (combine_fst _ _ Hl), (combine_snd _ _ Hl).
  split; [reflexivity|]. split; [reflexivity|]. split; [|split].
  - apply StronglySorted_filter_keeps.
  - intros i. rewrite running_nth.
    destruct (nth_error (filtered_df df selected_year selected_month) i) as [r|];
      [|reflexivity].
    destruct (Amount r); [|reflexivity]. now rewrite Z.add_0_l.
  - intros a Ha. rewrite (running_last 0 _ a Ha). now rewrite Z.add_0_l.
Qed.

(** [cumulative_balance_is_period_running_sum] on scenario A, whose last
    row has an amount. *)
Lemma cumulative_balance_is_period_running_sum_witness :
  last (map snd (cumulativeBalance (period_view scenario_A 2024 "January"))) None
  = Some (Whole (exact_sum (transactions (period_view scenario_A 2024 "January")))).
Proof.
  apply (cumulative_balance_is_period_running_sum (frame scenario_A) 2024 "January"
           (period_view scenario_A 2024 "January") eq_refl eq_refl)
    with (a := Whole 1200).
  reflexivity.
Defined.

(** ** The selectors *)

Lemma month_eqb_eq a b : month_eqb a b = true <-> a = b.
Proof.
  unfold month_eqb. rewrite Z.eqb_eq. split; [apply month_number_inj | congruence].
Qed.

Lemma show_month_eqb a b :
  option_eqb String.eqb (show_month a) (show_month b) = month_eqb a b.
Proof. destruct a, b; reflexivity. Qed.

Lemma option_eqb_eq {A} (eqb : A -> A -> bool) :
  (forall x y, eqb x y = true <-> x = y) ->
  forall a b, option_eqb eqb a b = true <-> a = b.
Proof.
  intros H [x|] [y|]; simpl; try (split; [discriminate | discriminate]); try tauto.
  rewrite H. split; congruence.
Qed.

Lemma unique_map {A B} (f : A -> B) (eqa : A -> A -> bool) (eqb : B -> B -> bool) l :
  (forall x y, eqb (f x) (f y) = eqa x y) ->
  unique eqb (map f l) = map f (unique eqa l).
Proof.
  intros H. induction l as [|a l IH]; simpl; [reflexivity|].
  f_equal. rewrite IH. clear IH.
  induction (unique eqa l) as [|x u IHu]; simpl; [reflexivity|].
  rewrite H. destruct (eqa a x); simpl; now rewrite IHu.
Qed.

Lemma StronglySorted_with {A} (R : A -> A -> Prop) (P : A -> Prop) l :
  StronglySorted R l -> Forall P l ->
  StronglySorted (fun a b => R a b /\ P a /\ P b) l.
Proof.
  induction 1 as [|x l Hs IH Hx]; intros HP; constructor.
  - apply IH. now inversion HP.
  - inversion HP as [|? ? Px Pl]; subst.
    rewrite Forall_forall in *. intros y Hy. auto.
Qed.

Lemma unique_months_increase ms :
  StronglySorted (fun a b => month_number a <= month_number b) ms ->
  StronglySorted (fun a b => month_number a < month_number b) (unique month_eqb ms).
Proof.
  induction 1 as [|a ms Hs IH Ha]; simpl; constructor.
  - now apply StronglySorted_filter_keeps.
  - apply Forall_forall. intros y Hy. apply filter_In in Hy. destruct Hy as [Hy Hne].
    apply (proj1 (unique_In month_eqb month_eqb_eq y ms)) in Hy.
    rewrite Forall_forall in Ha. specialize (Ha y Hy).
    apply negb_true_iff in Hne. unfold month_eqb in Hne. apply Z.eqb_neq in Hne. lia.
Qed.

Lemma insert_reverse_perm x l : Permutation (insert_reverse x l) (x :: l).
Proof.
  induction l as [|y l IH]; simpl; [reflexivity|].
  destruct (year_lt x y); [|reflexivity].
  rewrite IH. apply perm_swap.
Qed.

Lemma sorted_reverse_perm l : Permutation (sorted_reverse l) l.
Proof.
  induction l as [|x l IH]; simpl; [reflexivity|].
  rewrite insert_reverse_perm. now constructor.
Qed.

Lemma year_is_eq y cell : year_is y cell = true <-> cell = Some y.
Proof.
  destruct cell as [y'|]; simpl; [|split; discriminate].
  rewrite Z.eqb_eq. split; congruence.
Qed.

(** The rows of one year, in a frame with its derived columns. *)
Lemma rows_of_year df y r :
  Forall derived_columns df ->
  In r (filter (fun r => year_is y (Year r)) df) ->
  exists t, Date r = Some t /\ ts_year t = y /\ Month r = show_month (ts_month t).
Proof.
  intros Hd Hin. apply filter_In in Hin. destruct Hin as [Hin Hy].
  rewrite Forall_forall in Hd. destruct (Hd r Hin) as [HY HM].
  apply year_is_eq in Hy. rewrite HY in Hy. rewrite HM.
  destruct (Date r) as [t|]; [|discriminate]. simpl in Hy.
  exists t. repeat split. congruence.
Qed.


(** The [Year] column of a frame that [load_data] built is in the order of
    the dates: ascending, the missing years last. *)
Lemma years_sorted df :
  Forall derived_columns df -> sorted_by_date df ->
  StronglySorted year_order (map Year df).
Proof.
  intros Hd Hs.
  apply StronglySorted_map
    with (R := fun r1 r2 => date_order (Date r1) (Date r2) /\
                            derived_columns r1 /\ derived_columns r2).
  - intros r1 r2 (Ho & [H1 _] & [H2 _]). rewrite H1, H2.
    destruct (Date r1) as [t1|], (Date r2) as [t2|]; simpl in *; auto.
    now apply ts_leb_year.
  - now apply StronglySorted_with.
Qed.

Lemma unique_strict {A} (eqb : A -> A -> bool) (R : A -> A -> Prop) s :
  (forall x y, eqb x y = true <-> x = y) ->
  StronglySorted R s ->
  StronglySorted (fun a b => R a b /\ a <> b) (unique eqb s).
Proof.
  intros Heq. induction 1 as [|a s Hs IH Ha]; simpl; constructor.
  - now apply StronglySorted_filter_keeps.
  - apply Forall_forall. intros y Hy. apply filter_In in Hy. destruct Hy as [Hy Hne].
    apply (proj1 (unique_In eqb Heq y s)) in Hy.
    rewrite Forall_forall in Ha. split; [now apply Ha|].
    intros ->. apply negb_true_iff in Hne.
    assert (eqb y y = true) by now apply Heq. congruence.
Qed.

(** Distinct years in that order: the years ascending, then at most one
    missing year. *)
Lemma ascending_years u :
  StronglySorted (fun a b => year_order a b /\ a <> b) u ->
  exists ys, (u = map Some ys \/ u = map Some ys ++ [None]) /\ StronglySorted Z.lt ys.
Proof.
  induction 1 as [|x l Hs IH Hx].
  - exists []. split; [now left | constructor].
  - destruct IH as (ys & Hl & Hys). destruct x as [x|].
    + exists (x :: ys). split.
      * destruct Hl as [->| ->]; [now left | now right].
      * constructor; [exact Hys|]. apply Forall_forall. intros y Hy.
        rewrite Forall_forall in Hx.
        assert (Hin : In (Some y) l).
        { destruct Hl as [->| ->]; [|apply in_or_app; left]; now apply in_map. }
        destruct (Hx _ Hin) as [Hle Hne]. simpl in Hle.
        assert (x <> y) by congruence. lia.
    + exists []. split; [right|constructor].
      destruct l as [|b l]; [reflexivity|].
      inversion Hx as [|? ? [Hb Hne] _]; subst.
      destruct b; [contradiction | congruence].
Qed.

Lemma insert_reverse_past ys y tail :
  Forall (fun z => y < z) ys -> tail = [] \/ tail = [None] ->
  insert_reverse (Some y) (map Some ys ++ tail) = map Some ys ++ Some y :: tail.
Proof.
  intros Hys Ht. induction Hys as [|z ys Hz Hys IH]; simpl.
  - destruct Ht as [->| ->]; reflexivity.
  - apply Z.ltb_lt in Hz. rewrite Hz. now rewrite IH.
Qed.

Lemma StronglySorted_app {A} (R : A -> A -> Prop) l1 l2 :
  StronglySorted R l1 -> StronglySorted R l2 ->
  (forall a b, In a l1 -> In b l2 -> R a b) ->
  StronglySorted R (l1 ++ l2).
Proof.
  intros H1 H2 H. induction H1 as [|x l Hs IH Hx]; simpl; [exact H2|].
  constructor.
  - apply IH. intros a b Ha Hb. apply H; [now right | exact Hb].
  - apply Forall_app. split; [exact Hx|].
    apply Forall_forall. intros b Hb. apply H; [now left | exact Hb].
Qed.

Lemma rev_descending ys : StronglySorted Z.lt ys -> StronglySorted Z.gt (rev ys).
Proof.
  induction 1 as [|x l Hs IH Hx]; simpl; [constructor|].
  apply StronglySorted_app; [exact IH | repeat constructor|].
  intros a b Ha [<-|[]]. apply in_rev in Ha.
  rewrite Forall_forall in Hx. specialize (Hx a Ha). lia.
Qed.

(** [sorted(..., reverse=True)] on such a list: the years descending, the
    missing year staying last. *)
Lemma sorted_reverse_ascending ys tail :
  StronglySorted Z.lt ys -> tail = [] \/ tail = [None] ->
  sorted_reverse (map Some ys ++ tail) = map Some (rev ys) ++ tail.
Proof.
  intros Hys Ht. induction Hys as [|y ys Hs IH Hy]; simpl.
  - destruct Ht as [->| ->]; reflexivity.
  - fold (sorted_reverse (map Some ys ++ tail)). rewrite IH.
    rewrite insert_reverse_past; [|apply Forall_forall|exact Ht].
    + now rewrite map_app, <- app_assoc.
    + intros z Hz. apply in_rev in Hz. rewrite Forall_forall in Hy. now apply Hy.
Qed.

(** The years of the selector: those of the [Year] column, each once. *)
Lemma AvailableYears_In df y :
  In y (AvailableYears df) <-> exists r, In r df /\ Year r = y.
Proof.
  unfold AvailableYears.
  assert (H : In y (sorted_reverse (unique (option_eqb Z.eqb) (map Year df)))
              <-> In y (unique (option_eqb Z.eqb) (map Year df))).
  { split; apply Permutation_in;
      [apply sorted_reverse_perm | apply Permutation_sym, sorted_reverse_perm]. }
  rewrite H, (unique_In (option_eqb Z.eqb) (option_eqb_eq Z.eqb Z.eqb_eq)), in_map_iff.
  split; intros (r & H1 & H2); exists r; auto.
Qed.

(** In a frame that [load_data] built, the year selector lists the years
    descending and then, when a row has no date, a missing year. *)
Lemma years_of_a_loaded_frame df :
  Forall derived_columns df -> sorted_by_date df ->
  exists ys,
    AvailableYears df
    = map Some ys ++ (if existsb (fun r => is_NaT (Date r)) df then [None] else []) /\
    StronglySorted Z.gt ys /\
    forall y, In y ys <-> exists r, In r df /\ Year r = Some y.
Proof.
  intros Hd Hs.
  pose proof (unique_strict (option_eqb Z.eqb) year_order (map Year df)
                (option_eqb_eq Z.eqb Z.eqb_eq) (years_sorted df Hd Hs)) as Hu.
  destruct (ascending_years _ Hu) as (ys & Hl & Hys).
  assert (Hav : exists tail, (tail = [] \/ tail = [None]) /\
                  AvailableYears df = map Some (rev ys) ++ tail).
  { unfold AvailableYears. destruct Hl as [-> | ->].
    - exists []. split; [now left|].
      rewrite <- (app_nil_r (map Some ys)).
      now rewrite (sorted_reverse_ascending ys [] Hys (or_introl eq_refl)).
    - exists [None]. split; [now right|].
      now rewrite (sorted_reverse_ascending ys [None] Hys (or_intror eq_refl)). }
  destruct Hav as (tail & Ht & Hav). exists (rev ys).
  assert (Hnone : In None (AvailableYears df)
                  <-> existsb (fun r => is_NaT (Date r)) df = true).
  { rewrite AvailableYears_In, existsb_exists. rewrite Forall_forall in Hd.
    split; intros (r & Hr & H); exists r; (split; [exact Hr|]);
      destruct (Hd r Hr) as [HY _]; rewrite HY in *;
      destruct (Date r); simpl in *; congruence. }
  assert (Hsome : forall l : list Z, ~ In None (map Some l)).
  { intros l H. apply in_map_iff in H. destruct H as (z & Hz & _). discriminate. }
  split; [|split].
  - rewrite Hav. f_equal.
    destruct (existsb (fun r => is_NaT (Date r)) df) eqn:E.
    + destruct Ht as [-> | ->]; [|reflexivity].
      exfalso. apply (Hsome (rev ys)).
      rewrite app_nil_r in Hav. rewrite <- Hav. now apply Hnone.
    + destruct Ht as [-> | ->]; [reflexivity|].
      assert (H : In None (AvailableYears df))
        by (rewrite Hav; apply in_or_app; right; now left).
      apply Hnone in H. discriminate.
  - now apply rev_descending.
  - intros y. rewrite <- AvailableYears_In, Hav, in_app_iff. split.
    + intros H. left. now apply in_map.
    + intros [H|H].
      * apply in_map_iff in H. destruct H as (z & Hz & H). congruence.
      * destruct Ht as [-> | ->]; [contradiction|].
        destruct H as [H|[]]. discriminate.
Qed.

(** C9, as stated, fails: a line whose date cell is blank has no year, and
    the year selector then offers, after the years, a missing year that is
    no year of the ledger. *)
Lemma year_selector_offers_a_missing_year :
  result (load_data argsort_of_numpy (served sheet_with_an_undated_line) (Some "sheet"))
  = inr (loaded sheet_with_an_undated_line) /\
  map Date (loaded sheet_with_an_undated_line)
  = [Some (day 2023 November 3); Some (day 2024 February 2); None] /\
  AvailableYears (loaded sheet_with_an_undated_line) = [Some 2024; Some 2023; None].
Proof. repeat split. Qed.

(** C9, amended: on a frame that [load_data] returns, the year selector
    lists the years of the dated rows, each once, in descending order, and
    after them a missing year when some row has no date; and the month
    selector of a year lists the months of that year's rows, each once, in
    order of first appearance in the frame, which is calendar order. *)
Theorem selectors_list_years_and_months
    (argsort : Argsort) (fetch : string -> Exception + Sheet)
    (sheet_url : option string) (df : DataFrame) :
  result (load_data argsort fetch sheet_url) = inr df ->
  (exists ys,
     AvailableYears df
     = map Some ys ++ (if existsb (fun r => is_NaT (Date r)) df then [None] else []) /\
     StronglySorted Z.gt ys /\
     forall y, In y ys <-> exists r, In r df /\ Year r = Some y) /\
  (forall selected_year,
     AvailableMonths df selected_year
     = unique (option_eqb String.eqb)
              (map Month (filter (fun r => year_is selected_year (Year r)) df)) /\
     exists ms,
       AvailableMonths df selected_year = map show_month ms /\
       StronglySorted (fun a b => month_number a < month_number b) ms /\
       forall mo, In mo ms <->
                  exists r, In r df /\ Year r = Some selected_year /\
                            Month r = show_month mo).
Proof.
  intros Hload. destruct (load_data_normalized _ _ _ _ Hload) as [Hd Hs].
  split; [now apply years_of_a_loaded_frame|].
  intros selected_year. split; [reflexivity|].
  unfold AvailableMonths.
  set (period := filter (fun r => year_is selected_year (Year r)) df).
  assert (Hrows : forall r, In r period ->
            exists t, Date r = Some t /\ ts_year t = selected_year /\
                      Month r = show_month (ts_month t))
    by (intros r; now apply rows_of_year).
  assert (Hmonth : map Month period = map show_month (map month_of period)).
  { rewrite map_map. apply map_ext_in. intros r Hr.
    destruct (Hrows r Hr) as (t & Ht & _ & Hm). unfold month_of. now rewrite Ht. }
  exists (unique month_eqb (map month_of period)). split; [|split].
  - rewrite Hmonth. apply unique_map. intros a b. apply show_month_eqb.
  - apply unique_months_increase.
    apply StronglySorted_map
      with (R := fun r1 r2 => date_order (Date r1) (Date r2) /\
                              In r1 period /\ In r2 period).
    + intros r1 r2 (Hord & H1 & H2).
      destruct (Hrows r1 H1) as (t1 & Ht1 & Hy1 & _).
      destruct (Hrows r2 H2) as (t2 & Ht2 & Hy2 & _).
      unfold month_of. rewrite Ht1, Ht2 in *. simpl in Hord.
      apply ts_leb_month; congruence.
    + apply StronglySorted_with.
      * now apply StronglySorted_filter_keeps.
      * now apply Forall_forall.
  - intros mo. rewrite (unique_In month_eqb month_eqb_eq), in_map_iff. split.
    + intros (r & Hmo & Hr). exists r.
      destruct (Hrows r Hr) as (t & Ht & Hy & Hm).
      apply filter_In in Hr. destruct Hr as [Hr Hyr].
      apply year_is_eq in Hyr. unfold month_of in Hmo. rewrite Ht in Hmo.
      repeat split; congruence.
    + intros (r & Hr & Hy & Hm). exists r.
      assert (Hin : In r period)
        by (apply filter_In; split; [exact Hr | now apply year_is_eq]).
      split; [|exact Hin].
      destruct (Hrows r Hin) as (t & Ht & _ & Hm').
      unfold month_of. rewrite Ht. rewrite Hm in Hm'.
      inversion Hm'. symmetry. now apply month_name_inj.
Qed.

(** [selectors_list_years_and_months] on the sheet with an undated line. *)
Lemma selectors_list_years_and_months_witness :
  exists ys,
    AvailableYears (loaded sheet_with_an_undated_line)
    = map Some ys
      ++ (if existsb (fun r => is_NaT (Date r)) (loaded sheet_with_an_undated_line)
          then [None] else []) /\
    StronglySorted Z.gt ys /\
    forall y, In y ys <->
              exists r, In r (loaded sheet_with_an_undated_line) /\ Year r = Some y.
Proof.
  apply (selectors_list_years_and_months argsort_of_numpy
           (served sheet_with_an_undated_line) (Some "sheet")
           (loaded sheet_with_an_undated_line)).
  reflexivity.
Defined.

Example selectors_of_two_years :
  AvailableYears two_years = [Some 2024; Some 2023] /\
  AvailableMonths two_years 2024 = [Some "February"; Some "April"].
Proof. split; reflexivity. Qed.

(** ** The sheet URL *)

Lemma str_app_assoc (a b c : string) : ((a ++ b) ++ c = a ++ (b ++ c))%string.
Proof. induction a as [|x a IH]; simpl; [reflexivity | now rewrite IH]. Qed.

Lemma str_app_length (a b : string) :
  String.length (a ++ b)%string = (String.length a + String.length b)%nat.
Proof. induction a as [|x a IH]; simpl; [reflexivity | now rewrite IH]. Qed.

Lemma prefix_cons_eq a p w : prefix (String a p) (String a w) = prefix p w.
Proof. simpl. destruct (ascii_dec a a) as [_|H]; [reflexivity | now elim H]. Qed.

Lemma prefix_cons_neq a c p w : a <> c -> prefix (String a p) (String c w) = false.
Proof. intros H. simpl. destruct (ascii_dec a c) as [E|_]; [now elim H | reflexivity]. Qed.

Lemma prefix_nil s : prefix EmptyString s = true.
Proof. now destruct s. Qed.

Lemma prefix_slash w : prefix "/" (String "/" w) = true.
Proof. rewrite prefix_cons_eq. apply prefix_nil. Qed.

Lemma prefix_app p s : prefix p (p ++ s)%string = true.
Proof.
  induction p as [|a p IH]; simpl; [now destruct s|].
  destruct (ascii_dec a a) as [_|H]; [exact IH | now elim H].
Qed.

Lemma prefix_length p s : prefix p s = true -> (String.length p <= String.length s)%nat.
Proof.
  revert s. induction p as [|a p IH]; intros s H; simpl; [lia|].
  destruct s as [|c s]; [discriminate|]. simpl in *.
  destruct (ascii_dec a c); [|discriminate]. apply IH in H. lia.
Qed.

Lemma prefix_app_long p s t :
  (String.length p <= String.length s)%nat -> prefix p (s ++ t)%string = prefix p s.
Proof.
  revert s. induction p as [|a p IH]; intros s H.
  - now destruct s, t.
  - destruct s as [|c s]; simpl in H; [lia|]. simpl.
    destruct (ascii_dec a c); [|reflexivity]. apply IH. lia.
Qed.

Lemma contains_nil sub : sub <> EmptyString -> contains sub EmptyString = false.
Proof. intros H. destruct sub; [now elim H | reflexivity]. Qed.

Lemma contains_cons sub c s :
  contains sub (String c s) = prefix sub (String c s) || contains sub s.
Proof. reflexivity. Qed.

Lemma contains_app sub a b : contains sub (a ++ sub ++ b)%string = true.
Proof.
  induction a as [|x a IH].
  - change (EmptyString ++ sub ++ b)%string with (sub ++ b)%string.
    pose proof (prefix_app sub b) as H.
    destruct (sub ++ b)%string; cbn [contains]; now rewrite H.
  - change (String x a ++ sub ++ b)%string with (String x (a ++ sub ++ b)%string).
    rewrite contains_cons, IH. apply orb_true_r.
Qed.

Lemma cut_at_cons sep c s :
  cut_at sep (String c s)
  = if prefix sep (String c s)
    then Some (EmptyString, drop (String.length sep) (String c s))
    else option_map (fun p => (String c (fst p), snd p)) (cut_at sep s).
Proof. reflexivity. Qed.

Lemma cut_at_nil sep :
  cut_at sep EmptyString
  = if prefix sep EmptyString then Some (EmptyString, drop (String.length sep) EmptyString)
    else None.
Proof. reflexivity. Qed.

Lemma cut_at_none sep s : cut_at sep s = None <-> contains sep s = false.
Proof.
  induction s as [|c s IH].
  - rewrite cut_at_nil. cbn [contains].
    destruct (prefix sep EmptyString); cbn [orb]; split; congruence.
  - rewrite cut_at_cons, contains_cons.
    destruct (prefix sep (String c s)); simpl; [split; discriminate|].
    rewrite <- IH. destruct (cut_at sep s); simpl; split; congruence.
Qed.

Lemma drop_length n s : String.length (drop n s) = (String.length s - n)%nat.
Proof.
  revert s. induction n as [|n IH]; intros s; simpl; [lia|].
  destruct s as [|c s]; simpl; [reflexivity | apply IH].
Qed.

Lemma cut_at_shorter sep s before after :
  sep <> EmptyString -> cut_at sep s = Some (before, after) ->
  (String.length after < String.length s)%nat.
Proof.
  intros Hsep. revert before. induction s as [|c s IH]; intros before H.
  - rewrite cut_at_nil in H. destruct sep; [now elim Hsep | discriminate].
  - rewrite cut_at_cons in H. destruct (prefix sep (String c s)) eqn:Ep.
    + inversion H. rewrite drop_length. apply prefix_length in Ep.
      destruct sep; [now elim Hsep|]. simpl in *. lia.
    + destruct (cut_at sep s) as [[b a]|]; [|discriminate]. simpl in H.
      inversion H; subst. specialize (IH b eq_refl). simpl. lia.
Qed.

(** The length of the text is fuel enough for [split]. *)
Lemma split_fuel_stable sep n m s :
  sep <> EmptyString ->
  (String.length s <= n)%nat -> (String.length s <= m)%nat ->
  split_fuel n sep s = split_fuel m sep s.
Proof.
  intros Hsep. revert m s.
  assert (Hnil : cut_at sep EmptyString = None).
  { rewrite cut_at_nil. destruct sep; [now elim Hsep | reflexivity]. }
  induction n as [|n IH]; intros m s Hn Hm.
  - destruct s; [|simpl in Hn; lia].
    destruct m; cbn [split_fuel]; [reflexivity | now rewrite Hnil].
  - destruct m as [|m].
    + destruct s; [|simpl in Hm; lia]. cbn [split_fuel]. now rewrite Hnil.
    + cbn [split_fuel]. destruct (cut_at sep s) as [[b a]|] eqn:Ec; [|reflexivity].
      f_equal. pose proof (cut_at_shorter sep s b a Hsep Ec).
      apply IH; lia.
Qed.

Lemma split_unfold sep s :
  sep <> EmptyString ->
  split sep s
  = match cut_at sep s with
    | None => [s]
    | Some (before, after) => before :: split sep after
    end.
Proof.
  intros Hsep. unfold split.
  destruct (cut_at sep s) as [[b a]|] eqn:Ec.
  - pose proof (cut_at_shorter sep s b a Hsep Ec) as Hlt.
    destruct (String.length s) as [|n] eqn:El; [lia|].
    cbn [split_fuel]. rewrite Ec. f_equal. apply split_fuel_stable; [exact Hsep | lia | lia].
  - destruct (String.length s); cbn [split_fuel]; now rewrite ?Ec.
Qed.

Lemma split_head sep s :
  sep <> EmptyString -> nth_error (split sep s) 0 = Some (first_piece sep s).
Proof.
  intros Hsep. rewrite split_unfold by exact Hsep. unfold first_piece.
  now destruct (cut_at sep s) as [[b a]|].
Qed.

Lemma split_second sep s :
  sep <> EmptyString ->
  nth_error (split sep s) 1
  = match cut_at sep s with
    | None => None
    | Some (_, after) => Some (first_piece sep after)
    end.
Proof.
  intros Hsep. rewrite split_unfold by exact Hsep.
  destruct (cut_at sep s) as [[b a]|]; [|reflexivity].
  simpl. now apply split_head.
Qed.

Lemma first_piece_hit sep s : prefix sep s = true -> first_piece sep s = EmptyString.
Proof.
  intros H. unfold first_piece. destruct s; [rewrite cut_at_nil | rewrite cut_at_cons];
    now rewrite H.
Qed.

Lemma first_piece_cons sep c s :
  prefix sep (String c s) = false ->
  first_piece sep (String c s) = String c (first_piece sep s).
Proof.
  intros H. unfold first_piece. rewrite cut_at_cons, H.
  now destruct (cut_at sep s) as [[b a]|].
Qed.

(** The first piece at ["/"] of the first piece at ["/d/"] is the first
    piece at ["/"]. *)
Lemma first_piece_slash_d w :
  first_piece "/" (first_piece "/d/" w) = first_piece "/" w.
Proof.
  induction w as [|c w IH]; [reflexivity|].
  destruct (ascii_dec "/" c) as [<-|Hc].
  - rewrite (first_piece_hit "/" (String "/" w)) by apply prefix_slash.
    destruct (prefix "/d/" (String "/" w)) eqn:Ep.
    + now rewrite (first_piece_hit "/d/" _ Ep).
    + rewrite (first_piece_cons "/d/" _ _ Ep). apply first_piece_hit, prefix_slash.
  - rewrite !first_piece_cons by (now apply prefix_cons_neq).
    now rewrite IH.
Qed.

Lemma first_piece_no_slash w : contains "/" (first_piece "/" w) = false.
Proof.
  induction w as [|c w IH]; [reflexivity|].
  destruct (ascii_dec "/" c) as [<-|Hc].
  - now rewrite first_piece_hit by apply prefix_slash.
  - rewrite first_piece_cons by (now apply prefix_cons_neq).
    rewrite contains_cons, IH, prefix_cons_neq by exact Hc. reflexivity.
Qed.

Lemma no_slash_cons c s :
  contains "/" (String c s) = false -> "/"%char <> c /\ contains "/" s = false.
Proof.
  rewrite contains_cons. intros H. apply orb_false_iff in H. destruct H as [Hp Hc].
  split; [|exact Hc]. intros <-. now rewrite prefix_slash in Hp.
Qed.

Lemma first_piece_before_slash sheet_id rest :
  contains "/" sheet_id = false ->
  first_piece "/" (sheet_id ++ String "/" rest)%string = sheet_id.
Proof.
  induction sheet_id as [|c s IH]; intros H.
  - apply first_piece_hit, prefix_slash.
  - apply no_slash_cons in H. destruct H as [Hc Hs].
    change (String c s ++ String "/" rest)%string with (String c (s ++ String "/" rest)%string).
    rewrite first_piece_cons by (now apply prefix_cons_neq).
    now rewrite IH.
Qed.

Lemma first_piece_whole sep s : contains sep s = false -> first_piece sep s = s.
Proof.
  intros H. apply cut_at_none in H. unfold first_piece. now rewrite H.
Qed.

Lemma cut_at_first_slash_d pre after :
  contains "/d/" (pre ++ "/d")%string = false ->
  cut_at "/d/" (pre ++ "/d/" ++ after)%string = Some (pre, after).
Proof.
  induction pre as [|c pre IH]; intros H.
  - change (EmptyString ++ "/d/" ++ after)%string
      with (String "/" (String "d" (String "/" after))).
    rewrite cut_at_cons, !prefix_cons_eq, prefix_nil. reflexivity.
  - change (String c pre ++ "/d")%string with (String c (pre ++ "/d")%string) in H.
    rewrite contains_cons in H. apply orb_false_iff in H. destruct H as [Hp Hc].
    change (String c pre ++ "/d/" ++ after)%string
      with (String c (pre ++ "/d/" ++ after)%string).
    rewrite cut_at_cons.
    assert (Hp' : prefix "/d/" (String c (pre ++ "/d/" ++ after)%string)
                  = prefix "/d/" (String c pre ++ "/d")%string).
    { change (String c (pre ++ "/d/" ++ after)%string)
        with (String c pre ++ ("/d" ++ String "/" after))%string.
      rewrite <- str_app_assoc.
      apply prefix_app_long. rewrite str_app_length. simpl. lia. }
    change (String c pre ++ "/d")%string with (String c (pre ++ "/d")%string) in Hp'.
    rewrite Hp', Hp, (IH Hc). reflexivity.
Qed.

(** [convert_to_csv_url] without the lists: the sheet id is the text
    between the first ["/d/"] and the next ["/"]. *)
Lemma convert_to_csv_url_cut gsheet_url :
  convert_to_csv_url gsheet_url
  = if contains "edit?usp=sharing" gsheet_url then
      match cut_at "/d/" gsheet_url with
      | Some (_, after) => Some (export_url (first_piece "/" after))
      | None => None
      end
    else if contains "export?format=csv" gsheet_url then Some gsheet_url
    else None.
Proof.
  unfold convert_to_csv_url.
  destruct (contains "edit?usp=sharing" gsheet_url); [|reflexivity].
  rewrite split_second by discriminate.
  destruct (cut_at "/d/" gsheet_url) as [[b a]|]; [|reflexivity].
  rewrite split_head by discriminate.
  now rewrite first_piece_slash_d.
Qed.

Lemma export_url_contains sheet_id :
  contains "export?format=csv" (export_url sheet_id) = true.
Proof.
  unfold export_url.
  replace ("https://docs.google.com/spreadsheets/d/" ++ sheet_id ++ "/export?format=csv")%string
    with (("https://docs.google.com/spreadsheets/d/" ++ sheet_id ++ "/")
          ++ "export?format=csv" ++ "")%string.
  - apply contains_app.
  - rewrite !str_app_assoc. reflexivity.
Qed.

Lemma str_app_nil_r (s : string) : (s ++ "")%string = s.
Proof. induction s as [|c s IH]; simpl; [reflexivity | now rewrite IH]. Qed.

Lemma contains_nonempty sub s :
  sub <> EmptyString -> contains sub s = true -> exists c rest, s = String c rest.
Proof.
  intros Hsub H. destruct s as [|c rest]; [|eauto].
  rewrite contains_nil in H by exact Hsub. discriminate.
Qed.

Lemma convert_export_url sheet_id :
  contains "/" sheet_id = false ->
  convert_to_csv_url (export_url sheet_id) = Some (export_url sheet_id).
Proof.
  intros Hid. rewrite convert_to_csv_url_cut.
  destruct (contains "edit?usp=sharing" (export_url sheet_id)).
  - change (export_url sheet_id)
      with ("https://docs.google.com/spreadsheets" ++ "/d/"
            ++ (sheet_id ++ String "/" "export?format=csv"))%string at 1.
    rewrite cut_at_first_slash_d by reflexivity.
    now rewrite first_piece_before_slash.
  - now rewrite export_url_contains.
Qed.

Lemma converted_url_contains gsheet_url sheet_url :
  convert_to_csv_url gsheet_url = Some sheet_url ->
  contains "export?format=csv" sheet_url = true.
Proof.
  intros H. rewrite convert_to_csv_url_cut in H.
  destruct (contains "edit?usp=sharing" gsheet_url).
  - destruct (cut_at "/d/" gsheet_url) as [[b a]|]; [|discriminate].
    inversion H. apply export_url_contains.
  - destruct (contains "export?format=csv" gsheet_url) eqn:E; [|discriminate].
    inversion H; subst. exact E.
Qed.

Lemma converted_url_nonempty gsheet_url sheet_url :
  convert_to_csv_url gsheet_url = Some sheet_url ->
  exists c rest, sheet_url = String c rest.
Proof.
  intros H. apply converted_url_contains in H.
  apply (contains_nonempty "export?format=csv"); [discriminate | exact H].
Qed.

(** X1: a URL that [convert_to_csv_url] returns is a CSV export URL, and it
    is not empty, so that the test [if sheet_url:] of line 59 passes for
    every URL the function returns. *)
Theorem converted_url_is_an_export_url (gsheet_url sheet_url : string) :
  convert_to_csv_url gsheet_url = Some sheet_url ->
  contains "export?format=csv" sheet_url = true /\
  truthy (convert_to_csv_url gsheet_url) = true.
Proof.
  intros H. split; [now apply (converted_url_contains gsheet_url)|].
  rewrite H. destruct (converted_url_nonempty _ _ H) as (c & rest & ->).
  reflexivity.
Qed.

(** [converted_url_is_an_export_url] at the sharing link of the sheet of line 2. *)
Lemma converted_url_is_an_export_url_witness :
  contains "export?format=csv"
    "https://docs.google.com/spreadsheets/d/1KzLZvH1IaKOqLWQmDA2HK68S_NXZwxgIaHrO7RwtO7w/export?format=csv"
  = true /\
  truthy (convert_to_csv_url
    "https://docs.google.com/spreadsheets/d/1KzLZvH1IaKOqLWQmDA2HK68S_NXZwxgIaHrO7RwtO7w/edit?usp=sharing")
  = true.
Proof.
  apply (converted_url_is_an_export_url
    "https://docs.google.com/spreadsheets/d/1KzLZvH1IaKOqLWQmDA2HK68S_NXZwxgIaHrO7RwtO7w/edit?usp=sharing").
  reflexivity.
Defined.

(** X2: [convert_to_csv_url] returns [None] exactly for a URL that holds
    neither ["edit?usp=sharing"] nor ["export?format=csv"], and for a URL
    that holds ["edit?usp=sharing"] but no ["/d/"] (the [IndexError] the
    bare [except] swallows). *)
Theorem convert_to_csv_url_rejects (gsheet_url : string) :
  convert_to_csv_url gsheet_url = None <->
  (contains "edit?usp=sharing" gsheet_url = false /\
   contains "export?format=csv" gsheet_url = false) \/
  (contains "edit?usp=sharing" gsheet_url = true /\
   contains "/d/" gsheet_url = false).
Proof.
  rewrite convert_to_csv_url_cut.
  destruct (contains "edit?usp=sharing" gsheet_url).
  - destruct (cut_at "/d/" gsheet_url) as [[b a]|] eqn:Ec.
    + split; [discriminate|]. intros [[H _]|[_ H]]; [discriminate|].
      apply cut_at_none in H. congruence.
    + apply cut_at_none in Ec. split; auto.
  - destruct (contains "export?format=csv" gsheet_url).
    + split; [discriminate|]. intros [[_ H]|[H _]]; discriminate.
    + split; auto.
Qed.


(** [convert_to_csv_url_rejects] at the placeholder of the input box
    (line 27), which holds neither marker. *)
Lemma convert_to_csv_url_rejects_witness :
  convert_to_csv_url "https://docs.google.com/spreadsheets/d/xxxxxxx/edit#gid=0" = None.
Proof.
  apply (proj2 (convert_to_csv_url_rejects
                  "https://docs.google.com/spreadsheets/d/xxxxxxx/edit#gid=0")).
  left. split; reflexivity.
Defined.


(** X3: for a URL that holds ["edit?usp=sharing"] and reads
    [pre/d/id] followed by nothing or by a ["/"], where the ["/d/"] shown is
    the first of the URL and [id] holds no ["/"], the result is the export
    URL of the sheet [id]. *)
Theorem convert_to_csv_url_extracts_sheet_id (pre sheet_id tail : string) :
  contains "edit?usp=sharing" (pre ++ "/d/" ++ sheet_id ++ tail)%string = true ->
  contains "/d/" (pre ++ "/d")%string = false ->
  contains "/" sheet_id = false ->
  tail = EmptyString \/ (exists rest, tail = String "/" rest) ->
  convert_to_csv_url (pre ++ "/d/" ++ sheet_id ++ tail)%string
  = Some ("https://docs.google.com/spreadsheets/d/" ++ sheet_id
          ++ "/export?format=csv")%string.
Proof.
  intros Hs Hpre Hid Htail. rewrite convert_to_csv_url_cut, Hs.
  rewrite cut_at_first_slash_d by exact Hpre.
  destruct Htail as [->|[rest ->]].
  - now rewrite str_app_nil_r, first_piece_whole.
  - now rewrite first_piece_before_slash.
Qed.

(** [convert_to_csv_url_extracts_sheet_id] at the sharing link of the sheet
    of line 2: the result is the URL of that line. *)
Lemma convert_to_csv_url_extracts_sheet_id_witness :
  convert_to_csv_url
    ("https://docs.google.com/spreadsheets" ++ "/d/"
     ++ "1KzLZvH1IaKOqLWQmDA2HK68S_NXZwxgIaHrO7RwtO7w" ++ "/edit?usp=sharing")%string
  = Some ("https://docs.google.com/spreadsheets/d/"
          ++ "1KzLZvH1IaKOqLWQmDA2HK68S_NXZwxgIaHrO7RwtO7w"
          ++ "/export?format=csv")%string.
Proof.
  apply (convert_to_csv_url_extracts_sheet_id
           "https://docs.google.com/spreadsheets"
           "1KzLZvH1IaKOqLWQmDA2HK68S_NXZwxgIaHrO7RwtO7w"
           "/edit?usp=sharing");
    [reflexivity | reflexivity | reflexivity | right; eexists; reflexivity].
Defined.

(** X4: [convert_to_csv_url] returns its own results unchanged: a URL it
    produced converts to itself. *)
Theorem convert_to_csv_url_idempotent (gsheet_url sheet_url : string) :
  convert_to_csv_url gsheet_url = Some sheet_url ->
  convert_to_csv_url sheet_url = Some sheet_url.
Proof.
  intros H. pose proof H as H'. rewrite convert_to_csv_url_cut in H'.
  destruct (contains "edit?usp=sharing" gsheet_url) eqn:Es.
  - destruct (cut_at "/d/" gsheet_url) as [[b a]|]; [|discriminate].
    inversion H'. apply convert_export_url, first_piece_no_slash.
  - destruct (contains "export?format=csv" gsheet_url); [|discriminate].
    inversion H'; subst. exact H.
Qed.

(** [convert_to_csv_url_idempotent] at a sharing link. *)
Lemma convert_to_csv_url_idempotent_witness :
  convert_to_csv_url "https://docs.google.com/spreadsheets/d/abc123/export?format=csv"
  = Some "https://docs.google.com/spreadsheets/d/abc123/export?format=csv".
Proof.
  apply (convert_to_csv_url_idempotent
           "https://docs.google.com/spreadsheets/d/abc123/edit?usp=sharing").
  reflexivity.
Defined.



(** ** The periods of the selectors *)

Lemma text_is_true value cell : text_is value cell = true <-> cell = Some value.
Proof.
  destruct cell as [s|]; simpl; [|split; discriminate].
  rewrite String.eqb_eq. split; congruence.
Qed.

Lemma in_period_true y m r :
  in_period y m r = true <-> Year r = Some y /\ Month r = Some m.
Proof.
  unfold in_period. now rewrite andb_true_iff, year_is_eq, text_is_true.
Qed.

Lemma filtered_df_In df y m r :
  In r (filtered_df df y m) <-> In r df /\ Year r = Some y /\ Month r = Some m.
Proof.
  unfold filtered_df. rewrite filter_In. fold (in_period y m r).
  now rewrite in_period_true.
Qed.

Lemma AvailableMonths_In df y m :
  In (Some m) (AvailableMonths df y)
  <-> exists r, In r df /\ Year r = Some y /\ Month r = Some m.
Proof.
  unfold AvailableMonths.
  rewrite (unique_In _ (option_eqb_eq _ String.eqb_eq)), in_map_iff. split.
  - intros (r & Hm & Hin). apply filter_In in Hin. destruct Hin as [Hin Hy].
    apply year_is_eq in Hy. eauto.
  - intros (r & Hin & Hy & Hm). exists r. split; [exact Hm|].
    apply filter_In. split; [exact Hin | now apply year_is_eq].
Qed.

Lemma nonempty_In {A} (l : list A) : l <> [] <-> exists x, In x l.
Proof.
  destruct l as [|x l]; split.
  - intros H. now elim H.
  - intros [x []].
  - intros _. exists x. now left.
  - discriminate.
Qed.

Lemma period_row_date df y mo r :
  Forall derived_columns df ->
  In r (filtered_df df y (month_name mo)) ->
  exists t, Date r = Some t /\ ts_year t = y /\ ts_month t = mo.
Proof.
  intros Hd Hin. apply filtered_df_In in Hin. destruct Hin as (Hin & Hy & Hm).
  rewrite Forall_forall in Hd. destruct (Hd r Hin) as [HY HM].
  rewrite HY in Hy. rewrite HM in Hm.
  destruct (Date r) as [t|]; [|discriminate]. simpl in *.
  exists t. split; [reflexivity|]. split; [congruence|].
  apply month_name_inj. congruence.
Qed.

Lemma period_end_in_month df y mo :
  Forall derived_columns df ->
  filtered_df df y (month_name mo) <> [] ->
  exists e, period_end df y (month_name mo) = Some e /\ ts_year e = y /\ ts_month e = mo.
Proof.
  intros Hd Hne. apply nonempty_In in Hne. destruct Hne as [r Hr].
  destruct (period_row_date df y mo r Hd Hr) as (t & Ht & _).
  destruct (series_max_upper (map Date (filtered_df df y (month_name mo))) t)
    as (e & He & _).
  { rewrite <- Ht. now apply in_map. }
  exists e. split; [exact He|].
  apply series_max_in, in_map_iff in He. destruct He as (r' & Hd' & Hr').
  destruct (period_row_date df y mo r' Hd Hr') as (t' & Ht' & Hy & Hm).
  assert (t' = e) by congruence. now subst t'.
Qed.

(** X6: the two selectors offer exactly the periods that have a row: a
    year and a month can be selected exactly when [filtered_df] is not empty
    for them; and in a frame with its derived columns such a period has an
    end date, so that the to-date sums have a cutoff. *)
Theorem selectors_offer_the_nonempty_periods
    (df : DataFrame) (selected_year : Z) (selected_month : string) :
  (filtered_df df selected_year selected_month <> [] <->
   In (Some selected_year) (AvailableYears df) /\
   In (Some selected_month) (AvailableMonths df selected_year)) /\
  (Forall derived_columns df ->
   filtered_df df selected_year selected_month <> [] ->
   exists e, period_end df selected_year selected_month = Some e).
Proof.
  split.
  - rewrite AvailableYears_In, AvailableMonths_In. split.
    + intros Hne. apply nonempty_In in Hne. destruct Hne as (r & Hr).
      apply filtered_df_In in Hr. destruct Hr as (Hin & Hy & Hm).
      split; exists r; auto.
    + intros (_ & r & Hin & Hy & Hm). apply nonempty_In.
      exists r. now apply filtered_df_In.
  - intros Hd Hne. pose proof Hne as Hne'.
    apply nonempty_In in Hne'. destruct Hne' as [r Hr].
    pose proof Hr as Hr'. apply filtered_df_In in Hr'. destruct Hr' as (Hin & Hy & Hm).
    rewrite Forall_forall in Hd. destruct (Hd r Hin) as [HY HM].
    rewrite HY in Hy. destruct (Date r) as [t|] eqn:Ht; [|discriminate].
    destruct (series_max_upper (map Date (filtered_df df selected_year selected_month)) t)
      as (e & He & _).
    { rewrite <- Ht. now apply in_map. }
    now exists e.
Qed.

(** [selectors_offer_the_nonempty_periods] on the frame of two years. *)
Lemma selectors_offer_the_nonempty_periods_witness :
  exists e, period_end (frame two_years) 2024 "April" = Some e.
Proof.
  apply (proj2 (selectors_offer_the_nonempty_periods (frame two_years) 2024 "April")).
  - repeat constructor.
  - discriminate.
Defined.

(** ** The cutoff of the to-date sums *)

Lemma ts_leb_earlier_year a b : ts_year a < ts_year b -> ts_leb a b = true.
Proof. intros H. ts_order. Qed.

Lemma ts_leb_earlier_month a b :
  ts_year a = ts_year b ->
  month_number (ts_month a) < month_number (ts_month b) -> ts_leb a b = true.
Proof. intros Hy Hm. ts_order. Qed.

(** In a frame with its derived columns, the rows dated up to the end of a
    period that is not empty are the rows dated through its month. *)
Lemma date_le_period_end df y mo r :
  Forall derived_columns df ->
  filtered_df df y (month_name mo) <> [] ->
  In r df ->
  date_le (Date r) (period_end df y (month_name mo)) = through y mo (Date r).
Proof.
  intros Hd Hne Hin.
  destruct (period_end_in_month df y mo Hd Hne) as (e & He & Hy & Hm).
  rewrite He. destruct (Date r) as [t|] eqn:Ht; [|reflexivity].
  simpl. destruct (ts_leb t e) eqn:Ele.
  - symmetry. pose proof (ts_leb_year _ _ Ele) as H1.
    destruct (Z.ltb_spec (ts_year t) y); [reflexivity|]. simpl.
    assert (Heq : ts_year t = ts_year e) by lia.
    pose proof (ts_leb_month _ _ Ele Heq) as H2.
    apply andb_true_iff. split; [apply Z.eqb_eq; lia | apply Z.leb_le; congruence].
  - symmetry. apply not_true_is_false. intros H.
    apply orb_true_iff in H. destruct H as [H|H].
    + apply Z.ltb_lt in H. rewrite ts_leb_earlier_year in Ele by lia. discriminate.
    + apply andb_true_iff in H. destruct H as [H1 H2].
      apply Z.eqb_eq in H1. apply Z.leb_le in H2.
      destruct (Z.eq_dec (month_number (ts_month t)) (month_number mo)) as [E|E].
      * apply month_number_inj in E.
        assert (Hr : In r (filtered_df df y (month_name mo))).
        { apply filtered_df_In. split; [exact Hin|].
          rewrite Forall_forall in Hd. destruct (Hd r Hin) as [HY HM].
          rewrite HY, HM, Ht. simpl. split; congruence. }
        destruct (series_max_upper (map Date (filtered_df df y (month_name mo))) t)
          as (e' & He' & Hle).
        { rewrite <- Ht. now apply in_map. }
        unfold period_end in He. congruence.
      * rewrite ts_leb_earlier_month in Ele;
          [discriminate | congruence | rewrite Hm; lia].
Qed.

(** X7: in a frame with its derived columns and for a period that is not
    empty, the to-date sums run through the end of the selected month: a row
    counts exactly when its date lies in an earlier year, or in the selected
    year and in a month up to the selected one, whatever the last day with a
    row in the selected month.  These are the sums of the view of a frame
    that has the columns the script reads. *)
Theorem to_date_runs_through_the_selected_month
    (df : DataFrame) (selected_year : Z) (mo : MonthOfYear) :
  Forall derived_columns df ->
  filtered_df df selected_year (month_name mo) <> [] ->
  income_till_now df selected_year (month_name mo)
  = series_sum (Amount_dtype df) (map Amount
      (filter (fun r => through selected_year mo (Date r) && text_is "Income" (Type_ r)) df)) /\
  expense_till_now df selected_year (month_name mo)
  = series_sum (Amount_dtype df) (map Amount
      (filter (fun r => through selected_year mo (Date r) && text_is "Expense" (Type_ r)) df)) /\
  (has_columns_read df = true ->
   exists view,
     Aggregate df selected_year (month_name mo) = inr view /\
     incomeToDate view = income_till_now df selected_year (month_name mo) /\
     expenseToDate view = expense_till_now df selected_year (month_name mo)).
Proof.
  intros Hd Hne. unfold income_till_now, expense_till_now.
  split; [|split].
  - f_equal. f_equal. apply filter_ext_in. intros r Hin.
    now rewrite (date_le_period_end df selected_year mo r Hd Hne Hin).
  - f_equal. f_equal. apply filter_ext_in. intros r Hin.
    now rewrite (date_le_period_end df selected_year mo r Hd Hne Hin).
  - intros Hc. exists (period_view df selected_year (month_name mo)).
    split; [now apply Aggregate_returns | split; reflexivity].
Qed.

(** [to_date_runs_through_the_selected_month] on the frame of two years. *)
Lemma to_date_runs_through_the_selected_month_witness :
  income_till_now (frame two_years) 2024 (month_name February)
  = series_sum (Amount_dtype (frame two_years)) (map Amount
      (filter (fun r => through 2024 February (Date r) && text_is "Income" (Type_ r))
              (frame two_years))) /\
  exists view,
    Aggregate (frame two_years) 2024 (month_name February) = inr view /\
    incomeToDate view = Whole 8000 /\
    expenseToDate view = Whole 700.
Proof.
  destruct (to_date_runs_through_the_selected_month (frame two_years) 2024 February)
    as (Hi & He & Hv).
  - repeat constructor.
  - discriminate.
  - split; [exact Hi|].
    destruct (Hv eq_refl) as (view & Hview & Hvi & Hve).
    exists view. split; [exact Hview|]. rewrite Hvi, Hve. split; reflexivity.
Defined.

Lemma through_later y1 mo1 y2 mo2 d :
  y1 < y2 \/ (y1 = y2 /\ month_number mo1 <= month_number mo2) ->
  through y1 mo1 d = true -> through y2 mo2 d = true.
Proof.
  intros Hle. destruct d as [t|]; simpl; [|discriminate].
  rewrite !orb_true_iff, !andb_true_iff, !Z.ltb_lt, !Z.eqb_eq, !Z.leb_le. lia.
Qed.

Lemma exact_sum_filter_mono (p q : Row -> bool) l :
  (forall r, In r l -> p r = true -> q r = true) ->
  (forall r, In r l -> 0 <= counted r) ->
  exact_sum (filter p l) <= exact_sum (filter q l).
Proof.
  induction l as [|r l IH]; intros Hpq Hpos; [simpl; lia|].
  assert (IH' : exact_sum (filter p l) <= exact_sum (filter q l)).
  { apply IH; intros r' Hr'; [apply Hpq | apply Hpos]; now right. }
  specialize (Hpq r (or_introl eq_refl)). specialize (Hpos r (or_introl eq_refl)).
  cbn [filter]. destruct (p r), (q r); rewrite ?exact_sum_cons;
    try discriminate (Hpq eq_refl); lia.
Qed.

(** X8: in a frame within the exact range, with its derived columns and
    without negative amounts, the income to date and the expense to date of
    a later period are whole numbers never below those of an earlier one
    (both periods having a row). *)
Theorem to_date_sums_grow_with_the_period
    (df : DataFrame) (y1 : Z) (mo1 : MonthOfYear) (y2 : Z) (mo2 : MonthOfYear) :
  in_exact_range df = true ->
  Forall derived_columns df ->
  filtered_df df y1 (month_name mo1) <> [] ->
  filtered_df df y2 (month_name mo2) <> [] ->
  y1 < y2 \/ (y1 = y2 /\ month_number mo1 <= month_number mo2) ->
  (forall r, In r df -> 0 <= counted r) ->
  exists income1 income2 expense1 expense2,
    income_till_now df y1 (month_name mo1) = Whole income1 /\
    income_till_now df y2 (month_name mo2) = Whole income2 /\
    income1 <= income2 /\
    expense_till_now df y1 (month_name mo1) = Whole expense1 /\
    expense_till_now df y2 (month_name mo2) = Whole expense2 /\
    expense1 <= expense2.
Proof.
  intros Hx Hd Hne1 Hne2 Hle Hpos.
  destruct (exact_balance df y1 (month_name mo1) Hx) as (_ & Hi1 & He1 & _).
  destruct (exact_balance df y2 (month_name mo2) Hx) as (_ & Hi2 & He2 & _).
  do 4 eexists.
  split; [exact Hi1|]. split; [exact Hi2|]. split; [|split; [exact He1|split; [exact He2|]]].
  - apply exact_sum_filter_mono; [|exact Hpos]. intros r Hin.
    rewrite (date_le_period_end df y1 mo1 r Hd Hne1 Hin),
            (date_le_period_end df y2 mo2 r Hd Hne2 Hin).
    rewrite !andb_true_iff. intros [Ht Hty]. split; [|exact Hty].
    eapply through_later; eassumption.
  - apply exact_sum_filter_mono; [|exact Hpos]. intros r Hin.
    rewrite (date_le_period_end df y1 mo1 r Hd Hne1 Hin),
            (date_le_period_end df y2 mo2 r Hd Hne2 Hin).
    rewrite !andb_true_iff. intros [Ht Hty]. split; [|exact Hty].
    eapply through_later; eassumption.
Qed.

(** [to_date_sums_grow_with_the_period] from February to April 2024. *)
Lemma to_date_sums_grow_with_the_period_witness :
  exists income1 income2 expense1 expense2,
    income_till_now (frame two_years) 2024 (month_name February) = Whole income1 /\
    income_till_now (frame two_years) 2024 (month_name April) = Whole income2 /\
    income1 <= income2 /\
    expense_till_now (frame two_years) 2024 (month_name February) = Whole expense1 /\
    expense_till_now (frame two_years) 2024 (month_name April) = Whole expense2 /\
    expense1 <= expense2.
Proof.
  apply (to_date_sums_grow_with_the_period (frame two_years) 2024 February 2024 April).
  - reflexivity.
  - repeat constructor.
  - discriminate.
  - discriminate.
  - right. split; [reflexivity | vm_compute; discriminate].
  - intros r Hr. simpl in Hr.
    destruct Hr as [H|[H|[H|[H|[]]]]]; subst r; vm_compute; discriminate.
Defined.

(** ** The monthly summary and the cumulative series *)

Lemma income_is_not_expense cell :
  text_is "Income" cell = true -> text_is "Expense" cell = false.
Proof. intros H. apply text_is_true in H. now subst cell. Qed.

Lemma exact_sum_by_type l :
  exact_sum l
  = exact_sum (filter (fun r => text_is "Income" (Type_ r)) l)
    + exact_sum (filter (fun r => text_is "Expense" (Type_ r)) l)
    + exact_sum (other_rows l).
Proof.
  unfold other_rows. induction l as [|r l IH]; [reflexivity|].
  cbn [filter]. destruct (text_is "Income" (Type_ r)) eqn:Ei.
  - rewrite (income_is_not_expense _ Ei). cbn [negb andb].
    rewrite !exact_sum_cons. lia.
  - destruct (text_is "Expense" (Type_ r)); cbn [negb andb];
      rewrite !exact_sum_cons; lia.
Qed.

(** The sums over the rows of a period and over its income and expense
    rows, in a frame within the exact range. *)
Lemma period_sums_exact df y m :
  in_exact_range df = true ->
  series_sum (Amount_dtype df) (map Amount (filtered_df df y m))
  = Whole (exact_sum (filtered_df df y m)) /\
  series_sum (Amount_dtype df) (map Amount (income_df df y m))
  = Whole (exact_sum (income_df df y m)) /\
  series_sum (Amount_dtype df) (map Amount (expense_df df y m))
  = Whole (exact_sum (expense_df df y m)).
Proof.
  intros Hx. rewrite income_df_filter, expense_df_filter.
  repeat split; now apply sum_of_selection.
Qed.

(** X9: the cumulative cash-flow adds the expenses to the income: in a
    frame within the exact range, the sum of the amounts of a period, which
    is where the cumulative series ends when the last row of the period has
    an amount, is the income bar plus the expense bar of the monthly summary
    plus the amounts of the rows of any other type. *)
Theorem cumulative_series_adds_expenses_to_income
    (df : DataFrame) (selected_year : Z) (selected_month : string) :
  in_exact_range df = true ->
  let period := filtered_df df selected_year selected_month in
  let other := exact_sum (other_rows period) in
  exists income expense,
    summary_bar df selected_year selected_month
    = [("Income", Whole income); ("Expense", Whole expense)] /\
    series_sum (Amount_dtype df) (map Amount period) = Whole (income + expense + other) /\
    (forall a, last (map Amount period) None = Some a ->
       last (map snd (flow_data df selected_year selected_month)) None
       = Some (Whole (income + expense + other))).
Proof.
  intros Hx period other.
  destruct (period_sums_exact df selected_year selected_month Hx) as (Hp & Hi & He).
  exists (exact_sum (income_df df selected_year selected_month)),
         (exact_sum (expense_df df selected_year selected_month)).
  assert (Hsum : exact_sum period
                 = exact_sum (income_df df selected_year selected_month)
                   + exact_sum (expense_df df selected_year selected_month) + other)
    by apply exact_sum_by_type.
  split; [|split].
  - unfold summary_bar. now rewrite Hi, He.
  - fold period in Hp. now rewrite Hp, Hsum.
  - intros a Ha. rewrite (flow_data_exact _ _ _ Hx). fold period.
    rewrite combine_snd by (now rewrite running_length).
    rewrite (running_last 0 period a Ha). now rewrite Hsum.
Qed.

(** [cumulative_series_adds_expenses_to_income] on scenario A: the series
    ends on 5000 + 1200 + 10000. *)
Lemma cumulative_series_adds_expenses_to_income_witness :
  exists income expense,
    summary_bar (frame scenario_A) 2024 "January"
    = [("Income", Whole income); ("Expense", Whole expense)] /\
    last (map snd (flow_data (frame scenario_A) 2024 "January")) None
    = Some (Whole (income + expense + 10000)).
Proof.
  destruct (cumulative_series_adds_expenses_to_income (frame scenario_A) 2024 "January")
    as (income & expense & Hbar & Hsum & Hlast).
  - reflexivity.
  - exists income, expense. split; [exact Hbar|].
    apply (Hlast (Whole 1200)). reflexivity.
Defined.

Example cumulative_series_of_scenario_A :
  summary_bar scenario_A 2024 "January"
  = [("Income", Whole 5000); ("Expense", Whole 1200)] /\
  map snd (flow_data scenario_A 2024 "January")
  = [Some (Whole 10000); Some (Whole 15000); Some (Whole 16200)].
Proof. split; reflexivity. Qed.

(** ** The keys of the category tables *)

Lemma group_keys_In k s : In k (group_keys s) <-> In (Some k) s.
Proof.
  split.
  - intros H. apply (Permutation_in _ (group_keys_perm s)) in H.
    now apply present_In, (unique_In label_eqb label_eqb_eq).
  - intros H. apply (Permutation_in _ (Permutation_sym (group_keys_perm s))).
    now apply (unique_In label_eqb label_eqb_eq), present_In.
Qed.

Lemma group_keys_NoDup s : NoDup (group_keys s).
Proof.
  eapply Permutation_NoDup; [apply Permutation_sym, group_keys_perm|].
  apply unique_NoDup, label_eqb_eq.
Qed.

Lemma label_leb_total a b : label_leb a b = false -> label_leb b a = true.
Proof.
  destruct a as [s|x], b as [t|y]; simpl; try congruence.
  - intros H. destruct (String.leb_total s t) as [H'|H']; congruence.
  - intros H. apply Z.leb_gt in H. apply Z.leb_le. lia.
Qed.

Lemma insert_key_HdRel k k' l :
  label_leb k' k = true ->
  HdRel (fun a b => label_leb a b = true) k' l ->
  HdRel (fun a b => label_leb a b = true) k' (insert_key k l).
Proof.
  intros Hk Hl. destruct l as [|h l]; simpl; [now constructor|].
  destruct (label_leb k h); constructor; [exact Hk|].
  now inversion Hl.
Qed.

Lemma insert_key_Sorted k l :
  Sorted (fun a b => label_leb a b = true) l ->
  Sorted (fun a b => label_leb a b = true) (insert_key k l).
Proof.
  induction 1 as [|k' l Hs IH Hh]; simpl.
  - repeat constructor.
  - destruct (label_leb k k') eqn:E.
    + constructor; [now constructor | now constructor].
    + constructor; [exact IH|]. apply insert_key_HdRel; [|exact Hh].
      now apply label_leb_total.
Qed.

Lemma group_keys_Sorted s : Sorted (fun a b => label_leb a b = true) (group_keys s).
Proof.
  unfold group_keys. induction (unique label_eqb (present s)) as [|k l IH]; simpl.
  - constructor.
  - now apply insert_key_Sorted.
Qed.

Lemma Sorted_strict l :
  Sorted (fun a b => label_leb a b = true) l -> NoDup l ->
  Sorted (fun a b => label_ltb a b = true) l.
Proof.
  induction 1 as [|k l Hs IH Hh]; intros Hnd; constructor.
  - apply IH. now inversion Hnd.
  - destruct Hh as [|h l' Hkh]; constructor.
    unfold label_ltb. rewrite Hkh. simpl. apply negb_true_iff, not_true_is_false.
    intros E. apply label_eqb_eq in E. subst h.
    inversion Hnd as [|? ? Hnot _]; subst. apply Hnot. now left.
Qed.

Lemma groupby_keys dtype frame :
  map fst (groupby_Category_sum dtype frame) = group_keys (map Category frame).
Proof.
  unfold groupby_Category_sum. rewrite map_map. simpl. apply map_id.
Qed.

Lemma abs_keys dtype table : map fst (abs dtype table) = map fst table.
Proof. unfold abs. rewrite map_map. reflexivity. Qed.

Lemma group_sum_of_selection (p : Row -> bool) df k :
  exact_sum (filter (of_category p k) df) = group_sum (filter p df) k.
Proof. unfold group_sum. now rewrite filter_filter_and. Qed.

(** X10: a category table lists the categories of its rows, each once and
    in ascending order, numbers by value and texts by code point; a category
    without a row in the frame is not listed and a row without a category
    adds no entry; the expense table has the keys of the grouped sums it is
    made of; and in a frame within the exact range the value of a category
    is the exact sum of the amounts of its rows, in the expense table the
    absolute value of that sum. *)
Theorem category_table_lists_each_category_once
    (df : DataFrame) (selected_year : Z) (selected_month : string) :
  let income := income_df df selected_year selected_month in
  let expense := expense_df df selected_year selected_month in
  let income_table := income_by_cat df selected_year selected_month in
  let expense_table := expense_by_cat df selected_year selected_month in
  (NoDup (map fst income_table) /\
   Sorted (fun a b => label_ltb a b = true) (map fst income_table) /\
   forall k, In k (map fst income_table) <-> exists r, In r income /\ Category r = Some k) /\
  (NoDup (map fst expense_table) /\
   Sorted (fun a b => label_ltb a b = true) (map fst expense_table) /\
   forall k, In k (map fst expense_table) <-> exists r, In r expense /\ Category r = Some k) /\
  (in_exact_range df = true ->
   (forall k v, In (k, v) income_table
                <-> In k (map fst income_table) /\ v = Whole (group_sum income k)) /\
   (forall k v, In (k, v) expense_table
                <-> In k (map fst expense_table) /\ v = Whole (Z.abs (group_sum expense k)))).
Proof.
  intros income expense income_table expense_table.
  assert (Hkeys : forall dtype frame,
             NoDup (map fst (groupby_Category_sum dtype frame)) /\
             Sorted (fun a b => label_ltb a b = true)
                    (map fst (groupby_Category_sum dtype frame)) /\
             forall k, In k (map fst (groupby_Category_sum dtype frame))
                       <-> exists r, In r frame /\ Category r = Some k).
  { intros dtype frame. rewrite groupby_keys.
    split; [apply group_keys_NoDup|].
    split; [apply Sorted_strict; [apply group_keys_Sorted | apply group_keys_NoDup]|].
    intros k. rewrite group_keys_In, in_map_iff. split.
    - intros (r & Hc & Hin). eauto.
    - intros (r & Hin & Hc). eauto. }
  split; [apply Hkeys|]. split.
  { subst expense_table. unfold expense_by_cat. rewrite abs_keys. apply Hkeys. }
  intros Hx. subst income_table expense_table income expense.
  rewrite (income_by_cat_exact _ _ _ Hx), (expense_by_cat_exact _ _ _ Hx).
  rewrite !map_map. cbn [fst]. rewrite !map_id. split.
  - intros k v. rewrite in_map_iff. split.
    + intros (k' & E & Hin). inversion E; subst. split; [exact Hin | reflexivity].
    + intros (Hin & ->). exists k. split; [reflexivity | exact Hin].
  - intros k v. rewrite in_map_iff. split.
    + intros (k' & E & Hin). inversion E; subst. split; [exact Hin | reflexivity].
    + intros (Hin & ->). exists k. split; [reflexivity | exact Hin].
Qed.

(** [category_table_lists_each_category_once] on expenses of two
    categories, one of them met twice with opposite signs. *)
Lemma category_table_lists_each_category_once_witness :
  In (Text "Food", Whole 1000) (expense_by_cat (frame expenses_of_both_signs) 2024 "January").
Proof.
  apply (proj2 (proj2 (proj2 (proj2 (category_table_lists_each_category_once
                                       (frame expenses_of_both_signs) 2024 "January"))
                             eq_refl)
                      (Text "Food") (Whole 1000))).
  split; [simpl; auto | reflexivity].
Defined.

(** A [Category] column of numbers is grouped in the order of the numbers,
    not of their digits. *)
Example numbered_categories_in_numeric_order :
  group_keys [Some (Code 10); Some (Code 9); None; Some (Code 10)] = [Code 9; Code 10] /\
  group_keys [Some (Text "10"); Some (Text "9")] = [Text "10"; Text "9"].
Proof. split; reflexivity. Qed.

Lemma groupby_empty dtype frame :
  groupby_Category_sum dtype frame = [] <-> forall r, In r frame -> Category r = None.
Proof.
  split.
  - intros H r Hin. destruct (Category r) as [k|] eqn:Ec; [|reflexivity].
    assert (Hk : In k (map fst (groupby_Category_sum dtype frame))).
    { rewrite groupby_keys. apply group_keys_In. rewrite <- Ec. now apply in_map. }
    rewrite H in Hk. destruct Hk.
  - intros H. destruct (groupby_Category_sum dtype frame) as [|[k v] t] eqn:E; [reflexivity|].
    assert (Hk : In k (map fst (groupby_Category_sum dtype frame)))
      by (rewrite E; now left).
    rewrite groupby_keys in Hk. apply group_keys_In, in_map_iff in Hk.
    destruct Hk as (r & Hc & Hin). rewrite (H r Hin) in Hc. discriminate.
Qed.

(** X11: the notice takes the place of a pie exactly when no row of that
    type in the period has a category, which includes a period that has
    such rows but none with a category; otherwise the pie shows the whole
    table. *)
Theorem notice_replaces_pie_without_categories
    (df : DataFrame) (selected_year : Z) (selected_month : string) :
  (expense_chart df selected_year selected_month
   = Info "No expenses recorded for this month."
   <-> forall r, In r (expense_df df selected_year selected_month) -> Category r = None) /\
  (income_chart df selected_year selected_month
   = Info "No income recorded for this month."
   <-> forall r, In r (income_df df selected_year selected_month) -> Category r = None) /\
  (forall values, expense_chart df selected_year selected_month = Pie values ->
                  values = expenseByCategory (period_view df selected_year selected_month)) /\
  (forall values, income_chart df selected_year selected_month = Pie values ->
                  values = incomeByCategory (period_view df selected_year selected_month)).
Proof.
  unfold expense_chart, income_chart, category_chart.
  cbn [expenseByCategory incomeByCategory period_view].
  unfold expense_by_cat, income_by_cat.
  rewrite <- !(groupby_empty (Amount_dtype df)).
  destruct (groupby_Category_sum (Amount_dtype df)
              (expense_df df selected_year selected_month)) as [|x t];
    destruct (groupby_Category_sum (Amount_dtype df)
                (income_df df selected_year selected_month)) as [|x' t'];
    cbn [abs map]; repeat split; try discriminate; try congruence.
Qed.

(** [notice_replaces_pie_without_categories] on an income without category. *)
Lemma notice_replaces_pie_without_categories_witness :
  income_chart (frame uncategorized_income) 2024 "January"
  = Info "No income recorded for this month.".
Proof.
  apply (proj1 (proj2 (notice_replaces_pie_without_categories
                         (frame uncategorized_income) 2024 "January"))).
  intros r [H|[]]. now subst r.
Defined.

(** ** The periods together *)

Section KeyedSums.
Context {K : Type} (mt : K -> Row -> bool).
Hypothesis mt_functional : forall k k' r, mt k r = true -> mt k' r = true -> k = k'.

Lemma keyed_miss ks k r : ~ In k ks -> mt k r = true -> existsb (fun k' => mt k' r) ks = false.
Proof.
  intros Hk Hm. apply not_true_is_false. intros H.
  apply existsb_exists in H. destruct H as (k' & Hin & Hm').
  apply Hk. now rewrite (mt_functional k k' r Hm Hm').
Qed.

Lemma keyed_sums_total l ks :
  NoDup ks ->
  total (map (fun k => exact_sum (filter (mt k) l)) ks)
  = exact_sum (filter (fun r => existsb (fun k => mt k r) ks) l).
Proof.
  induction 1 as [|k ks Hk Hnd IH]; cbn [map total fold_right].
  - rewrite filter_none; [reflexivity|]. now intros.
  - fold (total (map (fun k => exact_sum (filter (mt k) l)) ks)).
    rewrite IH. clear IH.
    induction l as [|r l IHl]; [reflexivity|].
    cbn [filter existsb].
    destruct (mt k r) eqn:E; cbn [orb].
    + rewrite (keyed_miss ks k r Hk E). rewrite !exact_sum_cons.
      cbn [existsb] in IHl. lia.
    + cbn [existsb] in IHl.
      destruct (existsb (fun k' => mt k' r) ks); rewrite ?exact_sum_cons; lia.
Qed.
End KeyedSums.

Lemma NoDup_present {A} (s : list (option A)) : NoDup s -> NoDup (present s).
Proof.
  induction 1 as [|[a|] s Hn Hs IH]; simpl; [constructor| |exact IH].
  constructor; [|exact IH]. now rewrite present_In.
Qed.

Lemma NoDup_pairs {A B} (f : A -> list B) ys :
  NoDup ys -> (forall y, NoDup (f y)) ->
  NoDup (flat_map (fun y => map (pair y) (f y)) ys).
Proof.
  intros Hys Hf. induction Hys as [|y ys Hy Hys IH]; simpl; [constructor|].
  apply NoDup_app.
  - specialize (Hf y). induction Hf as [|b l Hb Hl IHl]; simpl; constructor; [|exact IHl].
    rewrite in_map_iff. intros (b' & E & Hin). inversion E. now subst b'.
  - exact IH.
  - intros [a b] H1 H2. apply in_map_iff in H1. destruct H1 as (b' & E & _).
    inversion E; subst. apply in_flat_map in H2. destruct H2 as (y' & Hy' & Hin).
    apply in_map_iff in Hin. destruct Hin as (b'' & E' & _). inversion E'; subst.
    contradiction.
Qed.

Lemma AvailableYears_NoDup df : NoDup (AvailableYears df).
Proof.
  unfold AvailableYears.
  eapply Permutation_NoDup; [apply Permutation_sym, sorted_reverse_perm|].
  apply unique_NoDup, option_eqb_eq, Z.eqb_eq.
Qed.

Lemma periods_In df y m :
  In (y, m) (periods df) <-> exists r, In r df /\ Year r = Some y /\ Month r = Some m.
Proof.
  unfold periods. rewrite in_flat_map. split.
  - intros (y' & _ & Hin). apply in_map_iff in Hin. destruct Hin as (m' & E & Hm).
    inversion E; subst. now apply AvailableMonths_In, present_In.
  - intros (r & Hin & Hy & Hm). exists y. split.
    + apply present_In, AvailableYears_In. eauto.
    + apply in_map, present_In, AvailableMonths_In. eauto.
Qed.

Lemma periods_cover df r :
  existsb (fun p => in_period (fst p) (snd p) r) (periods df) = true ->
  has_period r = true.
Proof.
  intros H. apply existsb_exists in H. destruct H as ([y m] & _ & Hp).
  apply in_period_true in Hp. destruct Hp as [Hy Hm].
  unfold has_period. now rewrite Hy, Hm.
Qed.

Lemma filter_all {A} (p : A -> bool) l : (forall x, In x l -> p x = true) -> filter p l = l.
Proof.
  induction l as [|x l IH]; intros H; simpl; [reflexivity|].
  rewrite (H x (or_introl eq_refl)). f_equal. apply IH. intros y Hy. apply H. now right.
Qed.

(** X12: the periods of the selectors share the rows among them: no period
    is offered twice, and a row with a year and a month is in exactly one of
    them; in a frame within the exact range the sum of each period is exact
    and the sums of all periods add up to the exact sum of the rows that
    have a year and a month, which in a frame with its derived columns and
    a date in every row is the sum of the whole frame. *)
Theorem periods_share_the_rows (df : DataFrame) :
  NoDup (periods df) /\
  (forall r, In r df -> has_period r = true ->
     exists p, In p (periods df) /\ In r (filtered_df df (fst p) (snd p)) /\
               forall q, In r (filtered_df df (fst q) (snd q)) -> q = p) /\
  (in_exact_range df = true ->
   exists sums,
     map (period_sum df) (periods df) = map Whole sums /\
     total sums = exact_sum (filter has_period df) /\
     (Forall derived_columns df -> (forall r, In r df -> Date r <> None) ->
      series_sum (Amount_dtype df) (map Amount df) = Whole (total sums))).
Proof.
  assert (Hfun : forall (k k' : Z * string) r,
             in_period (fst k) (snd k) r = true -> in_period (fst k') (snd k') r = true ->
             k = k').
  { intros [y m] [y' m'] r H H'. apply in_period_true in H, H'. simpl in *.
    destruct H as [Hy Hm], H' as [Hy' Hm']. congruence. }
  assert (Hnd : NoDup (periods df)).
  { apply NoDup_pairs.
    - apply NoDup_present, AvailableYears_NoDup.
    - intros y. apply NoDup_present, unique_NoDup, option_eqb_eq, String.eqb_eq. }
  assert (Hsum : total (map (fun p : Z * string =>
                               exact_sum (filter (in_period (fst p) (snd p)) df))
                            (periods df))
                 = exact_sum (filter has_period df)).
  { rewrite (keyed_sums_total (fun p => in_period (fst p) (snd p)) Hfun df _ Hnd).
    f_equal. apply filter_ext_in. intros r Hin.
    destruct (existsb _ (periods df)) eqn:E.
    - symmetry. now apply (periods_cover df).
    - symmetry. apply not_true_is_false. intros Hp. unfold has_period in Hp.
      destruct (Year r) as [y|] eqn:Hy; [|discriminate].
      destruct (Month r) as [m|] eqn:Hm; [|discriminate].
      assert (existsb (fun p => in_period (fst p) (snd p) r) (periods df) = true);
        [|congruence].
      apply existsb_exists. exists (y, m). split.
      + apply periods_In. eauto.
      + now apply in_period_true. }
  split; [exact Hnd|]. split.
  - intros r Hin Hp. unfold has_period in Hp.
    destruct (Year r) as [y|] eqn:Hy; [|discriminate].
    destruct (Month r) as [m|] eqn:Hm; [|discriminate].
    exists (y, m). split; [apply periods_In; eauto|]. split.
    + now apply filtered_df_In.
    + intros [y' m'] Hq. apply filtered_df_In in Hq. simpl in Hq.
      destruct Hq as (_ & Hy' & Hm'). congruence.
  - intros Hx.
    exists (map (fun p : Z * string => exact_sum (filter (in_period (fst p) (snd p)) df))
                (periods df)).
    split; [|split; [exact Hsum|]].
    + rewrite map_map. apply map_ext. intros p. unfold period_sum.
      now apply sum_of_selection.
    + intros Hd Hdated. rewrite Hsum.
      assert (Hall : filter has_period df = rows df).
      { apply filter_all. intros r Hin.
        rewrite Forall_forall in Hd. destruct (Hd r Hin) as [HY HM].
        unfold has_period. rewrite HY, HM.
        specialize (Hdated r Hin). now destruct (Date r). }
      pose proof (sum_of_selection df has_period Hx) as Hs.
      rewrite Hall in Hs. rewrite Hall. exact Hs.
Qed.

(** [periods_share_the_rows] on the frame of two years. *)
Lemma periods_share_the_rows_witness :
  exists sums,
    map (period_sum (frame two_years)) (periods (frame two_years)) = map Whole sums /\
    total sums = exact_sum (filter has_period (frame two_years)) /\
    (Forall derived_columns (frame two_years) ->
     (forall r, In r (frame two_years) -> Date r <> None) ->
     series_sum (Amount_dtype (frame two_years)) (map Amount (frame two_years))
     = Whole (total sums)).
Proof.
  apply (proj2 (proj2 (periods_share_the_rows (frame two_years)))).
  reflexivity.
Defined.

Example periods_of_two_years :
  periods two_years = [(2024, "February"); (2024, "April"); (2023, "November")] /\
  map (period_sum two_years) (periods two_years) = [Whole 4700; Whole 900; Whole 4000] /\
  series_sum (Amount_dtype two_years) (map Amount two_years) = Whole 9600.
Proof. repeat split. Qed.

(** ** The first options of the selectors *)

Lemma insert_reverse_sorted x l :
  is_year x -> Forall is_year l ->
  StronglySorted year_ge l -> StronglySorted year_ge (insert_reverse x l).
Proof.
  intros Hx Hl Hs. induction Hs as [|y l Hs IH Hy]; simpl.
  - repeat constructor.
  - inversion Hl as [|? ? Hy' Hl']; subst.
    destruct x as [x|]; [|now elim Hx]. destruct y as [y|]; [|now elim Hy'].
    simpl. destruct (Z.ltb_spec x y).
    + constructor; [now apply IH|].
      eapply Permutation_Forall; [symmetry; apply insert_reverse_perm|].
      constructor; [simpl; lia | exact Hy].
    + constructor; [now constructor|].
      constructor; [simpl; lia|].
      eapply Forall_impl; [|exact Hy]. intros [z|]; simpl; [lia|tauto].
Qed.

Lemma sorted_reverse_sorted l :
  Forall is_year l -> StronglySorted year_ge (sorted_reverse l).
Proof.
  induction 1 as [|x l Hx Hl IH]; simpl; [constructor|].
  apply insert_reverse_sorted; auto.
  eapply Permutation_Forall; [symmetry; apply sorted_reverse_perm | exact Hl].
Qed.

Lemma descending_years l :
  Forall is_year l -> NoDup l -> StronglySorted year_ge l ->
  exists ys, l = map Some ys /\ StronglySorted Z.gt ys.
Proof.
  induction l as [|x l IH]; intros Hy Hnd Hs.
  - exists []. split; [reflexivity | constructor].
  - inversion Hy as [|? ? Hx Hl]; inversion Hnd as [|? ? Hnx Hnl];
      inversion Hs as [|? ? Hsl Hxl]; subst.
    destruct (IH Hl Hnl Hsl) as (ys & -> & Hys).
    destruct x as [x|]; [|now elim Hx].
    exists (x :: ys). split; [reflexivity|]. constructor; [exact Hys|].
    apply Forall_forall. intros y Hin.
    rewrite Forall_forall in Hxl. specialize (Hxl (Some y) (in_map Some _ _ Hin)).
    simpl in Hxl. assert (x <> y) by (intros ->; apply Hnx; now apply in_map). lia.
Qed.

Lemma AvailableYears_descending df :
  (forall r, In r df -> Year r <> None) ->
  exists ys, AvailableYears df = map Some ys /\ StronglySorted Z.gt ys.
Proof.
  intros Hyears. unfold AvailableYears.
  set (u := unique (option_eqb Z.eqb) (map Year df)).
  assert (Hu : Forall is_year u).
  { apply Forall_forall. intros x Hx.
    apply (unique_In _ (option_eqb_eq _ Z.eqb_eq)), in_map_iff in Hx.
    destruct Hx as (r & <- & Hr). now apply Hyears. }
  apply descending_years.
  - eapply Permutation_Forall; [symmetry; apply sorted_reverse_perm | exact Hu].
  - apply AvailableYears_NoDup.
  - now apply sorted_reverse_sorted.
Qed.

(** X13: on a frame that is not empty, has its derived columns and a date
    in every row, the selectors first show the latest year of the frame and
    a month of that year, and the period they show has at least one row. *)
Theorem selectors_open_on_the_latest_year (df : DataFrame) :
  rows df <> [] ->
  Forall derived_columns df ->
  (forall r, In r df -> Date r <> None) ->
  exists y m,
    selectbox (AvailableYears df) = Some (Some y) /\
    (forall r y', In r df -> Year r = Some y' -> y' <= y) /\
    selectbox (AvailableMonths df y) = Some (Some m) /\
    filtered_df df y m <> [].
Proof.
  intros Hne Hd Hdated.
  assert (Hrow : forall r, In r df ->
            exists t, Date r = Some t /\ Year r = Some (ts_year t) /\
                      Month r = Some (month_name (ts_month t))).
  { intros r Hin. rewrite Forall_forall in Hd. destruct (Hd r Hin) as [HY HM].
    specialize (Hdated r Hin). destruct (Date r) as [t|]; [|now elim Hdated].
    exists t. now rewrite HY, HM. }
  destruct (AvailableYears_descending df) as (ys & Hys & Hsorted).
  { intros r Hin. destruct (Hrow r Hin) as (t & _ & HY & _). congruence. }
  assert (Hin_ys : forall y', In y' ys <-> exists r, In r df /\ Year r = Some y').
  { intros y'. rewrite <- AvailableYears_In, Hys. split.
    - apply in_map.
    - intros H. apply in_map_iff in H. destruct H as (z & E & Hz). congruence. }
  destruct ys as [|y ys].
  { exfalso. apply nonempty_In in Hne. destruct Hne as [r Hin].
    destruct (Hrow r Hin) as (t & _ & HY & _).
    assert (H : In (ts_year t) []) by (apply Hin_ys; eauto). destruct H. }
  assert (Hy : exists r, In r df /\ Year r = Some y) by (apply Hin_ys; now left).
  destruct Hy as (r0 & Hin0 & HY0).
  destruct (Hrow r0 Hin0) as (t0 & _ & _ & HM0).
  destruct (AvailableMonths df y) as [|h months] eqn:Em.
  { exfalso.
    assert (H : In (Some (month_name (ts_month t0))) (AvailableMonths df y))
      by (apply AvailableMonths_In; eauto).
    rewrite Em in H. destruct H. }
  assert (Hh : In h (AvailableMonths df y)) by (rewrite Em; now left).
  unfold AvailableMonths in Hh.
  apply (unique_In _ (option_eqb_eq _ String.eqb_eq)), in_map_iff in Hh.
  destruct Hh as (r1 & Hr1 & Hin1). apply filter_In in Hin1. destruct Hin1 as [Hin1 Hy1].
  destruct (Hrow r1 Hin1) as (t1 & _ & _ & HM1).
  exists y, (month_name (ts_month t1)). split; [now rewrite Hys|]. split; [|split].
  - intros r y' Hin HY. assert (Hy' : In y' (y :: ys)) by (apply Hin_ys; eauto).
    destruct Hy' as [->|Hy']; [lia|].
    inversion Hsorted as [|? ? _ Hall]; subst. rewrite Forall_forall in Hall.
    specialize (Hall y' Hy'). lia.
  - rewrite Em. simpl. congruence.
  - apply nonempty_In. exists r1. apply filtered_df_In.
    apply year_is_eq in Hy1. auto.
Qed.

(** [selectors_open_on_the_latest_year] on the frame of two years. *)
Lemma selectors_open_on_the_latest_year_witness :
  exists y m,
    selectbox (AvailableYears (frame two_years)) = Some (Some y) /\
    (forall r y', In r (frame two_years) -> Year r = Some y' -> y' <= y) /\
    selectbox (AvailableMonths (frame two_years) y) = Some (Some m) /\
    filtered_df (frame two_years) y m <> [].
Proof.
  apply (selectors_open_on_the_latest_year (frame two_years)).
  - discriminate.
  - repeat constructor.
  - intros r Hr. simpl in Hr.
    destruct Hr as [H|[H|[H|[H|[]]]]]; subst r; discriminate.
Defined.

(** ** The branches of the script *)

Lemma assign_has labels name label :
  existsb (String.eqb label) (assign labels name)
  = existsb (String.eqb label) labels || String.eqb label name.
Proof.
  unfold assign. destruct (existsb (String.eqb name) labels) eqn:E.
  - destruct (String.eqb_spec label name) as [->|Hne]; [|now rewrite orb_false_r].
    now rewrite E.
  - rewrite existsb_app. simpl. now rewrite orb_false_r.
Qed.

Lemma assign_nonempty labels name : assign labels name <> [].
Proof.
  unfold assign. destruct (existsb (String.eqb name) labels) eqn:E.
  - intros ->. discriminate.
  - intros H. now apply app_eq_nil in H.
Qed.

(** The frame of a sheet has the columns the script reads exactly when the
    sheet names those that [load_data] does not add. *)
Lemma loaded_columns_read sheet rs :
  has_column sheet "Date" = true ->
  has_columns_read (mkDataFrame (loaded_labels sheet) rs) = names_columns_read sheet.
Proof.
  unfold has_columns_read, names_columns_read, loaded_labels, has_column.
  intros Hd. cbn [labels forallb]. rewrite !assign_has, !Hd.
  generalize (existsb (String.eqb "Year") (columns sheet)),
             (existsb (String.eqb "Month") (columns sheet)),
             (existsb (String.eqb "Amount") (columns sheet)),
             (existsb (String.eqb "Type") (columns sheet)),
             (existsb (String.eqb "Category") (columns sheet)),
             (existsb (String.eqb "Description") (columns sheet)).
  intros [] [] [] [] [] []; reflexivity.
Qed.

(** X14: a pasted URL that does not convert gives the warning to paste a
    valid URL, whatever is behind it; a sheet that cannot be fetched or is
    malformed gives the warning that no data was found, under the error
    that [load_data] reported; any other sheet is loaded without an error
    on the page, one row a line and at least one, and the script then shows
    the dashboard when the sheet names the columns [Type], [Category] and
    [Description] as well, and otherwise ends in the [KeyError] of the first
    column it reads and does not find, which nothing catches. *)
Theorem script_shows_the_dashboard_on_a_loaded_sheet
    (argsort : Argsort) (fetch : string -> Exception + Sheet) (user_sheet_url : string) :
  match convert_to_csv_url user_sheet_url with
  | None =>
      script argsort fetch user_sheet_url
      = mkOutcome (inr (Warning "Please paste a valid Google Sheet URL in the sidebar.")) []
  | Some sheet_url =>
      match fetch sheet_url with
      | inl e =>
          script argsort fetch user_sheet_url
          = mkOutcome (inr (Warning "No data found in sheet.")) [st_error e]
      | inr sheet =>
          if malformed sheet
          then exists e,
              script argsort fetch user_sheet_url
              = mkOutcome (inr (Warning "No data found in sheet.")) [st_error e]
          else exists df : DataFrame,
              load_data argsort fetch (Some sheet_url) = mkOutcome (inr df) [] /\
              List.length df = List.length (lines sheet) /\
              rows df <> [] /\
              if names_columns_read sheet
              then script argsort fetch user_sheet_url = mkOutcome (inr (Dashboard df)) []
              else exists key,
                  script argsort fetch user_sheet_url = mkOutcome (inl (KeyError key)) []
      end
  end.
Proof.
  unfold script.
  destruct (convert_to_csv_url user_sheet_url) as [sheet_url|] eqn:Ec; [|reflexivity].
  assert (Ht : truthy (Some sheet_url) = true).
  { destruct (converted_url_nonempty user_sheet_url sheet_url Ec) as (c & rest & ->).
    reflexivity. }
  rewrite Ht. cbv zeta.
  destruct (fetch sheet_url) as [e|sheet] eqn:Hf.
  - unfold load_data, load_data_body. now rewrite Hf.
  - destruct (malformed sheet) eqn:Hm.
    + destruct (load_data_body_malformed argsort fetch sheet_url sheet Hf Hm) as [e He].
      exists e. unfold load_data. now rewrite He.
    + destruct (load_data_body_wellformed argsort fetch sheet_url sheet Hf Hm)
        as (table & Hr & Hb).
      set (rs := map (add_columns (sheet_dtype sheet)) (sort_values argsort table)) in *.
      assert (Hlen : List.length rs = List.length (lines sheet)).
      { subst rs. rewrite length_map, (Permutation_length (sort_values_perm argsort table)).
        now apply read_csv_length. }
      assert (Hcols : has_column sheet "Date" = true /\ lines sheet <> []).
      { unfold malformed in Hm. apply orb_false_iff in Hm. destruct Hm as [Hm _].
        apply orb_false_iff in Hm. destruct Hm as [Hm Hn].
        apply orb_false_iff in Hm. destruct Hm as [Hd _].
        apply negb_false_iff in Hd. split; [exact Hd|].
        unfold no_lines in Hn. destruct (lines sheet); [discriminate | discriminate]. }
      destruct Hcols as [Hd Hlines].
      assert (Hne : rs <> []).
      { intros E. rewrite E in Hlen. destruct (lines sheet); [now elim Hlines | discriminate]. }
      assert (Hlab : loaded_labels sheet <> []) by apply assign_nonempty.
      exists (mkDataFrame (loaded_labels sheet) rs).
      unfold load_data. rewrite Hb. cbn [result page rows].
      split; [reflexivity|]. split; [exact Hlen|]. split; [exact Hne|].
      assert (Hempty : empty (mkDataFrame (loaded_labels sheet) rs) = false).
      { unfold empty. cbn [labels rows].
        destruct (loaded_labels sheet); [now elim Hlab|].
        destruct rs; [now elim Hne | reflexivity]. }
      rewrite Hempty. cbn [negb].
      rewrite <- (loaded_columns_read sheet rs Hd).
      destruct (columns_read_spec (mkDataFrame (loaded_labels sheet) rs))
        as [[Hc Hcr]|[Hc (key & Hcr)]]; rewrite Hc, Hcr.
      * reflexivity.
      * now exists key.
Qed.

(** [script_shows_the_dashboard_on_a_loaded_sheet] at the sharing link of a
    sheet that is loaded and has every column: the dashboard. *)
Lemma script_shows_the_dashboard_on_a_loaded_sheet_witness :
  exists df : DataFrame,
    load_data argsort_of_numpy (served sheet_with_tie)
      (Some "https://docs.google.com/spreadsheets/d/xxxxxxx/export?format=csv")
    = mkOutcome (inr df) [] /\
    List.length df = List.length (lines sheet_with_tie) /\
    rows df <> [] /\
    script argsort_of_numpy (served sheet_with_tie)
           "https://docs.google.com/spreadsheets/d/xxxxxxx/edit?usp=sharing"
    = mkOutcome (inr (Dashboard df)) [].
Proof.
  exact (script_shows_the_dashboard_on_a_loaded_sheet argsort_of_numpy
           (served sheet_with_tie)
           "https://docs.google.com/spreadsheets/d/xxxxxxx/edit?usp=sharing").
Defined.

(** The script on a sheet that has every column, on a sheet without the
    [Type] column, and at the placeholder of the input box. *)
Example script_on_three_inputs :
  script argsort_of_numpy (served sheet_with_tie)
         "https://docs.google.com/spreadsheets/d/xxxxxxx/edit?usp=sharing"
  = mkOutcome (inr (Dashboard (loaded sheet_with_tie))) [] /\
  script argsort_of_numpy (served sheet_without_Type)
         "https://docs.google.com/spreadsheets/d/xxxxxxx/edit?usp=sharing"
  = mkOutcome (inl (KeyError "Type")) [] /\
  script argsort_of_numpy (served sheet_with_tie)
         "https://docs.google.com/spreadsheets/d/xxxxxxx/edit#gid=0"
  = mkOutcome (inr (Warning "Please paste a valid Google Sheet URL in the sidebar.")) [].
Proof. repeat split. Qed.
